(** * dataGenerator.py: synthetic e-commerce data, generated and bulk-loaded

    A shallow embedding of [src/dataGenerator.py] and the properties of its
    row producers, its samplers and its CSV sink.

    Modelling conventions.
    - Python [int] is [Z]; [str] is [string]; a tuple is a Rocq tuple.
    - Python [float] is a rational [Q].  A uniform draw of
      [random.random()] is one of the 2^53 multiples of 2^-53 in [0, 1), and
      a literal such a draw is compared with denotes its binary64 value, so
      that every comparison of a draw with a threshold comes out as in the
      code.  Arithmetic on floats is exact and [round(x, 2)] rounds the
      exact value half-to-even: the rounding error of binary64 arithmetic is
      not modelled.
    - The library random source ([random], Mersenne Twister) is an oracle: a
      tape of raw draws and a cursor.  Every operation reads the cell under
      the cursor, brings it into the range the library documents for that
      operation, and advances the cursor.
      [random.seed(a)] selects the tape of seed [a] and rewinds.
    - [Faker] is an oracle of the same shape, yielding words and numbers.
    - The wall clock is a sequence of readings, in whole seconds since the
      epoch (UTC); every [utcnow()] / [today] consumes one reading.
    - A generator is the computation of its body: the rows it yields, in
      order, and how it ends (exhausted or raising).
    - The file system is a map from the paths of regular files to their
      contents.  Directories are not recorded: a directory with a name
      that is not empty exists or can be created, and a file in it can be
      opened for writing; [os.makedirs] of the empty name raises.
    - Of the database server the model keeps the two session settings the
      code touches, whether the account may set a global variable, and,
      for every table, the lines that were sent to it for import.  The
      server refuses [LOAD DATA LOCAL] while [local_infile] is off.  What
      the server stores of the lines it is sent (conversions, keys, the
      carriage return before each line feed) is not modelled.  Connecting
      and creating the database and the tables succeed.
    - Standard output is a list of messages.  Files, server and output are
      part of the world the process runs in. *)

From Stdlib Require Import ZArith QArith Qround Qabs Qminmax.
From Stdlib Require Import List FinFun String Ascii Bool Lia Lqa.
From Stdlib Require Import DecimalString DecimalPos DecimalZ.
Import ListNotations.

Open Scope Z_scope.

(** ** Python built-ins *)

Inductive exn : Type :=
| ValueError          (* random.randint on an empty range *)
| IndexError          (* random.choice on an empty sequence *)
| ZeroDivisionError   (* [written % chunk] with [chunk = 0] *)
| FileNotFoundError   (* os.makedirs of the empty name *)
| DatabaseError.      (* LOAD DATA refused, or on a file that does not exist *)

Module Py.

(** [round(x)] to an integer, ties to the even neighbour. *)
Definition round_half_even (x : Q) : Z :=
  let f := Qfloor x in
  match (x - inject_Z f ?= 1 # 2)%Q with
  | Lt => f
  | Gt => f + 1
  | Eq => if Z.even f then f else f + 1
  end.

(** [round(x, ndigits)] for [ndigits >= 0]. *)
Definition round (x : Q) (ndigits : Z) : Q :=
  let scale := 10 ^ ndigits in
  Qmake (round_half_even (x * inject_Z scale)) (Z.to_pos scale).

Definition max (a b : Q) : Q := if Qlt_le_dec a b then b else a.

(** [2 ** s] for an integer [s] of either sign. *)
Definition pow2 (s : Z) : Q :=
  if (0 <=? s)%Z then inject_Z (2 ^ s) else 1 # Z.to_pos (2 ^ (- s)).

(** The binary exponent of a positive rational: the [e] with
    [2 ** e <= q < 2 ** (e + 1)]. *)
Definition exponent (q : Q) : Z :=
  let l := (Z.log2 (Qnum q) - Z.log2 (Z.pos (Qden q)))%Z in
  if Qle_bool (pow2 l) q then l else (l - 1)%Z.

(** The binary64 number nearest to a positive rational, ties to the even
    mantissa (53 bits; normal range). *)
Definition nearest (q : Q) : Q :=
  let s := (52 - exponent q)%Z in
  (inject_Z (round_half_even (q * pow2 s)) * pow2 (- s))%Q.

(** The float a decimal literal denotes. *)
Definition double (q : Q) : Q :=
  match Qnum q with
  | Z0 => 0%Q
  | Z.pos _ => nearest q
  | Z.neg _ => (- nearest (- q))%Q
  end.

Definition abs (a : Q) : Q := if Qlt_le_dec a 0 then (- a)%Q else a.

(** [str(n)] for an [int]. *)
Definition str (n : Z) : string := NilZero.string_of_int (Z.to_int n).

(** [n] written with at least [width] digits, zero-padded on the left
    (the [%Y], [%m], [%d], [%H], [%M], [%S] fields use it). *)
Fixpoint zeros (k : nat) : string :=
  match k with
  | O => EmptyString
  | S k' => String "0" (zeros k')
  end.

Definition zfill (width : nat) (n : Z) : string :=
  let s := str n in
  (zeros (width - String.length s) ++ s)%string.

(** [repr(x)] of a float holding a value with at most two decimals, which
    is what every float written by the producers is: the shortest decimal,
    with at least one digit after the point. *)
Definition repr_float (x : Q) : string :=
  let c := round_half_even (x * 100)%Q in
  let a := Z.abs c in
  let frac := a mod 100 in
  let sign := if c <? 0 then "-"%string else EmptyString in
  let decimals := if frac mod 10 =? 0 then str (frac / 10) else zfill 2 frac in
  (sign ++ str (a / 100) ++ "." ++ decimals)%string.

(** [c.lower()] on one character (ASCII letters; the default Faker locale
    produces ASCII names). *)
Definition lower_ascii (c : ascii) : ascii :=
  let n := nat_of_ascii c in
  if (65 <=? n)%nat && (n <=? 90)%nat then ascii_of_nat (n + 32) else c.

Fixpoint lower (s : string) : string :=
  match s with
  | EmptyString => EmptyString
  | String c s' => String (lower_ascii c) (lower s')
  end.

(** [os.path.join(a, b)] on a POSIX system. *)
Fixpoint ends_with_slash (a : string) : bool :=
  match a with
  | EmptyString => false
  | String c EmptyString => Ascii.eqb c "/"
  | String _ a' => ends_with_slash a'
  end.

Definition path_join (a b : string) : string :=
  match b with
  | String "/" _ => b
  | _ => if String.eqb a EmptyString || ends_with_slash a
         then (a ++ b)%string else (a ++ "/" ++ b)%string
  end.

End Py.

(** ** The random source, Faker and the clock *)

(** [stream a] is the sequence of raw draws the generator produces once it
    is seeded with [a]; [seeded] is the seed in force, [cursor] counts the
    draws made since. *)
Record RandomState : Type :=
  mkRandom { stream : Z -> nat -> Q; seeded : Z; cursor : nat }.

Record FakerState : Type :=
  mkFaker {
    words : Z -> nat -> string;
    numbers : Z -> nat -> Z;
    fseeded : Z;
    fcursor : nat
  }.

Record Clock : Type := mkClock { readings : nat -> Z; reads : nat }.

Inductive message : Type :=
| Say (text : string)
| Warned   (* "Warning: couldn't set GLOBAL local_infile=1 (need privileges). ..." *)
| Wrote (written : Z) (name : string)   (* "  wrote {written:,} rows -> {name}" *)
| Done (written : Z) (name : string)    (* "  done {written:,} rows -> {name}" *)
| Summary (p_rows c_rows o_rows i_rows : Z).

Record System : Type :=
  mkSystem {
    files : string -> option string;        (* path -> content *)
    tables : string -> string -> list string; (* database, table -> lines sent for import *)
    local_infile : bool;                    (* the server's global [local_infile] *)
    foreign_key_checks : bool;              (* the session's [FOREIGN_KEY_CHECKS] *)
    set_global_allowed : bool;              (* the account may [SET GLOBAL] *)
    stdout : list message
  }.

Record World : Type :=
  mkWorld { rng : RandomState; faker : FakerState; clock : Clock; sys : System }.

(** ** Generators

    A computation that may yield rows of type [Y], reads and advances the
    world, and ends with a value or an exception. *)

Definition Gen (Y A : Type) : Type := World -> list Y * (A + exn) * World.

Definition ret {Y A} (a : A) : Gen Y A := fun w => ([], inl a, w).

Definition raise {Y A} (e : exn) : Gen Y A := fun w => ([], inr e, w).

Definition bind {Y A B} (m : Gen Y A) (k : A -> Gen Y B) : Gen Y B :=
  fun w =>
    match m w with
    | (ys, inl a, w1) =>
        match k a w1 with
        | (ys', r, w2) => (ys ++ ys', r, w2)
        end
    | (ys, inr e, w1) => (ys, inr e, w1)
    end.

Definition yield {Y} (y : Y) : Gen Y unit := fun w => ([y], inl tt, w).

Notation "x <- m ;; k" := (bind m (fun x => k))
  (at level 61, m at next level, right associativity).
Notation "' pat <- m ;; k" := (bind m (fun x => match x with pat => k end))
  (at level 61, pat pattern, m at next level, right associativity).
Notation "m ;;; k" := (bind m (fun _ => k))
  (at level 61, right associativity).

(** [for x in xs: s = body(x, s)], the loop-carried locals being [s]. *)
Fixpoint for_each {Y B S} (xs : list B) (body : B -> S -> Gen Y S) (s : S) : Gen Y S :=
  match xs with
  | [] => ret s
  | x :: xs' => s' <- body x s ;; for_each xs' body s'
  end.

(** [range(start, stop)] and [range(n)]. *)
Definition range (start stop : Z) : list Z :=
  map (fun i => start + Z.of_nat i) (seq 0 (Z.to_nat (stop - start))).

Definition range0 (n : Z) : list Z := range 0 n.

Definition rows {Y A} (r : list Y * (A + exn) * World) : list Y := fst (fst r).
Definition outcome {Y A} (r : list Y * (A + exn) * World) : A + exn := snd (fst r).
Definition world_after {Y A} (r : list Y * (A + exn) * World) : World := snd r.

(** ** Library operations on the world *)

Module Random.

(** The raw cell under the cursor; the cursor moves on. *)
Definition draw {Y} : Gen Y Q :=
  fun w =>
    let s := rng w in
    ([], inl (stream s (seeded s) (cursor s)),
     mkWorld (mkRandom (stream s) (seeded s) (S (cursor s))) (faker w) (clock w) (sys w)).

(** [random.seed(a)] *)
Definition seed {Y} (a : Z) : Gen Y unit :=
  fun w =>
    ([], inl tt, mkWorld (mkRandom (stream (rng w)) a 0) (faker w) (clock w) (sys w)).

(** [random.random()]: a float in [0, 1) with 53 random bits, that is
    [k / 2 ** 53] for an integer [0 <= k < 2 ** 53]; [k] is taken from the
    fraction of the raw draw. *)
Definition random {Y} : Gen Y Q :=
  q <- draw ;; ret (Qfloor (q * inject_Z (2 ^ 53)) mod 2 ^ 53 # 2 ^ 53).

(** An integer in [0, n), for [n > 0]. *)
Definition randbelow {Y} (n : Z) : Gen Y Z :=
  q <- draw ;; ret (Qfloor q mod n).

(** [random.randint(a, b)]: an integer in [a, b]; an empty range raises. *)
Definition randint {Y} (a b : Z) : Gen Y Z :=
  if b - a + 1 <=? 0 then raise ValueError
  else k <- randbelow (b - a + 1) ;; ret (a + k).

(** [random.choice(seq)]: an element of [seq]; an empty one raises. *)
Definition choice {Y A} (seq : list A) : Gen Y A :=
  match seq with
  | [] => raise IndexError
  | x :: _ =>
      k <- randbelow (Z.of_nat (List.length seq)) ;;
      ret (nth (Z.to_nat k) seq x)
  end.

(** [random.uniform(a, b)] is [a + (b - a) * random()]. *)
Definition uniform {Y} (a b : Q) : Gen Y Q :=
  r <- random ;; ret (a + (b - a) * r)%Q.

(** [random.gauss(mu, sigma)] is [mu + z * sigma] for a standard normal
    deviate [z]; the library computes [z] from two 53-bit uniforms, which
    keeps it within 9 of zero. *)
Definition deviate (q : Q) : Q := Qmax (- (9)) (Qmin 9 q).

Definition gauss {Y} (mu sigma : Q) : Gen Y Q :=
  q <- draw ;; ret (mu + deviate q * sigma)%Q.

End Random.

Module Datetime.

Definition seconds_per_day : Z := 86400.

(** [datetime.utcnow()], in whole seconds since the epoch. *)
Definition utcnow {Y} : Gen Y Z :=
  fun w =>
    let c := clock w in
    ([], inl (readings c (reads c)),
     mkWorld (rng w) (faker w) (mkClock (readings c) (S (reads c))) (sys w)).

(** [date.today()], in days since the epoch. *)
Definition today {Y} : Gen Y Z :=
  now <- utcnow ;; ret (now / seconds_per_day).

(** Year, month and day of a day count (proleptic Gregorian calendar). *)
Definition civil_from_days (days : Z) : Z * Z * Z :=
  let z := days + 719468 in
  let era := z / 146097 in
  let doe := z - era * 146097 in
  let yoe := (doe - doe / 1460 + doe / 36524 - doe / 146096) / 365 in
  let doy := doe - (365 * yoe + yoe / 4 - yoe / 100) in
  let mp := (5 * doy + 2) / 153 in
  let d := doy - (153 * mp + 2) / 5 + 1 in
  let m := if mp <? 10 then mp + 3 else mp - 9 in
  let y := yoe + era * 400 + (if m <=? 2 then 1 else 0) in
  (y, m, d).

(** [date.isoformat()]: YYYY-MM-DD. *)
Definition isoformat (days : Z) : string :=
  let '(y, m, d) := civil_from_days days in
  (Py.zfill 4 y ++ "-" ++ Py.zfill 2 m ++ "-" ++ Py.zfill 2 d)%string.

(** [dt.strftime("%Y-%m-%d %H:%M:%S")]. *)
Definition strftime (secs : Z) : string :=
  let t := secs mod seconds_per_day in
  (isoformat (secs / seconds_per_day) ++ " " ++ Py.zfill 2 (t / 3600) ++ ":" ++
   Py.zfill 2 (t mod 3600 / 60) ++ ":" ++ Py.zfill 2 (t mod 60))%string.

End Datetime.

Module Fake.

Definition word {Y} : Gen Y string :=
  fun w =>
    let f := faker w in
    ([], inl (words f (fseeded f) (fcursor f)),
     mkWorld (rng w) (mkFaker (words f) (numbers f) (fseeded f) (S (fcursor f)))
       (clock w) (sys w)).

Definition number {Y} : Gen Y Z :=
  fun w =>
    let f := faker w in
    ([], inl (numbers f (fseeded f) (fcursor f)),
     mkWorld (rng w) (mkFaker (words f) (numbers f) (fseeded f) (S (fcursor f)))
       (clock w) (sys w)).

(** [fake.seed_instance(a)] *)
Definition seed_instance {Y} (a : Z) : Gen Y unit :=
  fun w =>
    let f := faker w in
    ([], inl tt, mkWorld (rng w) (mkFaker (words f) (numbers f) a 0) (clock w) (sys w)).

Definition first_name {Y} : Gen Y string := word.
Definition last_name {Y} : Gen Y string := word.
Definition city {Y} : Gen Y string := word.

(** [fake.date_between(start_date="-<years>y", end_date="today")]: a date
    in the window that ends today and starts 365.24 days per year
    earlier (rounded out to whole days). *)
Definition date_between {Y} (years : Z) : Gen Y Z :=
  today <- Datetime.today ;;
  k <- number ;;
  let span := Qceiling (365.24 * inject_Z years)%Q in
  ret (today - k mod (span + 1)).

End Fake.

(** ** The source's helpers *)

(** [daterange(start_days_ago, end_days_ago)] *)
Definition daterange {Y} (start_days_ago end_days_ago : Z) : Gen Y (Z * Z) :=
  now <- Datetime.utcnow ;;
  let start := now - Datetime.seconds_per_day * start_days_ago in
  let end_ := now - Datetime.seconds_per_day * end_days_ago in
  ret (start, end_).

(** [rand_datetime(start, end)] *)
Definition rand_datetime {Y} (start end_ : Z) : Gen Y Z :=
  let delta := end_ - start in
  seconds <- Random.randint 0 delta ;;
  ret (start + seconds).

(** ** Row producers *)

Definition product_row : Type := Z * string * string * string * Q * Q * string * Z.
Definition customer_row : Type :=
  Z * string * string * string * string * string * string * Z * string.
Definition order_row : Type := Z * Z * string * string * string * string * string * Q * Q.
Definition item_row : Type := Z * Z * Z * Z * Q * Q.

Open Scope string_scope.

Definition categories : list (string * list string * list string) :=
  [ ("Electronics", ["Phones"; "Laptops"; "Headphones"; "Monitors"; "Cameras"],
       ["Acme"; "Zebra"; "Lux"; "Nova"; "Kite"]);
    ("Home", ["Kitchen"; "Bedding"; "Furniture"; "Decor"],
       ["Homely"; "Casa"; "Nido"; "Oak&Co"]);
    ("Outdoors", ["Camping"; "Cycling"; "Hiking"; "Fishing"], ["Trail"; "Peak"; "Rivera"]);
    ("Beauty", ["Skincare"; "Haircare"; "Fragrance"], ["Aura"; "Bloom"; "Velvet"]);
    ("Toys", ["Blocks"; "RC"; "Puzzles"; "Plush"], ["PlayCo"; "Kiddo"; "FunLab"]) ].

Definition sources : list string :=
  ["seo"; "sem"; "email"; "social"; "direct"; "referral"; "marketplace"].

Definition countries : list string :=
  ["UA"; "PL"; "DE"; "FR"; "GB"; "US"; "CA"; "ES"; "IT"; "NL"; "SE"; "NO"].

Definition statuses : list string :=
  ["paid"; "paid"; "paid"; "shipped"; "shipped"; "cancelled"; "refunded"].

Definition pay_methods : list string :=
  ["card"; "card"; "card"; "paypal"; "cod"; "applepay"; "googlepay"].

Definition currencies : list string := ["USD"; "EUR"; "PLN"; "GBP"].

(** [gen_products(fake, n_products)]; the [fake] instance lives in the world.
    The loop carries [pid]. *)
Definition gen_products (n_products : Z) : Gen product_row unit :=
  for_each (range0 n_products)
    (fun _ pid =>
       ' (cat, subs, brands) <- Random.choice categories ;;
       sub <- Random.choice subs ;;
       brand <- Random.choice brands ;;
       base <- Random.uniform 5 900 ;;
       let price := Py.round base 2 in
       u <- Random.uniform 0.5 0.85 ;;
       let cost := Py.round (price * u) 2 in
       created <- Fake.date_between 5 ;;
       r <- Random.random ;;
       let is_active := if Qlt_le_dec (Py.double 0.15) r then 1%Z else 0%Z in
       yield (pid, cat, sub, brand, price, cost, Datetime.isoformat created, is_active) ;;;
       ret (pid + 1)%Z)
    1%Z ;;;
  ret tt.

(** [gen_customers(fake, n_customers)]; the loop carries [cid]. *)
Definition gen_customers (n_customers : Z) : Gen customer_row unit :=
  for_each (range0 n_customers)
    (fun _ cid =>
       first <- Fake.first_name ;;
       last <- Fake.last_name ;;
       let email := Py.lower (first ++ "." ++ last ++ "." ++ Py.str cid ++ "@example.com") in
       signup <- Fake.date_between 3 ;;
       country <- Random.choice countries ;;
       city <- Fake.city ;;
       r <- Random.random ;;
       let mkt := if Qlt_le_dec r (Py.double 0.35) then 1%Z else 0%Z in
       source <- Random.choice sources ;;
       yield (cid, first, last, email, Datetime.isoformat signup, country, city, mkt, source) ;;;
       ret (cid + 1)%Z)
    1%Z ;;;
  ret tt.

(** [status in ("shipped", "paid")] *)
Definition shipped_or_paid (status : string) : bool :=
  String.eqb status "shipped" || String.eqb status "paid".

(** [gen_orders(fake, n_orders, n_customers)]: calling it reads the clock
    (through [daterange]) and returns the iterator; the loop carries [oid]. *)
Definition gen_orders {Y} (n_orders n_customers : Z) : Gen Y (Gen order_row unit) :=
  ' (start, end_) <- daterange 730 0 ;;
  ret
    (for_each (range0 n_orders)
       (fun _ oid =>
          cust <- Random.randint 1 n_customers ;;
          dt <- rand_datetime start end_ ;;
          status <- Random.choice statuses ;;
          curr <- Random.choice currencies ;;
          pay <- Random.choice pay_methods ;;
          ship <- Random.choice countries ;;
          r <- Random.random ;;
          discount <-
            (if Qlt_le_dec r (Py.double 0.25)
             then g <- Random.gauss 3 7 ;; ret (Py.round (Py.max 0.0 g) 2)
             else ret 0.00%Q) ;;
          g <- Random.gauss 80 70 ;;
          let total :=
            Py.round (Py.abs g + (if shipped_or_paid status then 5 else 0)) 2 in
          yield (oid, cust, Datetime.strftime dt, status, curr, pay, ship, discount, total) ;;;
          ret (oid + 1)%Z)
       1%Z ;;;
     ret tt).

(** [items_per_order()], local to [gen_order_items]. *)
Definition items_per_order {Y} : Gen Y Z :=
  r <- Random.random ;;
  if Qlt_le_dec r (Py.double 0.40) then ret 1%Z
  else if Qlt_le_dec r (Py.double 0.70) then ret 2%Z
  else if Qlt_le_dec r (Py.double 0.88) then ret 3%Z
  else if Qlt_le_dec r (Py.double 0.95) then ret 4%Z
  else if Qlt_le_dec r (Py.double 0.985) then ret 5%Z
  else ret 6%Z.

(** [gen_order_items(n_orders, n_products, avg_items=3)]; the outer loop
    carries [item_id] through the inner one. *)
Definition gen_order_items (n_orders n_products : Z) (avg_items : Q) : Gen item_row unit :=
  for_each (range 1 (n_orders + 1))
    (fun oid item_id =>
       k <- items_per_order ;;
       for_each (range0 k)
         (fun _ item_id =>
            pid <- Random.randint 1 n_products ;;
            r <- Random.random ;;
            qty <- (if Qlt_le_dec r (Py.double 0.7) then ret 1%Z else Random.randint 2 5) ;;
            g <- Random.gauss 60 50 ;;
            let unit := Py.round (Py.max 1.0 g) 2 in
            let line_total := Py.round (unit * inject_Z qty) 2 in
            yield (item_id, oid, pid, qty, unit, line_total) ;;;
            ret (item_id + 1)%Z)
         item_id)
    1%Z ;;;
  ret tt.

(** ** The csv module (default dialect: comma, double quote, minimal
    quoting, CR LF line terminator) *)

Module Csv.

Inductive field : Type :=
| Int (n : Z)
| Float (x : Q)
| Str (s : string).

Definition quotechar : ascii := "034"%char.
Definition CR : ascii := "013"%char.
Definition LF : ascii := "010"%char.
Definition lineterminator : string := String CR (String LF EmptyString).

(** [str(field)] *)
Definition text (f : field) : string :=
  match f with
  | Int n => Py.str n
  | Float x => Py.repr_float x
  | Str s => s
  end.

Definition special (c : ascii) : bool :=
  Ascii.eqb c "," || Ascii.eqb c quotechar || Ascii.eqb c CR || Ascii.eqb c LF.

Fixpoint needs_quoting (s : string) : bool :=
  match s with
  | EmptyString => false
  | String c s' => special c || needs_quoting s'
  end.

(** Every quote character is doubled. *)
Fixpoint escape (s : string) : string :=
  match s with
  | EmptyString => EmptyString
  | String c s' =>
      if Ascii.eqb c quotechar then String c (String c (escape s')) else String c (escape s')
  end.

Definition quoted (s : string) : string :=
  String quotechar (escape s ++ String quotechar EmptyString).

Definition render (s : string) : string :=
  if needs_quoting s then quoted s else s.

Fixpoint join (sep : string) (parts : list string) : string :=
  match parts with
  | [] => EmptyString
  | [p] => p
  | p :: ps => p ++ sep ++ join sep ps
  end.

(** A record without its line terminator; one made of a single empty
    field is written as a pair of quotes. *)
Definition record (row : list field) : string :=
  match map text row with
  | [EmptyString] => quoted EmptyString
  | texts => join "," (map render texts)
  end.

(** The text [writer.writerow(row)] appends to the file. *)
Definition writerow (row : list field) : string :=
  record row ++ lineterminator.

End Csv.

Definition product_fields (r : product_row) : list Csv.field :=
  let '(pid, cat, sub, brand, price, cost, created, is_active) := r in
  [Csv.Int pid; Csv.Str cat; Csv.Str sub; Csv.Str brand; Csv.Float price; Csv.Float cost;
   Csv.Str created; Csv.Int is_active].

Definition customer_fields (r : customer_row) : list Csv.field :=
  let '(cid, first, last, email, signup, country, city, mkt, source) := r in
  [Csv.Int cid; Csv.Str first; Csv.Str last; Csv.Str email; Csv.Str signup; Csv.Str country;
   Csv.Str city; Csv.Int mkt; Csv.Str source].

Definition order_fields (r : order_row) : list Csv.field :=
  let '(oid, cust, dt, status, curr, pay, ship, discount, total) := r in
  [Csv.Int oid; Csv.Int cust; Csv.Str dt; Csv.Str status; Csv.Str curr; Csv.Str pay;
   Csv.Str ship; Csv.Float discount; Csv.Float total].

Definition item_fields (r : item_row) : list Csv.field :=
  let '(item_id, oid, pid, qty, unit, line_total) := r in
  [Csv.Int item_id; Csv.Int oid; Csv.Int pid; Csv.Int qty; Csv.Float unit; Csv.Float line_total].

(** ** The process's system: files, tables, standard output *)

Definition update_sys {Y} (f : System -> System) : Gen Y unit :=
  fun w => ([], inl tt, mkWorld (rng w) (faker w) (clock w) (f (sys w))).

Definition get_sys {Y} : Gen Y System := fun w => ([], inl (sys w), w).

Definition print {Y} (m : message) : Gen Y unit :=
  update_sys (fun s =>
    mkSystem (files s) (tables s) (local_infile s) (foreign_key_checks s)
      (set_global_allowed s) (stdout s ++ [m])).

Definition set_file (path : string) (content : string) (s : System) : System :=
  mkSystem (fun p => if String.eqb p path then Some content else files s p)
    (tables s) (local_infile s) (foreign_key_checks s) (set_global_allowed s) (stdout s).

(** [open(path, "w")] creates or truncates the file. *)
Definition fopen {Y} (path : string) : Gen Y unit :=
  update_sys (set_file path EmptyString).

(** A write appends to the open file. *)
Definition fwrite {Y} (path : string) (data : string) : Gen Y unit :=
  update_sys (fun s =>
    match files s path with
    | Some content => set_file path (content ++ data) s
    | None => set_file path data s
    end).

(** [os.path.basename(path)] and [os.path.dirname(path)] on a POSIX system:
    what follows the last slash, and what precedes it, without the slashes
    it ends with unless it is made of slashes only. *)
Fixpoint has_slash (s : string) : bool :=
  match s with
  | EmptyString => false
  | String c s' => Ascii.eqb c "/" || has_slash s'
  end.

Fixpoint basename (s : string) : string :=
  match s with
  | EmptyString => EmptyString
  | String c s' =>
      if has_slash s' then basename s' else if Ascii.eqb c "/" then s' else s
  end.

Fixpoint up_to_last_slash (s : string) : string :=
  match s with
  | EmptyString => EmptyString
  | String c s' =>
      if has_slash s' || Ascii.eqb c "/" then String c (up_to_last_slash s')
      else EmptyString
  end.

Fixpoint all_slashes (s : string) : bool :=
  match s with
  | EmptyString => true
  | String c s' => Ascii.eqb c "/" && all_slashes s'
  end.

Fixpoint rstrip_slashes (s : string) : string :=
  match s with
  | EmptyString => EmptyString
  | String c s' =>
      if Ascii.eqb c "/" && all_slashes s' then EmptyString
      else String c (rstrip_slashes s')
  end.

Definition dirname (s : string) : string :=
  let head := up_to_last_slash s in
  if all_slashes head then head else rstrip_slashes head.

(** [os.makedirs(name, exist_ok=True)]: the empty name raises. *)
Definition makedirs {Y} (name : string) : Gen Y unit :=
  if String.eqb name EmptyString then raise FileNotFoundError else ret tt.

(** Running an iterator to its end from inside its consumer: the rows it
    yields and the exception that ended it, if one did.  The rows are drawn
    before they are written, where the code draws and writes them in turn.
    The iterators read the random source, Faker and the clock, and the
    writer touches the file and standard output only, so that the files,
    the output, the result and, whenever the loop runs to its end or the
    iterator raises, the state of the three sources are those of the code.
    When the loop itself raises ([chunk = 0]) the code leaves the iterator
    suspended after its first row; the state the sources are left in then
    is not the one the model gives, and no statement below speaks of it. *)
Definition iterate {Y Row} (row_iter : Gen Row unit) : Gen Y (list Row * option exn) :=
  fun w =>
    match row_iter w with
    | (ys, inl _, w1) => ([], inl (ys, None), w1)
    | (ys, inr e, w1) => ([], inl (ys, Some e), w1)
    end.

(** [write_csv(path, header, row_iter, chunk=100_000)]; [fields] lists the
    components of a row tuple. *)
Definition write_csv {Y Row} (fields : Row -> list Csv.field)
    (path : string) (header : list string) (row_iter : Gen Row unit) (chunk : Z) : Gen Y Z :=
  makedirs (dirname path) ;;;
  fopen path ;;;
  fwrite path (Csv.writerow (map Csv.Str header)) ;;;
  ' (ys, ending) <- iterate row_iter ;;
  written <-
    for_each ys
      (fun row written =>
         fwrite path (Csv.writerow (fields row)) ;;;
         let written := (written + 1)%Z in
         (if (chunk =? 0)%Z then raise ZeroDivisionError
          else if (written mod chunk =? 0)%Z then print (Wrote written (basename path))
          else ret tt) ;;;
         ret written)
      0%Z ;;
  match ending with
  | Some e => raise e
  | None => print (Done written (basename path)) ;;; ret written
  end.

Definition default_chunk : Z := 100000.

(** ** Bulk loading *)

(** The lines of a text, split at LF. *)
Fixpoint lines (s : string) : list string :=
  match s with
  | EmptyString => []
  | String c s' =>
      if Ascii.eqb c Csv.LF then EmptyString :: lines s'
      else match lines s' with
           | [] => [String c EmptyString]
           | l :: ls => String c l :: ls
           end
  end.

(** The lines after the header line. *)
Definition data_lines (content : string) : list string := tl (lines content).

(** [ensure_local_infile_enabled(conn)]: nothing to do when the variable is
    on; otherwise [SET GLOBAL local_infile = 1] is tried, and a refusal is
    caught and reported. *)
Definition ensure_local_infile_enabled {Y} : Gen Y unit :=
  s <- get_sys ;;
  if local_infile s then ret tt
  else if set_global_allowed s then
    update_sys (fun s =>
      mkSystem (files s) (tables s) true (foreign_key_checks s) (set_global_allowed s)
        (stdout s)) ;;;
    print (Say "Enabled GLOBAL local_infile=1")
  else print Warned.

(** [SET FOREIGN_KEY_CHECKS=b] *)
Definition set_foreign_key_checks {Y} (b : bool) : Gen Y unit :=
  update_sys (fun s =>
    mkSystem (files s) (tables s) (local_infile s) b (set_global_allowed s) (stdout s)).

(** [LOAD DATA LOCAL INFILE path INTO TABLE db.table ... LINES TERMINATED BY
    '\n' IGNORE 1 LINES]: refused while [local_infile] is off; otherwise
    the file is read and every line after the first is sent to the table. *)
Definition load_data {Y} (db table path : string) : Gen Y unit :=
  s <- get_sys ;;
  if negb (local_infile s) then raise DatabaseError
  else
    match files s path with
    | None => raise DatabaseError
    | Some content =>
        update_sys (fun s =>
          mkSystem (files s)
            (fun d t =>
               if String.eqb d db && String.eqb t table
               then (tables s d t ++ data_lines content)%list else tables s d t)
            (local_infile s) (foreign_key_checks s) (set_global_allowed s) (stdout s))
    end.

(** [load_csv(conn, db, table, path)] *)
Definition load_csv {Y} (db table path : string) : Gen Y unit :=
  ensure_local_infile_enabled ;;;
  set_foreign_key_checks false ;;;
  load_data db table path ;;;
  set_foreign_key_checks true.

(** ** The orchestrator *)

Record Args : Type :=
  mkArgs {
    host : string; port : Z; user : string; password : string;
    database : string; outdir : string;
    customers : Z; products : Z; orders : Z; items_avg : Q
  }.

Definition default_args : Args :=
  mkArgs "127.0.0.1" 3306 "root" EmptyString "ecommerce_synth" "data"
    1200000 1200000 2000000 3.0.

Definition products_header : list string :=
  ["product_id"; "category"; "subcategory"; "brand"; "price"; "cost"; "created_at"; "is_active"].

Definition customers_header : list string :=
  ["customer_id"; "first_name"; "last_name"; "email"; "signup_date"; "country"; "city";
   "marketing_opt_in"; "acquisition_source"].

Definition orders_header : list string :=
  ["order_id"; "customer_id"; "order_date"; "status"; "currency"; "payment_method";
   "shipping_country"; "discount"; "total_amount"].

Definition items_header : list string :=
  ["order_item_id"; "order_id"; "product_id"; "quantity"; "unit_price"; "line_total"].

(** [main()], after argument parsing.  Connecting, [ensure_db] and
    [create_tables] succeed and leave the tables as they are (created empty
    when absent).  The fixed progress texts are written without their
    leading newline and trailing ellipsis. *)
Definition main {Y} (args : Args) : Gen Y unit :=
  print (Say "Connecting to MySQL") ;;;
  Fake.seed_instance 42 ;;;
  Random.seed 42 ;;;
  makedirs (outdir args) ;;;
  print (Say "Generating products") ;;;
  let products_csv := Py.path_join (outdir args) "products.csv" in
  p_rows <- write_csv product_fields products_csv products_header
              (gen_products (products args)) default_chunk ;;
  print (Say "Loading products into MySQL") ;;;
  load_csv (database args) "products" products_csv ;;;
  print (Say "Generating customers") ;;;
  let customers_csv := Py.path_join (outdir args) "customers.csv" in
  c_rows <- write_csv customer_fields customers_csv customers_header
              (gen_customers (customers args)) default_chunk ;;
  print (Say "Loading customers into MySQL") ;;;
  load_csv (database args) "customers" customers_csv ;;;
  print (Say "Generating orders") ;;;
  let orders_csv := Py.path_join (outdir args) "orders.csv" in
  order_iter <- gen_orders (orders args) (customers args) ;;
  o_rows <- write_csv order_fields orders_csv orders_header order_iter default_chunk ;;
  print (Say "Loading orders into MySQL") ;;;
  load_csv (database args) "orders" orders_csv ;;;
  print (Say "Generating order_items (streamed; target ~avg items/order)") ;;;
  let items_csv := Py.path_join (outdir args) "order_items.csv" in
  i_rows <- write_csv item_fields items_csv items_header
              (gen_order_items (orders args) (products args) (items_avg args))
              default_chunk ;;
  print (Say "Loading order_items into MySQL") ;;;
  load_csv (database args) "order_items" items_csv ;;;
  print (Say "All done!") ;;;
  print (Summary p_rows c_rows o_rows i_rows).

(** A process: [main] run in a world, with nothing yielded. *)
Definition run (args : Args) (w : World) : (unit + exn) * World :=
  let '(_, r, w') := main (Y := Empty_set) args w in (r, w').

Definition file_after (args : Args) (w : World) (name : string) : option string :=
  files (sys (snd (run args w))) (Py.path_join (outdir args) name).

Definition loaded_after (args : Args) (w : World) (table : string) : list string :=
  tables (sys (snd (run args w))) (database args) table.

(** ** Observations on rows *)

Definition product_id (r : product_row) : Z :=
  let '(pid, _, _, _, _, _, _, _) := r in pid.
Definition product_price (r : product_row) : Q :=
  let '(_, _, _, _, price, _, _, _) := r in price.
Definition product_cost (r : product_row) : Q :=
  let '(_, _, _, _, _, cost, _, _) := r in cost.

Definition customer_id (r : customer_row) : Z :=
  let '(cid, _, _, _, _, _, _, _, _) := r in cid.
Definition customer_email (r : customer_row) : string :=
  let '(_, _, _, email, _, _, _, _, _) := r in email.

Definition order_id (r : order_row) : Z :=
  let '(oid, _, _, _, _, _, _, _, _) := r in oid.
Definition order_date (r : order_row) : string :=
  let '(_, _, dt, _, _, _, _, _, _) := r in dt.

Definition item_id (r : item_row) : Z := let '(item_id, _, _, _, _, _) := r in item_id.
Definition item_order (r : item_row) : Z := let '(_, oid, _, _, _, _) := r in oid.
Definition item_product (r : item_row) : Z := let '(_, _, pid, _, _, _) := r in pid.
Definition item_quantity (r : item_row) : Z := let '(_, _, _, qty, _, _) := r in qty.
Definition item_unit_price (r : item_row) : Q := let '(_, _, _, _, unit, _) := r in unit.
Definition item_line_total (r : item_row) : Q :=
  let '(_, _, _, _, _, line_total) := r in line_total.

(** The keys of [ys] are 1, 2, ..., [length ys], in this order. *)
Definition contiguous_keys {Y} (key : Y -> Z) (ys : list Y) : Prop :=
  map key ys = map Z.of_nat (seq 1 (List.length ys)).

(** How a product's price and cost come about. *)
Definition priced (r : product_row) : Prop :=
  exists base u : Q,
    (5 <= base)%Q /\ (base < 900)%Q /\ (0.5 <= u)%Q /\ (u < 0.85)%Q /\
    product_price r = Py.round base 2 /\
    product_cost r = Py.round (product_price r * u) 2.

(** Calling [gen_orders] and iterating what it returns. *)
Definition generated_orders (n_orders n_customers : Z) : Gen order_row unit :=
  order_iter <- gen_orders n_orders n_customers ;; order_iter.

(** The keys of [ys] are [s], [s + 1], ... in this order. *)
Definition keys_from {Y} (key : Y -> Z) (s : Z) (ys : list Y) : Prop :=
  map key ys = map (fun i => (s + Z.of_nat i)%Z) (seq 0 (List.length ys)).

(** The intended distribution of the number of items of an order, and its
    running sums. *)
Definition item_count_probability (k : Z) : Q :=
  match k with
  | 1%Z => 0.40 | 2%Z => 0.30 | 3%Z => 0.18 | 4%Z => 0.07 | 5%Z => 0.035 | 6%Z => 0.015
  | _ => 0
  end.

Definition cumulative_probability (k : Z) : Q :=
  fold_right Qplus 0%Q (map item_count_probability (range 1 (k + 1))).

(** The thresholds of [items_per_order] as the code holds them, the
    binary64 values of its literals, between 0 and 1. *)
Definition threshold (j : Z) : Q :=
  match j with
  | 1%Z => Py.double 0.40
  | 2%Z => Py.double 0.70
  | 3%Z => Py.double 0.88
  | 4%Z => Py.double 0.95
  | 5%Z => Py.double 0.985
  | 6%Z => 1
  | _ => 0
  end.

(** How many of the 2^53 draws [k / 2^53] lie below the [j]-th threshold. *)
Definition draws_below (j : Z) : Z := Qceiling (threshold j * inject_Z (2 ^ 53)).

(** The share of the 2^53 equally likely draws that lie between the
    thresholds [j - 1] and [j]. *)
Definition probability (j : Z) : Q :=
  inject_Z (draws_below j - draws_below (j - 1)) / inject_Z (2 ^ 53).

(** A world whose random source returns [q] at every draw. *)
Definition constant_world (q : Q) : World :=
  mkWorld (mkRandom (fun _ _ => q) 0 0)
    (mkFaker (fun _ _ => EmptyString) (fun _ _ => 0%Z) 0 0)
    (mkClock (fun _ => 0%Z) 0)
    (mkSystem (fun _ => None) (fun _ _ => []) false true true []).

Definition item_arithmetic (r : item_row) : Prop :=
  (Qabs (item_line_total r - item_unit_price r * inject_Z (item_quantity r)) <= 0.01)%Q /\
  (exists x : Q, item_unit_price r = Py.round x 2) /\
  (1 <= item_quantity r <= 5)%Z.

Definition covers (n_orders n_products : Z) (ys : list item_row) : Prop :=
  (forall oid, (1 <= oid <= n_orders)%Z -> exists r, In r ys /\ item_order r = oid) /\
  (n_orders <= Z.of_nat (List.length ys) <= 6 * n_orders)%Z /\
  Forall (fun r => (1 <= item_product r <= n_products)%Z) ys /\
  Forall (fun r => (1 <= item_order r <= n_orders)%Z) ys.

(** The address [gen_customers] builds for a customer. *)
Definition email_of (first last : string) (cid : Z) : string :=
  Py.lower (first ++ "." ++ last ++ "." ++ Py.str cid ++ "@example.com").

(** [args] with another [--items_avg]. *)
Definition with_items_avg (args : Args) (avg : Q) : Args :=
  mkArgs (host args) (port args) (user args) (password args) (database args) (outdir args)
    (customers args) (products args) (orders args) avg.

(** [iter(ys)]: the iterator over a given sequence of tuples. *)
Definition iter {Row} (ys : list Row) : Gen Row unit :=
  for_each ys (fun y _ => yield y) tt.

(** The text of a CSV file with this header and these records. *)
Definition csv_text (header : list string) (records : list (list Csv.field)) : string :=
  Csv.writerow (map Csv.Str header) ++
  fold_right append EmptyString (map Csv.writerow records).

(** The world once [write_csv] has opened the file and written the header. *)
Definition header_written (path : string) (header : list string) (w : World) : World :=
  world_after
    (bind (Y := Empty_set) (fopen path)
       (fun _ => fwrite path (Csv.writerow (map Csv.Str header))) w).

Fixpoint string_forall (p : ascii -> bool) (s : string) : bool :=
  match s with
  | EmptyString => true
  | String c s' => p c && string_forall p s'
  end.

(** Characters that [lower] leaves alone and that are not the dot. *)
Definition plain (c : ascii) : bool :=
  Ascii.eqb (Py.lower_ascii c) c && negb (Ascii.eqb c ".").

Definition all_plain (s : string) : bool := string_forall plain s.



Definition with_sys (w : World) (s : System) : World :=
  mkWorld (rng w) (faker w) (clock w) s.

(** [w] is [b] after writing [content] to [path] and printing: nothing
    else differs. *)
Definition wrote (path content : string) (b w : World) : Prop :=
  rng w = rng b /\ faker w = faker b /\ clock w = clock b /\
  files (sys w) path = Some content /\
  (forall p, p <> path -> files (sys w) p = files (sys b) p) /\
  tables (sys w) = tables (sys b) /\
  local_infile (sys w) = local_infile (sys b) /\
  foreign_key_checks (sys w) = foreign_key_checks (sys b) /\
  set_global_allowed (sys w) = set_global_allowed (sys b) /\
  exists msgs, stdout (sys w) = (stdout (sys b) ++ msgs)%list.

(** [w] is [b] after loading the data lines of [content] into [table]:
    nothing else differs, standard output apart. *)
Definition loaded (db table content : string) (b w : World) : Prop :=
  rng w = rng b /\ faker w = faker b /\ clock w = clock b /\
  files (sys w) = files (sys b) /\
  tables (sys w) db table = (tables (sys b) db table ++ data_lines content)%list /\
  (forall d t, (d, t) <> (db, table) -> tables (sys w) d t = tables (sys b) d t).

(** A world for examples: a random source and a Faker that cycle through a
    few values, and a clock that reads [now], then a second later at every
    reading. *)
Definition sample_names : list string := ["Ann"; "Bo"; "Kyiv"].

Definition sample_world (now : Z) : World :=
  mkWorld
    (mkRandom (fun seed i => (Z.of_nat i * 37 + seed) # 100) 0 0)
    (mkFaker (fun _ i => nth (i mod 3) sample_names EmptyString)
       (fun seed i => (Z.of_nat i * 101 + seed)%Z) 0 0)
    (mkClock (fun i => (now + Z.of_nat i)%Z) 0)
    (mkSystem (fun _ => None) (fun _ _ => []) false true true []).

Definition sample_args : Args :=
  mkArgs "127.0.0.1" 3306 "root" EmptyString "ecommerce_synth" "data" 2 2 2 3.0.

(** The command line [--customers 0], the other counts being [n_products]
    and a positive [n_orders]; everything else at its default. *)
Definition zero_customers_args (n_products : Z) (n_orders : positive) : Args :=
  mkArgs "127.0.0.1" 3306 "root" EmptyString "ecommerce_synth" "data"
    0 n_products (Z.pos n_orders) 3.0.

(** The random source, Faker and the clock are in the same state in both
    worlds. *)
Definition same_libs (w w' : World) : Prop :=
  rng w = rng w' /\ faker w = faker w' /\ clock w = clock w'.

(** The import can go ahead: [local_infile] is on, or may be switched on. *)
Definition can_load (s : System) : bool := local_infile s || set_global_allowed s.

(** How a computation ends and the world it leaves. *)
Definition exec {Y A} (m : Gen Y A) (w : World) : (A + exn) * World :=
  (outcome (m w), world_after (m w)).

(** [sat m post]: in every world, the rows [m] yields and the way it ends
    satisfy [post]. *)
Definition sat {Y A} (m : Gen Y A) (post : list Y -> A + exn -> Prop) : Prop :=
  forall w, post (rows (m w)) (outcome (m w)).

(** [frame m]: [m] leaves the files, the tables and standard output alone. *)
Definition frame {Y A} (m : Gen Y A) : Prop :=
  forall w, sys (world_after (m w)) = sys w.

(** ** Further observations on rows *)

Definition product_category (r : product_row) : string :=
  let '(_, cat, _, _, _, _, _, _) := r in cat.
Definition product_subcategory (r : product_row) : string :=
  let '(_, _, sub, _, _, _, _, _) := r in sub.
Definition product_brand (r : product_row) : string :=
  let '(_, _, _, brand, _, _, _, _) := r in brand.
Definition product_active (r : product_row) : Z :=
  let '(_, _, _, _, _, _, _, is_active) := r in is_active.

Definition customer_first (r : customer_row) : string :=
  let '(_, first, _, _, _, _, _, _, _) := r in first.
Definition customer_last (r : customer_row) : string :=
  let '(_, _, last, _, _, _, _, _, _) := r in last.
Definition customer_country (r : customer_row) : string :=
  let '(_, _, _, _, _, country, _, _, _) := r in country.
Definition customer_opt_in (r : customer_row) : Z :=
  let '(_, _, _, _, _, _, _, mkt, _) := r in mkt.
Definition customer_source (r : customer_row) : string :=
  let '(_, _, _, _, _, _, _, _, source) := r in source.

Definition order_customer (r : order_row) : Z :=
  let '(_, cust, _, _, _, _, _, _, _) := r in cust.
Definition order_status (r : order_row) : string :=
  let '(_, _, _, status, _, _, _, _, _) := r in status.
Definition order_currency (r : order_row) : string :=
  let '(_, _, _, _, curr, _, _, _, _) := r in curr.
Definition order_payment (r : order_row) : string :=
  let '(_, _, _, _, _, pay, _, _, _) := r in pay.
Definition order_shipping (r : order_row) : string :=
  let '(_, _, _, _, _, _, ship, _, _) := r in ship.
Definition order_discount (r : order_row) : Q :=
  let '(_, _, _, _, _, _, _, discount, _) := r in discount.
Definition order_total (r : order_row) : Q :=
  let '(_, _, _, _, _, _, _, _, total) := r in total.

(** A product row as [gen_products] makes it: the subcategory and the brand
    belong to the row's category, the price lies in [5, 900], the cost is
    at least 2.5 and the flag is 0 or 1. *)
Definition well_formed_product (r : product_row) : Prop :=
  (exists subs brands,
     In (product_category r, subs, brands) categories /\
     In (product_subcategory r) subs /\ In (product_brand r) brands) /\
  (5 <= product_price r)%Q /\ (product_price r <= 900)%Q /\
  (2.5 <= product_cost r)%Q /\
  (product_active r = 0 \/ product_active r = 1)%Z.

(** A customer row as [gen_customers] makes it. *)
Definition well_formed_customer (r : customer_row) : Prop :=
  customer_email r = email_of (customer_first r) (customer_last r) (customer_id r) /\
  Py.lower (customer_email r) = customer_email r /\
  In (customer_country r) countries /\
  In (customer_source r) sources /\
  (customer_opt_in r = 0 \/ customer_opt_in r = 1)%Z.

(** An order row as the iterator of [gen_orders] makes it, [now] being the
    time at which [gen_orders] was called. *)
Definition well_formed_order (n_customers now : Z) (r : order_row) : Prop :=
  (1 <= order_customer r <= n_customers)%Z /\
  (exists dt, (now - 730 * 86400 <= dt <= now)%Z /\ order_date r = Datetime.strftime dt) /\
  In (order_status r) ["paid"; "shipped"; "cancelled"; "refunded"] /\
  In (order_currency r) currencies /\
  In (order_payment r) ["card"; "paypal"; "cod"; "applepay"; "googlepay"] /\
  In (order_shipping r) countries /\
  (0 <= order_discount r)%Q /\
  (0 <= order_total r)%Q /\
  (shipped_or_paid (order_status r) = true -> (5 <= order_total r)%Q).

(** The reading the clock gives next. *)
Definition next_reading (w : World) : Z := readings (clock w) (reads (clock w)).




(** The last stage of [main], once the first three have written and loaded
    [p_rows], [c_rows] and [o_rows] rows. *)
Definition items_stage {Y} (args : Args) (p_rows c_rows o_rows : Z) : Gen Y unit :=
  print (Say "Generating order_items (streamed; target ~avg items/order)") ;;;
  let items_csv := Py.path_join (outdir args) "order_items.csv" in
  i_rows <- write_csv item_fields items_csv items_header
              (gen_order_items (orders args) (products args) (items_avg args))
              default_chunk ;;
  print (Say "Loading order_items into MySQL") ;;;
  load_csv (database args) "order_items" items_csv ;;;
  print (Say "All done!") ;;;
  print (Summary p_rows c_rows o_rows i_rows).

(** [rng_only m]: the rows [m] yields, the way it ends and the state it
    leaves the random source in are determined by the state of the random
    source alone. *)
Definition rng_only {Y A} (m : Gen Y A) : Prop :=
  forall w1 w2, rng w1 = rng w2 ->
    rows (m w1) = rows (m w2) /\ outcome (m w1) = outcome (m w2) /\
    rng (world_after (m w1)) = rng (world_after (m w2)).

(** [sim R m1 m2]: run from the same state of the random source, [m1] and
    [m2] leave it in the same state and end the same way, with results
    related by [R] or with the same exception. *)
Definition sim {Y A} (R : A -> A -> Prop) (m1 m2 : Gen Y A) : Prop :=
  forall w1 w2, rng w1 = rng w2 ->
    rng (world_after (m1 w1)) = rng (world_after (m2 w2)) /\
    match outcome (m1 w1), outcome (m2 w2) with
    | inl a1, inl a2 => R a1 a2
    | inr e1, inr e2 => e1 = e2
    | _, _ => False
    end.

Definition any {A} (_ _ : A) : Prop := True.

(** The [i]-th reading the clock gives from now on. *)
Definition reading (w : World) (i : nat) : Z :=
  readings (clock w) (reads (clock w) + i).

(** The next [n] readings of the two clocks fall on the same days. *)
Definition same_dates (n : nat) (wa wb : World) : Prop :=
  forall i, (i < n)%nat ->
    (reading wa i / Datetime.seconds_per_day = reading wb i / Datetime.seconds_per_day)%Z.

(** After [n] readings the two clocks give the same time. *)
Definition same_time (n : nat) (wa wb : World) : Prop := reading wa n = reading wb n.

(** [wa] and [wb] are [j] readings of the clock after [wa0] and [wb0], with
    the random source and Faker in the same state in both. *)
Definition in_step (wa0 wb0 : World) (j : nat) (wa wb : World) : Prop :=
  rng wa = rng wb /\ faker wa = faker wb /\
  readings (clock wa) = readings (clock wa0) /\
  readings (clock wb) = readings (clock wb0) /\
  reads (clock wa) = (reads (clock wa0) + j)%nat /\
  reads (clock wb) = (reads (clock wb0) + j)%nat.

(** [lockstep wa0 wb0 R S k m1 m2]: from worlds in step, [m1] and [m2] end
    the same way, with results related by [R] and in worlds in step again
    [k] readings later; and when [S] holds and the [k] readings fall on the
    same days in both worlds, they yield the same rows and return the same
    result. *)
Definition lockstep {Y A} (wa0 wb0 : World) (R : A -> A -> Prop) (S : Prop) (k : nat)
    (m1 m2 : Gen Y A) : Prop :=
  forall j wa wb, in_step wa0 wb0 j wa wb ->
    match outcome (m1 wa), outcome (m2 wb) with
    | inl a1, inl a2 =>
        R a1 a2 /\ in_step wa0 wb0 (j + k) (world_after (m1 wa)) (world_after (m2 wb))
    | inr e1, inr e2 => e1 = e2
    | _, _ => False
    end /\
    (S ->
     (forall i, (j <= i < j + k)%nat ->
        (reading wa0 i / Datetime.seconds_per_day =
         reading wb0 i / Datetime.seconds_per_day)%Z) ->
     rows (m1 wa) = rows (m2 wb) /\ outcome (m1 wa) = outcome (m2 wb)).

(** [w] with a file at [path] already. *)
Definition with_file (w : World) (path content : string) : World :=
  with_sys w (set_file path content (sys w)).

(** A column of order ids that comes in groups: as many copies of the first
    id as the first count says, then the second id's, and so on. *)
Definition grouped (oids counts : list Z) : list Z :=
  flat_map (fun p => repeat (fst p) (Z.to_nat (snd p))) (combine oids counts).

(** Arguments for examples: two customers and two orders, but no product. *)
Definition no_product_args : Args :=
  mkArgs "127.0.0.1" 3306 "root" EmptyString "ecommerce_synth" "data" 2 0 2 3.0.

(** Arguments for examples: the counts of [sample_args], another server,
    database and output directory. *)
Definition other_args : Args :=
  mkArgs "db.example.org" 3307 "loader" "secret" "shop" "out/" 2 2 2 5.0.

(** Three item tuples for examples. *)
Definition sample_items : list item_row :=
  [(1, 1, 2, 1, 10.0%Q, 10.0%Q); (2, 1, 1, 3, 2.5%Q, 7.5%Q);
   (3, 2, 2, 1, 99.99%Q, 99.99%Q)]%Z.

(** * Properties *)

(** ** Rounding *)

Lemma round_half_even_error (x : Q) :
  (x - (1 # 2) <= inject_Z (Py.round_half_even x) <= x + (1 # 2))%Q.
Proof.
  unfold Py.round_half_even.
  pose proof (Qfloor_le x) as Hlo. pose proof (Qlt_floor x) as Hhi.
  rewrite inject_Z_plus in Hhi. change (inject_Z 1) with 1%Q in Hhi.
  destruct (Qcompare_spec (x - inject_Z (Qfloor x)) (1 # 2)) as [He|Hl|Hg];
    [destruct (Z.even (Qfloor x))| |];
    rewrite ?inject_Z_plus; change (inject_Z 1) with 1%Q; lra.
Qed.

Lemma round2_error (x : Q) : (x - (1 # 200) <= Py.round x 2 <= x + (1 # 200))%Q.
Proof.
  unfold Py.round. change (10 ^ 2)%Z with 100%Z. change (Z.to_pos 100) with 100%positive.
  pose proof (round_half_even_error (x * inject_Z 100)) as H.
  set (c := Py.round_half_even (x * inject_Z 100)) in *.
  rewrite (Qmake_Qdiv c 100).
  change (inject_Z 100) with 100%Q in *.
  split.
  - apply Qle_shift_div_l; lra.
  - apply Qle_shift_div_r; lra.
Qed.

(** The floats the literals of the thresholds denote. *)
Example double_literals :
  Py.double 0.15 == 5404319552844595 # 2 ^ 55 /\
  Py.double 0.25 == 1 # 4 /\
  Py.double 0.35 == 3152519739159347 # 2 ^ 53 /\
  Py.double 0.40 == 3602879701896397 # 2 ^ 53 /\
  Py.double 0.70 == 3152519739159347 # 2 ^ 52 /\
  Py.double 0.88 == 7926335344172073 # 2 ^ 53 /\
  Py.double 0.95 == 4278419646001971 # 2 ^ 52 /\
  Py.double 0.985 == 8872091265919877 # 2 ^ 53.
Proof. repeat split; vm_compute; reflexivity. Qed.

(** A 53-bit draw lies in the unit interval. *)
Lemma unit_draw (k : Z) :
  (0 <= k < 2 ^ 53)%Z -> (0 <= k # 2 ^ 53)%Q /\ (k # 2 ^ 53 < 1)%Q.
Proof.
  intros Hk. unfold Qle, Qlt. cbn [Qnum Qden].
  change (Z.pos (2 ^ 53)) with (2 ^ 53)%Z. lia.
Qed.

(** ** A logic of generators *)


Section Rules.

Context {Y : Type}.

Lemma sat_ret {A} (a : A) (post : list Y -> A + exn -> Prop) :
  post [] (inl a) -> sat (ret a) post.
Proof. intros H w. exact H. Qed.

Lemma sat_raise {A} (e : exn) (post : list Y -> A + exn -> Prop) :
  post [] (inr e) -> sat (raise e) post.
Proof. intros H w. exact H. Qed.

Lemma sat_yield (y : Y) (post : list Y -> unit + exn -> Prop) :
  post [y] (inl tt) -> sat (yield y) post.
Proof. intros H w. exact H. Qed.

Lemma sat_bind {A B} (m : Gen Y A) (k : A -> Gen Y B) (post : list Y -> B + exn -> Prop) :
  sat m (fun ys r =>
           match r with
           | inl a => sat (k a) (fun ys' r' => post (ys ++ ys')%list r')
           | inr e => post ys (inr e)
           end) ->
  sat (bind m k) post.
Proof.
  intros H w. unfold bind. specialize (H w).
  destruct (m w) as [[ys r] w1]. cbn in H.
  destruct r as [a|e]; [|exact H].
  specialize (H w1). destruct (k a w1) as [[ys' r'] w2]. exact H.
Qed.

Lemma sat_weaken {A} (m : Gen Y A) (post post' : list Y -> A + exn -> Prop) :
  sat m post -> (forall ys r, post ys r -> post' ys r) -> sat m post'.
Proof. intros H Himp w. apply Himp, H. Qed.

(** The loop rule: [inv done ys s] holds of the items done, the rows
    yielded so far and the loop-carried locals; [exc] holds of the rows
    yielded when an iteration raised. *)
Lemma sat_for_each {B S} (inv : list B -> list Y -> S -> Prop)
    (exc : list Y -> exn -> Prop) (body : B -> S -> Gen Y S) :
  (forall done x ys s, inv done ys s ->
     sat (body x s) (fun ys' r =>
                       match r with
                       | inl s' => inv (done ++ [x])%list (ys ++ ys')%list s'
                       | inr e => exc (ys ++ ys')%list e
                       end)) ->
  forall xs done ys s, inv done ys s ->
    sat (for_each xs body s) (fun ys' r =>
                                match r with
                                | inl s' => inv (done ++ xs)%list (ys ++ ys')%list s'
                                | inr e => exc (ys ++ ys')%list e
                                end).
Proof.
  intros Hbody xs. induction xs as [|x xs IH]; intros done ys s Hinv.
  - apply sat_ret. now rewrite !app_nil_r.
  - cbn [for_each]. apply sat_bind.
    eapply sat_weaken; [exact (Hbody done x ys s Hinv)|].
    intros ys1 [s1|e] H1; [|exact H1].
    eapply sat_weaken; [exact (IH _ _ _ H1)|].
    intros ys2 [s2|e] H2; rewrite <- ?app_assoc in H2; cbn [app] in H2;
      rewrite <- ?app_assoc; exact H2.
Qed.

(** The library operations. *)

Lemma sat_draw (post : list Y -> Q + exn -> Prop) :
  (forall q, post [] (inl q)) -> sat Random.draw post.
Proof. intros H w. apply H. Qed.

Lemma sat_random (post : list Y -> Q + exn -> Prop) :
  (forall r, (0 <= r)%Q -> (r < 1)%Q -> post [] (inl r)) -> sat Random.random post.
Proof.
  intros H w. unfold Random.random, bind, Random.draw, ret.
  cbn [rows outcome fst snd app].
  apply H; apply unit_draw; apply Z.mod_pos_bound; reflexivity.
Qed.

Lemma sat_uniform (a b : Q) (post : list Y -> Q + exn -> Prop) :
  (forall r, (0 <= r)%Q -> (r < 1)%Q -> post [] (inl (a + (b - a) * r)%Q)) ->
  sat (Random.uniform a b) post.
Proof.
  intros H. unfold Random.uniform. apply sat_bind, sat_random.
  intros r H0 H1. apply sat_ret. cbn. now apply H.
Qed.

Lemma sat_randbelow (n : Z) (post : list Y -> Z + exn -> Prop) :
  (0 < n)%Z -> (forall k, (0 <= k < n)%Z -> post [] (inl k)) -> sat (Random.randbelow n) post.
Proof. intros Hn H w. cbn. apply H. now apply Z.mod_pos_bound. Qed.

Lemma sat_randint (a b : Z) (post : list Y -> Z + exn -> Prop) :
  ((b < a)%Z -> post [] (inr ValueError)) ->
  (forall k, (a <= k <= b)%Z -> post [] (inl k)) ->
  sat (Random.randint a b) post.
Proof.
  intros Hempty H. unfold Random.randint.
  destruct (Z.leb_spec (b - a + 1) 0) as [Hle|Hgt].
  - apply sat_raise, Hempty. lia.
  - apply sat_bind, sat_randbelow; [lia|].
    intros k Hk. apply sat_ret. cbn. apply H. lia.
Qed.

Lemma sat_choice {A} (seq : list A) (post : list Y -> A + exn -> Prop) :
  seq <> [] -> (forall x, In x seq -> post [] (inl x)) -> sat (Random.choice seq) post.
Proof.
  intros Hne H. destruct seq as [|x0 seq']; [congruence|].
  unfold Random.choice. apply sat_bind, sat_randbelow; [cbn [List.length]; lia|].
  intros k Hk. apply sat_ret. cbn [app]. apply H, nth_In. lia.
Qed.

Lemma sat_gauss (mu sigma : Q) (post : list Y -> Q + exn -> Prop) :
  (forall z, (- (9) <= z)%Q -> (z <= 9)%Q -> post [] (inl (mu + z * sigma)%Q)) ->
  sat (Random.gauss mu sigma) post.
Proof.
  intros H. unfold Random.gauss. apply sat_bind, sat_draw.
  intros q. apply sat_ret. cbn [app]. apply H; unfold Random.deviate.
  - apply Q.le_max_l.
  - apply Q.max_lub; [lra|apply Q.le_min_l].
Qed.

Lemma sat_date_between (years : Z) (post : list Y -> Z + exn -> Prop) :
  (forall d, post [] (inl d)) -> sat (Fake.date_between years) post.
Proof. intros H w. apply H. Qed.

Lemma sat_utcnow (post : list Y -> Z + exn -> Prop) :
  (forall now, post [] (inl now)) -> sat Datetime.utcnow post.
Proof. intros H w. apply H. Qed.

Lemma sat_word (post : list Y -> string + exn -> Prop) :
  (forall s, post [] (inl s)) -> sat Fake.word post.
Proof. intros H w. apply H. Qed.

End Rules.

Ltac sat_step :=
  lazymatch goal with
  | |- sat (bind _ _) _ => apply sat_bind
  | |- sat (ret _) _ => apply sat_ret
  | |- sat (yield _) _ => apply sat_yield
  | |- sat (raise _) _ => apply sat_raise
  | |- sat Random.random _ => apply sat_random; intros ? ? ?
  | |- sat (Random.uniform _ _) _ => apply sat_uniform; intros ? ? ?
  | |- sat (Random.gauss _ _) _ => apply sat_gauss; intros ? ? ?
  | |- sat (Random.choice _) _ => apply sat_choice; [try discriminate | intros ? ?]
  | |- sat (Fake.date_between _) _ => apply sat_date_between; intros ?
  | |- sat Datetime.utcnow _ => apply sat_utcnow; intros ?
  | |- sat Fake.first_name _ => apply sat_word; intros ?
  | |- sat Fake.last_name _ => apply sat_word; intros ?
  | |- sat Fake.city _ => apply sat_word; intros ?
  | |- sat (if ?c then _ else _) _ => destruct c
  | |- sat (match ?x with (_, _) => _ end) _ => destruct x
  end; cbn beta iota zeta.

(** A property of every row of every iteration is a property of every row
    of the loop. *)
Lemma sat_for_each_Forall {Y B S} (P : Y -> Prop) (body : B -> S -> Gen Y S) :
  (forall x s, sat (body x s) (fun ys _ => Forall P ys)) ->
  forall xs s, sat (for_each xs body s) (fun ys _ => Forall P ys).
Proof.
  intros Hbody xs s.
  eapply sat_weaken.
  - apply (sat_for_each (fun _ ys _ => Forall P ys) (fun ys _ => Forall P ys) body)
      with (done := []) (ys := []); [|constructor].
    intros done x ys s0 Hys. eapply sat_weaken; [apply Hbody|].
    intros ys' [s'|e] H; apply Forall_app; now split.
  - intros ys [s'|e] H; exact H.
Qed.

Lemma sat_then_ret_Forall {Y A} (P : Y -> Prop) (m : Gen Y A) :
  sat m (fun ys _ => Forall P ys) -> sat (m ;;; ret tt) (fun ys _ => Forall P ys).
Proof.
  intros H. apply sat_bind. eapply sat_weaken; [exact H|].
  intros ys [a|e] Hys; [|exact Hys]. apply sat_ret. now rewrite app_nil_r.
Qed.

(** ** Products *)

Lemma categories_nonempty cat subs brands :
  In (cat, subs, brands) categories -> subs <> [] /\ brands <> [].
Proof.
  cbn. intros H.
  repeat (destruct H as [H|H]; [injection H as <- <- <-; split; discriminate|]).
  contradiction.
Qed.

Lemma cost_le_price (base u : Q) :
  (5 <= base)%Q -> (0.5 <= u)%Q -> (u < 0.85)%Q ->
  (Py.round (Py.round base 2 * u) 2 <= Py.round base 2)%Q.
Proof.
  intros Hb Hu1 Hu2.
  pose proof (round2_error base) as [Hp _].
  set (price := Py.round base 2) in *.
  pose proof (round2_error (price * u)) as [_ Hc].
  assert (price * u <= price * 0.85)%Q by (apply Qmult_le_l; lra).
  lra.
Qed.

(** C3.  Every product row has its price and cost drawn as
    [price = round(uniform(5, 900), 2)] and
    [cost = round(price * uniform(0.5, 0.85), 2)], and its cost is at most
    its price, both being rounded to two decimals. *)
Theorem gen_products_cost_le_price (n_products : Z) (w : World) :
  Forall (fun r => priced r /\ (product_cost r <= product_price r)%Q)
    (rows (gen_products n_products w)).
Proof.
  revert w. change (sat (gen_products n_products) (fun ys _ => Forall
    (fun r => priced r /\ (product_cost r <= product_price r)%Q) ys)).
  apply sat_then_ret_Forall, sat_for_each_Forall. intros _ pid.
  sat_step. sat_step. destruct x as [[cat subs] brands].
  destruct (categories_nonempty _ _ _ H) as [Hsubs Hbrands].
  sat_step. sat_step; [exact Hsubs|].
  sat_step. sat_step; [exact Hbrands|].
  repeat sat_step.
  cbn [app]. constructor; [|constructor].
  assert (Hb : (5 <= 5 + (900 - 5) * r)%Q) by nra.
  assert (Hb' : (5 + (900 - 5) * r < 900)%Q) by nra.
  assert (Hu : (0.5 <= 0.5 + (0.85 - 0.5) * r0)%Q) by nra.
  assert (Hu' : (0.5 + (0.85 - 0.5) * r0 < 0.85)%Q) by nra.
  split.
  - exists (5 + (900 - 5) * r)%Q, (0.5 + (0.85 - 0.5) * r0)%Q. cbn. auto 10.
  - cbn. now apply cost_le_price.
Qed.

(** ** Items per order *)

Lemma sat_items_per_order {Y} (post : list Y -> Z + exn -> Prop) :
  (forall k, (1 <= k <= 6)%Z -> post [] (inl k)) -> sat items_per_order post.
Proof.
  intros H. unfold items_per_order. repeat sat_step; cbn [app]; apply H; lia.
Qed.

(** What [random.random()] returns: the 53-bit draw under the cursor. *)
Lemma random_run {Y} (w : World) :
  exists (k : Z) (w1 : World),
    Random.random (Y := Y) w = ([], inl (k # 2 ^ 53), w1) /\ (0 <= k < 2 ^ 53)%Z.
Proof.
  eexists _, _. split; [reflexivity|]. apply Z.mod_pos_bound. reflexivity.
Qed.

Lemma draws_below_values :
  draws_below 0 = 0%Z /\ draws_below 1 = 3602879701896397%Z /\
  draws_below 2 = 6305039478318694%Z /\ draws_below 3 = 7926335344172073%Z /\
  draws_below 4 = 8556839292003942%Z /\ draws_below 5 = 8872091265919877%Z /\
  draws_below 6 = 9007199254740992%Z.
Proof. repeat split; vm_compute; reflexivity. Qed.

(** The five thresholds are multiples of 2^-53. *)
Lemma threshold_value (j : Z) :
  (1 <= j <= 5)%Z -> threshold j == draws_below j # 2 ^ 53.
Proof.
  intros Hj.
  assert (j = 1 \/ j = 2 \/ j = 3 \/ j = 4 \/ j = 5)%Z as [->|[->|[->|[->| ->]]]] by lia;
    vm_compute; reflexivity.
Qed.

(** A draw is below a threshold when its numerator is below the number of
    draws that are. *)
Lemma draw_below (k j : Z) :
  (1 <= j <= 5)%Z -> (k # 2 ^ 53 < threshold j)%Q <-> (k < draws_below j)%Z.
Proof.
  intros Hj. rewrite (threshold_value j Hj). unfold Qlt. cbn [Qnum Qden].
  change (Z.pos (2 ^ 53)) with 9007199254740992%Z. lia.
Qed.

Lemma probability_close (j : Z) :
  (1 <= j <= 6)%Z -> (Qabs (probability j - item_count_probability j) < 1 # 2 ^ 53)%Q.
Proof.
  intros Hj.
  assert (j = 1 \/ j = 2 \/ j = 3 \/ j = 4 \/ j = 5 \/ j = 6)%Z
    as [->|[->|[->|[->|[->| ->]]]]] by lia;
    vm_compute; reflexivity.
Qed.

(** C7, as the code has it.  The sampler returns a count in 1..6 and yields
    nothing.  The draw of [random.random()] is [k / 2^53] for one of the
    2^53 integers [0 <= k < 2^53], and the count is [j] exactly when [k]
    lies between the numbers of draws below the thresholds [j - 1] and
    [j], the thresholds being the binary64 values of 0.40, 0.70, 0.88, 0.95
    and 0.985.  The six shares of the draws are within 2^-53 of 40%, 30%,
    18%, 7%, 3.5% and 1.5%. *)
Theorem items_per_order_distribution (w : World) :
  exists (k count : Z),
    outcome (Random.random (Y := item_row) w) = inl (k # 2 ^ 53) /\
    (0 <= k < 2 ^ 53)%Z /\
    outcome (items_per_order (Y := item_row) w) = inl count /\
    rows (items_per_order (Y := item_row) w) = [] /\
    (1 <= count <= 6)%Z /\
    (forall j, (1 <= j <= 6)%Z ->
       count = j <-> (draws_below (j - 1) <= k < draws_below j)%Z) /\
    (forall j, (1 <= j <= 6)%Z ->
       (Qabs (probability j - item_count_probability j) < 1 # 2 ^ 53)%Q) /\
    draws_below 0 = 0%Z /\ draws_below 6 = (2 ^ 53)%Z.
Proof.
  destruct draws_below_values as (D0 & D1 & D2 & D3 & D4 & D5 & D6).
  destruct (random_run (Y := item_row) w) as (k & w1 & Hrun & Hk).
  change (2 ^ 53)%Z with 9007199254740992%Z in Hk.
  pose proof (draw_below k 1 ltac:(lia)) as B1.
  pose proof (draw_below k 2 ltac:(lia)) as B2.
  pose proof (draw_below k 3 ltac:(lia)) as B3.
  pose proof (draw_below k 4 ltac:(lia)) as B4.
  pose proof (draw_below k 5 ltac:(lia)) as B5.
  cbn [threshold] in B1, B2, B3, B4, B5.
  rewrite D1 in B1. rewrite D2 in B2. rewrite D3 in B3. rewrite D4 in B4. rewrite D5 in B5.
  exists k.
  unfold items_per_order, bind. rewrite Hrun. cbn [outcome rows fst snd].
  repeat match goal with
         | |- context [Qlt_le_dec ?r ?t] =>
             let Hr := fresh "Hr" in
             destruct (Qlt_le_dec r t) as [Hr|Hr]; [|apply Qle_not_lt in Hr]
         end; cbn [ret app fst snd];
    eexists; (split; [reflexivity|]); (split; [exact Hk|]);
    (split; [reflexivity|]); (split; [reflexivity|]); (split; [lia|]);
    (split; [|split; [exact probability_close|split; [exact D0|exact D6]]]);
    intros j Hj;
    assert (j = 1 \/ j = 2 \/ j = 3 \/ j = 4 \/ j = 5 \/ j = 6)%Z
      as [->|[->|[->|[->|[->| ->]]]]] by lia;
    repeat match goal with
           | |- context [(?a - 1)%Z] =>
               let v := eval compute in (a - 1)%Z in change (a - 1)%Z with v
           end;
    rewrite ?D0, ?D1, ?D2, ?D3, ?D4, ?D5, ?D6;
    repeat match goal with
           | H : context [(_ < Py.double _)%Q] |- _ =>
               first [rewrite B1 in H | rewrite B2 in H | rewrite B3 in H
                     | rewrite B4 in H | rewrite B5 in H]
           end;
    clear B1 B2 B3 B4 B5; lia.
Qed.

(** The shares are not the percentages themselves, and the intervals are
    not those the percentages add up to: the draw at the binary64 value of
    0.70 lies below 0.70 and makes an order of three items, not two. *)
Lemma items_per_order_not_exact :
  (forall j, (1 <= j <= 6)%Z -> ~ probability j == item_count_probability j) /\
  exists (w : World) (r : Q),
    outcome (Random.random (Y := item_row) w) = inl r /\
    (cumulative_probability 1 <= r)%Q /\ (r < cumulative_probability 2)%Q /\
    outcome (items_per_order (Y := item_row) w) = inl 3%Z.
Proof.
  split.
  - intros j Hj.
    assert (j = 1 \/ j = 2 \/ j = 3 \/ j = 4 \/ j = 5 \/ j = 6)%Z
      as [->|[->|[->|[->|[->| ->]]]]] by lia;
      vm_compute; discriminate.
  - exists (constant_world (Py.double 0.70)). eexists.
    split; [vm_compute; reflexivity|].
    split; [vm_compute; discriminate|]. split; vm_compute; reflexivity.
Qed.

(** ** Order items *)

Ltac sat_randint :=
  lazymatch goal with
  | |- sat (Random.randint _ _) _ => apply sat_randint; [intros ?|intros ? ?]; cbn beta iota zeta
  | |- sat items_per_order _ => apply sat_items_per_order; intros ? ?; cbn beta iota zeta
  end.

Lemma line_total_close (x : Q) (qty : Z) :
  (Qabs (Py.round (Py.round x 2 * inject_Z qty) 2 - Py.round x 2 * inject_Z qty) <= 0.01)%Q.
Proof.
  pose proof (round2_error (Py.round x 2 * inject_Z qty)) as [Hlo Hhi].
  apply Qabs_Qle_condition. split; lra.
Qed.

(** C4.  Every order-item row has a quantity in [1, 5], a unit price that is
    a value rounded to two decimals, and a line total within 0.01 of unit
    price times quantity. *)
Theorem gen_order_items_line_total (n_orders n_products : Z) (avg_items : Q) (w : World) :
  Forall item_arithmetic (rows (gen_order_items n_orders n_products avg_items w)).
Proof.
  revert w.
  change (sat (gen_order_items n_orders n_products avg_items)
            (fun ys _ => Forall item_arithmetic ys)).
  apply sat_then_ret_Forall, sat_for_each_Forall. intros oid item_id0.
  apply sat_bind, sat_items_per_order. intros k Hk. cbn [app].
  apply sat_for_each_Forall. intros _ item_id1.
  repeat first [sat_step | sat_randint]; cbn [app]; repeat constructor; cbn;
    try apply line_total_close; try (eexists; reflexivity); lia.
Qed.

(** ** Surrogate keys *)

Lemma map_seq_shift {A} (f : nat -> A) (a n : nat) :
  map f (seq a n) = map (fun i => f (a + i)%nat) (seq 0 n).
Proof.
  revert f. induction a as [|a IH]; intros f; [reflexivity|].
  rewrite <- seq_shift, map_map, IH. reflexivity.
Qed.

Lemma keys_from_nil {Y} (key : Y -> Z) (s : Z) : keys_from key s [].
Proof. reflexivity. Qed.

Lemma keys_from_one {Y} (key : Y -> Z) (y : Y) : keys_from key (key y) [y].
Proof. unfold keys_from. cbn. now rewrite Z.add_0_r. Qed.

Lemma keys_from_app {Y} (key : Y -> Z) (s : Z) (ys ys' : list Y) :
  keys_from key s ys ->
  keys_from key (s + Z.of_nat (List.length ys)) ys' ->
  keys_from key s (ys ++ ys').
Proof.
  unfold keys_from. intros H H'.
  rewrite map_app, length_app, seq_app, map_app, H, H'. f_equal.
  rewrite (map_seq_shift _ (0 + List.length ys)). apply map_ext. intros i. lia.
Qed.

Lemma keys_from_1 {Y} (key : Y -> Z) (ys : list Y) :
  keys_from key 1 ys <-> contiguous_keys key ys.
Proof.
  unfold keys_from, contiguous_keys.
  rewrite (map_seq_shift Z.of_nat 1).
  rewrite (map_ext (fun i => 1 + Z.of_nat i)%Z (fun i => Z.of_nat (1 + i))) by (intros; lia).
  reflexivity.
Qed.

(** A loop whose iterations each yield rows keyed from the counter on and
    advance the counter past them yields rows keyed from its start. *)
Lemma sat_for_each_keys {Y B} (key : Y -> Z) (body : B -> Z -> Gen Y Z) :
  (forall x s, sat (body x s) (fun ys r =>
       keys_from key s ys /\
       match r with inl s' => s' = (s + Z.of_nat (List.length ys))%Z | inr _ => True end)) ->
  forall xs s, sat (for_each xs body s) (fun ys r =>
       keys_from key s ys /\
       match r with inl s' => s' = (s + Z.of_nat (List.length ys))%Z | inr _ => True end).
Proof.
  intros Hbody xs s0.
  eapply sat_weaken.
  - apply (sat_for_each
             (fun _ ys s => keys_from key s0 ys /\ s = (s0 + Z.of_nat (List.length ys))%Z)
             (fun ys _ => keys_from key s0 ys) body) with (done := []) (ys := []).
    + intros done x ys s [Hkeys ->].
      eapply sat_weaken; [apply Hbody|].
      intros ys' [s'|e] [Hk Hs].
      * split; [now apply keys_from_app|]. rewrite length_app. lia.
      * now apply keys_from_app.
    + split; [apply keys_from_nil|cbn; lia].
  - intros ys [s'|e] H; cbn [app] in H; [destruct H|]; auto.
Qed.

Lemma sat_keys_then_ret {Y} (key : Y -> Z) (m : Gen Y Z) :
  sat m (fun ys r =>
       keys_from key 1 ys /\
       match r with inl s' => s' = (1 + Z.of_nat (List.length ys))%Z | inr _ => True end) ->
  sat (m ;;; ret tt) (fun ys _ => contiguous_keys key ys).
Proof.
  intros H. apply sat_bind. eapply sat_weaken; [exact H|].
  intros ys [a|e] [Hk _]; [apply sat_ret; rewrite app_nil_r|]; now apply keys_from_1.
Qed.

Lemma gen_products_keys (n : Z) :
  sat (gen_products n) (fun ys _ => contiguous_keys product_id ys).
Proof.
  apply sat_keys_then_ret, sat_for_each_keys. intros _ pid.
  sat_step. sat_step. destruct x as [[cat subs] brands].
  destruct (categories_nonempty _ _ _ H) as [Hsubs Hbrands].
  sat_step. sat_step; [exact Hsubs|]. sat_step. sat_step; [exact Hbrands|].
  repeat sat_step. cbn [app List.length]. split; [apply (keys_from_one product_id)|lia].
Qed.

Lemma gen_customers_keys (n : Z) :
  sat (gen_customers n) (fun ys _ => contiguous_keys customer_id ys).
Proof.
  apply sat_keys_then_ret, sat_for_each_keys. intros _ cid.
  repeat sat_step. cbn [app List.length]. split; [apply (keys_from_one customer_id)|lia].
Qed.

Lemma generated_orders_keys (n m : Z) :
  sat (generated_orders n m) (fun ys _ => contiguous_keys order_id ys).
Proof.
  unfold generated_orders, gen_orders, daterange.
  do 6 sat_step. cbn [app].
  apply sat_keys_then_ret, sat_for_each_keys. intros _ oid.
  unfold rand_datetime.
  repeat first [sat_step | sat_randint]; cbn [app List.length];
    split; first [apply keys_from_nil | apply (keys_from_one order_id) | lia | exact I].
Qed.

Lemma gen_order_items_keys (n m : Z) (avg : Q) :
  sat (gen_order_items n m avg) (fun ys _ => contiguous_keys item_id ys).
Proof.
  apply sat_keys_then_ret, sat_for_each_keys. intros oid s.
  apply sat_bind, sat_items_per_order. intros k Hk. cbn [app].
  apply sat_for_each_keys. intros _ s'.
  repeat first [sat_step | sat_randint]; cbn [app List.length];
    split; first [apply keys_from_nil | apply (keys_from_one item_id) | lia | exact I].
Qed.

(** A loop whose iterations each yield exactly one row and never raise
    yields one row per item and does not raise. *)
Lemma sat_for_each_exact {Y B S} (P : Y -> Prop) (body : B -> S -> Gen Y S) :
  (forall x s, sat (body x s) (fun ys r =>
       (exists y, ys = [y] /\ P y) /\ exists s', r = inl s')) ->
  forall xs s, sat (for_each xs body s) (fun ys r =>
       List.length ys = List.length xs /\ Forall P ys /\ exists s', r = inl s').
Proof.
  intros Hbody xs s0.
  eapply sat_weaken.
  - apply (sat_for_each
             (fun done ys _ => List.length ys = List.length done /\ Forall P ys)
             (fun _ _ => False) body) with (done := []) (ys := []).
    + intros done x ys s [Hlen HP].
      eapply sat_weaken; [apply Hbody|].
      intros ys' r [(y & -> & Hy) [s' ->]].
      rewrite !length_app, Hlen. split; [reflexivity|].
      apply Forall_app. split; [exact HP|]. now constructor.
    + split; [reflexivity|constructor].
  - intros ys [s'|e] H; cbn [app] in H; [|contradiction].
    destruct H as [Hlen HP]. eauto.
Qed.

Lemma length_range (a b : Z) : List.length (range a b) = Z.to_nat (b - a).
Proof. unfold range. now rewrite length_map, length_seq. Qed.

Lemma in_range (a b i : Z) : In i (range a b) <-> (a <= i < b)%Z.
Proof.
  unfold range. rewrite in_map_iff. split.
  - intros (k & <- & Hk). apply in_seq in Hk. lia.
  - intros Hi. exists (Z.to_nat (i - a)). split; [lia|]. apply in_seq. lia.
Qed.

Lemma gen_products_total (n : Z) :
  sat (gen_products n) (fun ys r => List.length ys = Z.to_nat n /\ r = inl tt).
Proof.
  unfold gen_products. apply sat_bind. eapply sat_weaken.
  - apply (sat_for_each_exact (fun _ => True)). intros _ pid.
    sat_step. sat_step. destruct x as [[cat subs] brands].
    destruct (categories_nonempty _ _ _ H) as [Hsubs Hbrands].
    sat_step. sat_step; [exact Hsubs|]. sat_step. sat_step; [exact Hbrands|].
    repeat sat_step. cbn [app]. eauto.
  - intros ys r (Hlen & _ & s' & ->). apply sat_ret.
    rewrite app_nil_r, Hlen. unfold range0. rewrite length_range, Z.sub_0_r. auto.
Qed.

Lemma gen_customers_total (n : Z) :
  sat (gen_customers n) (fun ys r => List.length ys = Z.to_nat n /\ r = inl tt).
Proof.
  unfold gen_customers. apply sat_bind. eapply sat_weaken.
  - apply (sat_for_each_exact (fun _ => True)). intros _ cid.
    repeat sat_step. cbn [app]. eauto.
  - intros ys r (Hlen & _ & s' & ->). apply sat_ret.
    rewrite app_nil_r, Hlen. unfold range0. rewrite length_range, Z.sub_0_r. auto.
Qed.

(** C5.  Whatever the requested counts, each producer's rows carry the keys
    1, 2, ..., up to the number of rows it emitted, in this order; the
    product and customer producers emit exactly the requested number. *)
Theorem surrogate_keys_contiguous (n m : Z) (avg_items : Q) (w : World) :
  (contiguous_keys product_id (rows (gen_products n w)) /\
   List.length (rows (gen_products n w)) = Z.to_nat n) /\
  (contiguous_keys customer_id (rows (gen_customers n w)) /\
   List.length (rows (gen_customers n w)) = Z.to_nat n) /\
  contiguous_keys order_id (rows (generated_orders n m w)) /\
  contiguous_keys item_id (rows (gen_order_items n m avg_items w)).
Proof.
  repeat split.
  - apply gen_products_keys.
  - apply (gen_products_total n w).
  - apply gen_customers_keys.
  - apply (gen_customers_total n w).
  - apply generated_orders_keys.
  - apply gen_order_items_keys.
Qed.

(** ** Coverage of the orders by their items *)

(** C6.  With at least one order and one product, the order-items producer
    runs to its end, emits for every order id in [1, n_orders] at least one
    row, emits between n_orders and 6 * n_orders rows in all, and every
    product id (and order id) it emits lies in its range. *)
Theorem gen_order_items_coverage (n_orders n_products : Z) (avg_items : Q) (w : World) :
  (1 <= n_orders)%Z -> (1 <= n_products)%Z ->
  outcome (gen_order_items n_orders n_products avg_items w) = inl tt /\
  covers n_orders n_products (rows (gen_order_items n_orders n_products avg_items w)).
Proof.
  intros Ho Hp. revert w.
  change (sat (gen_order_items n_orders n_products avg_items)
            (fun ys r => r = inl tt /\ covers n_orders n_products ys)).
  unfold gen_order_items. apply sat_bind. eapply sat_weaken.
  - apply (sat_for_each
             (fun done ys _ =>
                (forall oid, In oid done -> exists r, In r ys /\ item_order r = oid) /\
                (Z.of_nat (List.length done) <= Z.of_nat (List.length ys)
                 <= 6 * Z.of_nat (List.length done))%Z /\
                Forall (fun r => (1 <= item_product r <= n_products)%Z) ys /\
                Forall (fun r => In (item_order r) done) ys)
             (fun _ _ => False)) with (done := []) (ys := []).
    + intros done oid ys s (Hcov & Hlen & Hpid & Hoid).
      apply sat_bind, sat_items_per_order. intros k Hk. cbn [app].
      eapply sat_weaken.
      * apply (sat_for_each_exact
                 (fun r => item_order r = oid /\ (1 <= item_product r <= n_products)%Z)).
        intros _ s'.
        repeat first [sat_step | sat_randint]; cbn [app]; try lia;
          (split; [eexists; split; [reflexivity|cbn; split; [reflexivity|lia]]|eauto]).
      * intros ys' r (Hlen' & HP & s' & ->).
        unfold range0 in Hlen'. rewrite length_range, Z.sub_0_r in Hlen'.
        rewrite !length_app, Hlen'. cbn [List.length].
        split; [|split; [lia|split]].
        -- intros o Hin. apply in_app_or in Hin. destruct Hin as [Hin|[<-|[]]].
           ++ destruct (Hcov o Hin) as (r & Hr & Hro). exists r. split; [|exact Hro].
              apply in_or_app. now left.
           ++ destruct ys' as [|r ys']; [cbn in Hlen'; lia|].
              exists r. split; [apply in_or_app; right; now left|].
              now apply Forall_inv in HP.
        -- apply Forall_app. split; [exact Hpid|].
           eapply Forall_impl; [|exact HP]. now intros r [_ H].
        -- apply Forall_app. split.
           ++ eapply Forall_impl; [|exact Hoid]. intros r H. apply in_or_app. now left.
           ++ eapply Forall_impl; [|exact HP]. intros r [-> _]. apply in_or_app. right. now left.
    + split; [intros oid []|]. cbn. repeat split; try constructor; lia.
  - intros ys [s|e] H; cbn [app] in H; [|contradiction].
    destruct H as (Hcov & Hlen & Hpid & Hoid).
    apply sat_ret. rewrite app_nil_r. split; [reflexivity|].
    rewrite length_range in Hlen.
    assert (Hin : forall oid, In oid (range 1 (n_orders + 1)) <-> (1 <= oid <= n_orders)%Z)
      by (intros oid; rewrite in_range; lia).
    split; [|split; [lia|split; [exact Hpid|]]].
    + intros oid Hoid'. apply Hcov, Hin, Hoid'.
    + eapply Forall_impl; [|exact Hoid]. intros r Hr. now apply Hin.
Qed.

(** ** The cosmetic parameter *)

(** C9.  The [avg_items] argument does not reach the rows: with the world in
    the same state and the same counts, the order-items producer yields the
    same rows, ends the same way and leaves the same world for any two
    values of it; so does the whole run for any two values of [--items_avg]. *)
Theorem avg_items_is_cosmetic (n_orders n_products : Z) (avg1 avg2 : Q) (args : Args)
    (w : World) :
  gen_order_items n_orders n_products avg1 w = gen_order_items n_orders n_products avg2 w /\
  run (with_items_avg args avg1) w = run (with_items_avg args avg2) w.
Proof. split; reflexivity. Qed.

(** ** Customer e-mail addresses *)

Lemma chars_app (a b : string) :
  list_ascii_of_string (a ++ b) = (list_ascii_of_string a ++ list_ascii_of_string b)%list.
Proof. induction a as [|c a IH]; cbn; [reflexivity|now rewrite IH]. Qed.

Lemma lower_app (a b : string) : Py.lower (a ++ b) = Py.lower a ++ Py.lower b.
Proof. induction a as [|c a IH]; cbn; [reflexivity|now rewrite IH]. Qed.


Lemma string_forall_uint (p : ascii -> bool) (d : Decimal.uint) :
  forallb p ["0"; "1"; "2"; "3"; "4"; "5"; "6"; "7"; "8"; "9"]%char = true ->
  string_forall p (NilEmpty.string_of_uint d) = true.
Proof.
  cbn [forallb]. intros H. repeat (apply andb_prop in H as [? H]).
  induction d; cbn; rewrite ?IHd, ?andb_true_r; auto.
Qed.

(** The text of an integer is made of digits and the minus sign. *)
Lemma string_forall_str (p : ascii -> bool) (n : Z) :
  forallb p ["0"; "1"; "2"; "3"; "4"; "5"; "6"; "7"; "8"; "9"; "-"]%char = true ->
  string_forall p (Py.str n) = true.
Proof.
  intros H.
  assert (Hd : forallb p ["0"; "1"; "2"; "3"; "4"; "5"; "6"; "7"; "8"; "9"]%char = true).
  { cbn [forallb] in *. repeat (apply andb_prop in H as [-> H]). reflexivity. }
  assert (Hm : p "-"%char = true).
  { cbn [forallb] in H. do 10 (apply andb_prop in H as [_ H]).
    now apply andb_prop in H as [H _]. }
  pose proof (string_forall_uint p) as Hu.
  assert (H0 : p "0"%char = true) by (cbn [forallb] in Hd; now apply andb_prop in Hd as [-> _]).
  unfold Py.str.
  destruct (Z.to_int n) as [d|d]; cbn; rewrite ?Hm; cbn;
    (destruct d; [cbn; now rewrite H0|apply (Hu _ Hd)..]).
Qed.

Lemma all_plain_lower (s : string) : all_plain s = true -> Py.lower s = s.
Proof.
  unfold all_plain. induction s as [|c s IH]; cbn; [reflexivity|].
  intros H. apply andb_prop in H as [Hc Hs]. apply andb_prop in Hc as [Hc _].
  apply Ascii.eqb_eq in Hc. now rewrite Hc, IH.
Qed.

Lemma all_plain_no_dot (s : string) :
  all_plain s = true -> ~ In "."%char (list_ascii_of_string s).
Proof.
  unfold all_plain. induction s as [|c s IH]; cbn; [tauto|].
  intros H. apply andb_prop in H as [Hc Hs]. apply andb_prop in Hc as [_ Hc].
  intros [->|Hin]; [discriminate Hc|now apply IH].
Qed.

Lemma all_plain_str (n : Z) : all_plain (Py.str n) = true.
Proof. apply string_forall_str. reflexivity. Qed.

Lemma str_inj (a b : Z) : Py.str a = Py.str b -> a = b.
Proof.
  unfold Py.str. intros H.
  assert (Hnil : forall z, Z.to_int z <> Decimal.Pos Decimal.Nil /\
                           Z.to_int z <> Decimal.Neg Decimal.Nil).
  { intros [|p|p]; cbn; split; try discriminate;
      intros Hp; injection Hp as Hp; now apply DecimalPos.Unsigned.to_uint_nonnil in Hp. }
  apply (f_equal NilZero.int_of_string) in H.
  rewrite !NilZero.isi in H by apply Hnil.
  injection H as H. apply (f_equal Z.of_int) in H. now rewrite !DecimalZ.of_to in H.
Qed.

Lemma last_dot_segment {A} (dot : A) (x1 x2 d1 d2 sfx : list A) :
  ~ In dot d1 -> ~ In dot d2 ->
  (x1 ++ dot :: d1 ++ sfx = x2 ++ dot :: d2 ++ sfx)%list -> d1 = d2.
Proof.
  intros H1 H2 H.
  rewrite !app_comm_cons, !app_assoc in H. apply app_inv_tail in H.
  apply app_inj_pivot in H. tauto.
Qed.

Lemma email_of_inj (first1 last1 first2 last2 : string) (cid1 cid2 : Z) :
  email_of first1 last1 cid1 = email_of first2 last2 cid2 -> cid1 = cid2.
Proof.
  unfold email_of. rewrite !lower_app, !(all_plain_lower _ (all_plain_str _)).
  change (Py.lower ".") with ".". change (Py.lower "@example.com") with "@example.com".
  intros H. apply (f_equal list_ascii_of_string) in H.
  rewrite !chars_app in H. cbn [list_ascii_of_string app] in H.
  rewrite !(app_comm_cons (list_ascii_of_string (Py.lower _))) in H.
  rewrite !(app_assoc (list_ascii_of_string (Py.lower _))) in H.
  apply last_dot_segment in H; try (apply all_plain_no_dot, all_plain_str).
  apply str_inj.
  rewrite <- (string_of_list_ascii_of_string (Py.str cid1)), H.
  apply string_of_list_ascii_of_string.
Qed.

Lemma NoDup_map_by_key {A K E} (key : A -> K) (f : A -> E) (l : list A) :
  (forall x y, In x l -> In y l -> f x = f y -> key x = key y) ->
  NoDup (map key l) -> NoDup (map f l).
Proof.
  induction l as [|a l IH]; cbn; intros Hinj Hnd; [constructor|].
  inversion Hnd as [|? ? Hnotin Hnd']; subst. constructor.
  - intros Hin. apply in_map_iff in Hin as (y & Hy & Hyin).
    apply Hnotin. apply in_map_iff. exists y. split; [|exact Hyin].
    apply Hinj; auto.
  - apply IH; auto.
Qed.

Lemma contiguous_keys_NoDup {Y} (key : Y -> Z) (ys : list Y) :
  contiguous_keys key ys -> NoDup (map key ys).
Proof.
  unfold contiguous_keys. intros ->.
  apply Injective_map_NoDup; [exact Nat2Z.inj|apply seq_NoDup].
Qed.

Lemma gen_customers_emails (n : Z) :
  sat (gen_customers n)
    (fun ys _ =>
       Forall (fun r => exists first last,
                 customer_email r = email_of first last (customer_id r)) ys).
Proof.
  apply sat_then_ret_Forall, sat_for_each_Forall. intros _ cid.
  repeat sat_step. cbn [app]. constructor; [|constructor].
  cbn. eexists _, _. reflexivity.
Qed.

(** C10.  For every requested count the customer producer emits that many
    rows, and their email fields are pairwise distinct: each address ends
    with the row's own key, between the last dot of the local part and the
    domain. *)
Theorem gen_customers_emails_distinct (n_customers : Z) (w : World) :
  List.length (rows (gen_customers n_customers w)) = Z.to_nat n_customers /\
  NoDup (map customer_email (rows (gen_customers n_customers w))).
Proof.
  split; [apply (gen_customers_total n_customers w)|].
  apply (NoDup_map_by_key customer_id).
  - pose proof (gen_customers_emails n_customers w) as Hall.
    rewrite Forall_forall in Hall.
    intros x y Hx Hy Heq.
    destruct (Hall x Hx) as (f1 & l1 & E1). destruct (Hall y Hy) as (f2 & l2 & E2).
    rewrite E1, E2 in Heq. exact (email_of_inj _ _ _ _ _ _ Heq).
  - apply contiguous_keys_NoDup, gen_customers_keys.
Qed.

(** ** Generators and the system *)


Section Frame.

Context {Y : Type}.

Lemma frame_ret {A} (a : A) : frame (Y := Y) (ret a).
Proof. intros w. reflexivity. Qed.

Lemma frame_raise {A} (e : exn) : frame (Y := Y) (A := A) (raise e).
Proof. intros w. reflexivity. Qed.

Lemma frame_yield (y : Y) : frame (yield y).
Proof. intros w. reflexivity. Qed.

Lemma frame_bind {A B} (m : Gen Y A) (k : A -> Gen Y B) :
  frame m -> (forall a, frame (k a)) -> frame (bind m k).
Proof.
  intros Hm Hk w. unfold bind. specialize (Hm w).
  destruct (m w) as [[ys [a|e]] w1]; cbn in Hm |- *; [|exact Hm].
  specialize (Hk a w1). destruct (k a w1) as [[ys' r] w2]. cbn in Hk |- *. congruence.
Qed.

Lemma frame_for_each {B S} (body : B -> S -> Gen Y S) :
  (forall x s, frame (body x s)) -> forall xs s, frame (for_each xs body s).
Proof.
  intros Hbody xs. induction xs as [|x xs IH]; intros s; cbn [for_each].
  - apply frame_ret.
  - apply frame_bind; auto.
Qed.

Lemma frame_draw : frame (Y := Y) Random.draw.
Proof. intros w. reflexivity. Qed.

Lemma frame_utcnow : frame (Y := Y) Datetime.utcnow.
Proof. intros w. reflexivity. Qed.

Lemma frame_word : frame (Y := Y) Fake.word.
Proof. intros w. reflexivity. Qed.

Lemma frame_number : frame (Y := Y) Fake.number.
Proof. intros w. reflexivity. Qed.

End Frame.

Ltac frame_step :=
  lazymatch goal with
  | |- frame (bind _ _) => apply frame_bind; [|intros ?]
  | |- frame (for_each _ _ _) => apply frame_for_each; intros ? ?
  | |- frame (ret _) => apply frame_ret
  | |- frame (raise _) => apply frame_raise
  | |- frame (yield _) => apply frame_yield
  | |- frame Random.draw => apply frame_draw
  | |- frame Datetime.utcnow => apply frame_utcnow
  | |- frame Fake.word => apply frame_word
  | |- frame Fake.number => apply frame_number
  | |- frame (if ?c then _ else _) => destruct c
  | |- frame (match ?x with (_, _) => _ end) => destruct x
  | |- frame (match ?x with [] => _ | _ :: _ => _ end) => destruct x
  end; cbn beta iota zeta.

Ltac frame_solve :=
  repeat first
    [ frame_step
    | progress unfold Random.random, Random.uniform, Random.gauss, Random.randint,
        Random.randbelow, Random.choice, Fake.date_between, Fake.first_name,
        Fake.last_name, Fake.city, Datetime.today, items_per_order, rand_datetime, daterange ].

Lemma frame_gen_products (n : Z) : frame (gen_products n).
Proof. unfold gen_products. frame_solve. Qed.

Lemma frame_gen_customers (n : Z) : frame (gen_customers n).
Proof. unfold gen_customers. frame_solve. Qed.

Lemma frame_gen_order_items (n m : Z) (avg : Q) : frame (gen_order_items n m avg).
Proof. unfold gen_order_items. frame_solve. Qed.

(** ** The sink writer *)














Lemma bind_inl {Y A B} (m : Gen Y A) (k : A -> Gen Y B) (w w1 : World) (ys : list Y) (a : A) :
  m w = (ys, inl a, w1) ->
  bind m k w = (let '(ys', r, w2) := k a w1 in ((ys ++ ys')%list, r, w2)).
Proof. intros H. unfold bind. rewrite H. reflexivity. Qed.


Lemma set_file_same (path content : string) (s : System) :
  files (set_file path content s) path = Some content.
Proof. cbn. now rewrite String.eqb_refl. Qed.

Lemma set_file_other (path content p : string) (s : System) :
  p <> path -> files (set_file path content s) p = files s p.
Proof. intros H. cbn. apply String.eqb_neq in H. now rewrite H. Qed.

Lemma makedirs_run {Y} (name : string) (w : World) :
  name <> EmptyString -> makedirs (Y := Y) name w = ([], inl tt, w).
Proof. intros H. unfold makedirs. apply String.eqb_neq in H. now rewrite H. Qed.

Lemma wrote_fwrite {Y} (path content data : string) (b w : World) :
  wrote path content b w ->
  exists w', fwrite (Y := Y) path data w = ([], inl tt, w') /\
             wrote path (content ++ data) b w'.
Proof.
  intros (Hr & Hf & Hc & Hfile & Hother & Ht & Hl & Hk & Hg & msgs & Hout).
  eexists. split; [reflexivity|].
  unfold wrote. cbn [sys rng faker clock]. rewrite Hfile.
  split; [exact Hr|]. split; [exact Hf|]. split; [exact Hc|].
  split; [|split; [|split; [exact Ht|split; [exact Hl|split; [exact Hk|split; [exact Hg|]]]]]].
  - apply set_file_same.
  - intros p Hp. rewrite set_file_other by exact Hp. now apply Hother.
  - now exists msgs.
Qed.

Lemma wrote_print {Y} (path content : string) (m : message) (b w : World) :
  wrote path content b w ->
  exists w', print (Y := Y) m w = ([], inl tt, w') /\ wrote path content b w'.
Proof.
  intros (Hr & Hf & Hc & Hfile & Hother & Ht & Hl & Hk & Hg & msgs & Hout).
  eexists. split; [reflexivity|].
  repeat split; auto. exists (msgs ++ [m])%list. cbn. now rewrite Hout, app_assoc.
Qed.

(** The loop of [write_csv]: every row is appended to the file and counted. *)
Lemma write_loop {Y Row} (fields : Row -> list Csv.field) (path : string) (chunk : Z)
    (ys : list Row) (b : World) :
  chunk <> 0%Z ->
  forall (written : Z) (content : string) (w : World),
    wrote path content b w ->
    exists w',
      for_each (Y := Y) ys
        (fun row written =>
           fwrite path (Csv.writerow (fields row)) ;;;
           let written := (written + 1)%Z in
           (if (chunk =? 0)%Z then raise ZeroDivisionError
            else if (written mod chunk =? 0)%Z then print (Wrote written (basename path))
            else ret tt) ;;;
           ret written)
        written w
      = ([], inl (written + Z.of_nat (List.length ys))%Z, w') /\
      wrote path (content ++ fold_right append EmptyString (map Csv.writerow (map fields ys)))
        b w'.
Proof.
  intros Hchunk. apply Z.eqb_neq in Hchunk.
  induction ys as [|y ys IH]; intros written content w Hw.
  - exists w. cbn. rewrite Z.add_0_r. split; [reflexivity|].
    replace (content ++ EmptyString) with content; [exact Hw|].
    clear. induction content as [|c s IHs]; cbn; congruence.
  - cbn [for_each].
    destruct (wrote_fwrite (Y := Y) path content (Csv.writerow (fields y)) b w Hw)
      as (w1 & E1 & Hw1).
    assert (Hmid : exists w2,
               (if (chunk =? 0)%Z then raise ZeroDivisionError
                else if ((written + 1) mod chunk =? 0)%Z
                     then print (Wrote (written + 1) (basename path))
                     else ret tt) w1 = (@nil Y, inl tt, w2) /\
               wrote path (content ++ Csv.writerow (fields y)) b w2).
    { rewrite Hchunk. destruct ((written + 1) mod chunk =? 0)%Z.
      - now apply wrote_print.
      - exists w1. now split. }
    destruct Hmid as (w2 & E2 & Hw2).
    destruct (IH (written + 1)%Z _ w2 Hw2) as (w3 & E3 & Hw3).
    exists w3. split.
    + erewrite bind_inl.
      2:{ erewrite bind_inl by exact E1. cbv zeta.
          erewrite bind_inl by exact E2. reflexivity. }
      cbv zeta in E3 |- *. rewrite E3. cbn [app List.length]. do 2 f_equal. f_equal. lia.
    + cbn [map fold_right].
      replace (content ++ Csv.writerow (fields y) ++
               fold_right append EmptyString (map Csv.writerow (map fields ys)))
        with ((content ++ Csv.writerow (fields y)) ++
              fold_right append EmptyString (map Csv.writerow (map fields ys))); [exact Hw3|].
      clear. induction content as [|c s IHs]; cbn; congruence.
Qed.

Lemma wrote_header (path : string) (header : list string) (w : World) :
  wrote path (Csv.writerow (map Csv.Str header)) w (header_written path header w).
Proof.
  unfold wrote, header_written.
  cbn [bind fopen fwrite update_sys world_after snd sys rng faker clock set_file files].
  rewrite String.eqb_refl.
  cbn [set_file files tables local_infile foreign_key_checks set_global_allowed stdout
       append].
  rewrite String.eqb_refl.
  repeat split; auto.
  - intros p Hp. apply String.eqb_neq in Hp. now rewrite Hp.
  - exists []. now rewrite app_nil_r.
Qed.

Lemma wrote_with_sys (path content : string) (w w0 w1 : World) :
  wrote path content w w0 -> sys w1 = sys w0 ->
  wrote path content (with_sys w1 (sys w)) w1.
Proof.
  intros (_ & _ & _ & H) Hsys. unfold wrote. rewrite Hsys.
  cbn [with_sys rng faker clock sys]. auto.
Qed.

(** What a call of [write_csv] does, given what its iterator does once the
    header is written: it returns the number of rows yielded, or raises what
    the iterator raised, and leaves the header and the rows in the file. *)
Lemma write_csv_run {Y Row} (fields : Row -> list Csv.field) (path : string)
    (header : list string) (row_iter : Gen Row unit) (chunk : Z) (w w1 : World)
    (ys : list Row) (r : unit + exn) :
  dirname path <> EmptyString ->
  chunk <> 0%Z ->
  row_iter (header_written path header w) = (ys, r, w1) ->
  sys w1 = sys (header_written path header w) ->
  exists w',
    write_csv (Y := Y) fields path header row_iter chunk w =
      ([], match r with
           | inl _ => inl (Z.of_nat (List.length ys))
           | inr e => inr e
           end, w') /\
    wrote path (csv_text header (map fields ys)) (with_sys w1 (sys w)) w'.
Proof.
  intros Hdir Hchunk Hrun Hsys.
  pose proof (wrote_with_sys _ _ _ _ _ (wrote_header path header w) Hsys) as Hw1.
  destruct (write_loop (Y := Y) fields path chunk ys _ Hchunk 0%Z _ w1 Hw1)
    as (w2 & Eloop & Hw2).
  assert (Eiter : iterate (Y := Y) row_iter (header_written path header w) =
                  ([], inl (ys, match r with inl _ => None | inr e => Some e end), w1)).
  { unfold iterate. rewrite Hrun. now destruct r. }
  unfold write_csv. erewrite bind_inl by exact (makedirs_run _ _ Hdir).
  erewrite bind_inl by reflexivity. erewrite bind_inl by reflexivity.
  match goal with
  | |- context [bind (iterate row_iter) ?k ?w0] =>
      change (bind (iterate row_iter) k w0)
        with (bind (iterate row_iter) k (header_written path header w))
  end.
  erewrite bind_inl by exact Eiter. cbv iota beta.
  cbv zeta in Eloop. erewrite bind_inl by exact Eloop.
  destruct r as [u|e].
  - destruct (wrote_print (Y := Y) path _ (Done (0 + Z.of_nat (List.length ys)) (basename path))
                _ w2 Hw2) as (w3 & Eprint & Hw3).
    exists w3. erewrite bind_inl by exact Eprint. cbn [ret app]. split; [reflexivity|exact Hw3].
  - exists w2. cbn [raise app]. split; [reflexivity|exact Hw2].
Qed.

(** Iterating a given sequence yields it and changes nothing. *)
Lemma iter_run {Row} (ys : list Row) (w : World) : iter ys w = (ys, inl tt, w).
Proof.
  unfold iter. induction ys as [|y ys IH]; [reflexivity|].
  cbn [for_each]. erewrite bind_inl by reflexivity. rewrite IH. reflexivity.
Qed.




(** ** The bulk loader *)

Ltac unfold_load :=
  unfold load_csv, ensure_local_infile_enabled, load_data, set_foreign_key_checks, print,
    update_sys, get_sys, bind, ret, raise;
  cbn [sys files tables local_infile foreign_key_checks set_global_allowed stdout
       rng faker clock negb app].

(** An import that can go ahead, of a file that exists: its data lines are
    sent to the table, and both settings are on afterwards. *)
Lemma load_csv_run {Y} (db table path content : string) (w : World) :
  files (sys w) path = Some content ->
  can_load (sys w) = true ->
  exists w', load_csv (Y := Y) db table path w = ([], inl tt, w') /\
             loaded db table content w w' /\
             foreign_key_checks (sys w') = true /\ local_infile (sys w') = true /\
             set_global_allowed (sys w') = set_global_allowed (sys w).
Proof.
  intros Hfile Hcan. destruct w as [r f c [fl tb li fk g out]]. unfold can_load in Hcan.
  cbn [sys files local_infile set_global_allowed] in Hfile, Hcan.
  unfold loaded.
  destruct li; [|destruct g; [|discriminate Hcan]];
    (eexists; split;
     [ unfold_load; rewrite Hfile; reflexivity
     | cbn [sys rng faker clock files tables foreign_key_checks local_infile
            set_global_allowed];
       rewrite !String.eqb_refl; cbn [andb];
       repeat split; auto;
       intros d t Hdt;
       destruct (String.eqb_spec d db) as [->|]; [|reflexivity];
       destruct (String.eqb_spec t table) as [->|]; [congruence|reflexivity] ]).
Qed.

(** An import that cannot go ahead is refused. *)
Lemma load_csv_refused {Y} (db table path : string) (w : World) :
  can_load (sys w) = false ->
  exists w', load_csv (Y := Y) db table path w = ([], inr DatabaseError, w').
Proof.
  intros Hcan. destruct w as [r f c [fl tb li fk g out]]. unfold can_load in Hcan.
  cbn [sys local_infile set_global_allowed] in Hcan.
  destruct li; [discriminate Hcan|]. destruct g; [discriminate Hcan|].
  eexists. unfold_load. reflexivity.
Qed.

(** ** Runs and the clock *)

(** Two runs with the same seed and the same counts write different order
    files when one is started a second after the other, and different
    product and customer files when one is started a day after the other. *)
Lemma run_depends_on_clock :
  file_after sample_args (sample_world 1793750400) "orders.csv" <>
  file_after sample_args (sample_world 1793750401) "orders.csv" /\
  file_after sample_args (sample_world 1793750400) "products.csv" <>
  file_after sample_args (sample_world 1793836800) "products.csv" /\
  file_after sample_args (sample_world 1793750400) "customers.csv" <>
  file_after sample_args (sample_world 1793836800) "customers.csv".
Proof. repeat split; vm_compute; intros H; discriminate H. Qed.

(** A run that stops before the order items leaves the order-items file it
    found: with no customer, the file of an earlier run survives. *)
Example aborted_run_keeps_old_file :
  file_after (zero_customers_args 1 1)
    (with_file (sample_world 0) "data/order_items.csv" "old") "order_items.csv" = Some "old" /\
  file_after (zero_customers_args 1 1) (sample_world 0) "order_items.csv" = None.
Proof. split; vm_compute; reflexivity. Qed.

(** ** A run without customers *)

Lemma exec_bind_inl {Y A B} (m : Gen Y A) (k : A -> Gen Y B) (w w1 : World) (a : A) :
  exec m w = (inl a, w1) -> exec (bind m k) w = exec (k a) w1.
Proof.
  unfold exec, bind. destruct (m w) as [[ys r] w']. cbn. intros [= -> ->].
  now destruct (k a w1) as [[ys' r'] w2].
Qed.

Lemma exec_bind_inr {Y A B} (m : Gen Y A) (k : A -> Gen Y B) (w w1 : World) (e : exn) :
  exec m w = (inr e, w1) -> exec (bind m k) w = (inr e, w1).
Proof. unfold exec, bind. destruct (m w) as [[ys r] w']. cbn. now intros [= -> ->]. Qed.

Lemma run_exec (args : Args) (w : World) :
  run args w = exec (main (Y := Empty_set) args) w.
Proof. unfold run, exec. now destruct (main args w) as [[ys r] w']. Qed.

Lemma exec_of_run {Y A} (m : Gen Y A) (w w' : World) (ys : list Y) (r : A + exn) :
  m w = (ys, r, w') -> exec m w = (r, w').
Proof. unfold exec. now intros ->. Qed.

(** Products are generated without raising, whatever the count, and the
    generator leaves the system alone. *)
Lemma gen_products_run (n : Z) (w : World) :
  exists ys w', gen_products n w = (ys, inl tt, w') /\ sys w' = sys w.
Proof.
  pose proof (gen_products_total n w) as [_ Hr]. pose proof (frame_gen_products n w) as Hs.
  destruct (gen_products n w) as [[ys r] w']. cbn in Hr, Hs. subst r. eauto.
Qed.

(** With no customer to refer to, the first order cannot be drawn. *)
Lemma orders_without_customers (n_orders : positive) (w w' : World)
    (order_iter : Gen order_row unit) :
  gen_orders (Y := Empty_set) (Z.pos n_orders) 0 w = ([], inl order_iter, w') ->
  forall w1, order_iter w1 = ([], inr ValueError, w1).
Proof.
  unfold gen_orders, daterange. cbn [bind Datetime.utcnow ret app]. intros [= <- _] w1.
  unfold range0.
  destruct (range 0 (Z.pos n_orders)) as [|x xs] eqn:E.
  - apply (f_equal (@List.length Z)) in E. rewrite length_range in E. cbn in E. lia.
  - reflexivity.
Qed.

Lemma default_chunk_nonzero : default_chunk <> 0%Z.
Proof. discriminate. Qed.

Ltac name_world w :=
  match goal with |- context [exec _ ?wa] => set (w := wa) end.

(** A path that is seen to have a directory part. *)
Ltac dir_ok := let H := fresh in intros H; vm_compute in H; discriminate H.

(** Writing a file leaves the server's settings alone. *)
Lemma wrote_can_load (path content : string) (b w : World) :
  wrote path content b w -> can_load (sys w) = can_load (sys b).
Proof.
  intros (_ & _ & _ & _ & _ & _ & Hl & _ & Hg & _). unfold can_load. now rewrite Hl, Hg.
Qed.

Lemma can_load_on (s : System) : local_infile s = true -> can_load s = true.
Proof. unfold can_load. now intros ->. Qed.

Lemma zero_customers_run (n_products : Z) (n_orders : positive) (w : World) :
  can_load (sys w) = true ->
  exists wf,
    run (zero_customers_args n_products n_orders) w = (inr ValueError, wf) /\
    files (sys wf) "data/customers.csv" = Some (Csv.writerow (map Csv.Str customers_header)) /\
    tables (sys wf) "ecommerce_synth" "customers" = tables (sys w) "ecommerce_synth" "customers".
Proof.
  intros Hcan.
  assert (D1 : dirname "data/products.csv" <> EmptyString) by dir_ok.
  assert (D2 : dirname "data/customers.csv" <> EmptyString) by dir_ok.
  assert (D3 : dirname "data/orders.csv" <> EmptyString) by dir_ok.
  rewrite run_exec. unfold main, zero_customers_args.
  cbn [outdir database customers products orders items_avg].
  change (Py.path_join "data" "products.csv") with "data/products.csv".
  change (Py.path_join "data" "customers.csv") with "data/customers.csv".
  change (Py.path_join "data" "orders.csv") with "data/orders.csv".
  change (Py.path_join "data" "order_items.csv") with "data/order_items.csv".
  (* the prelude: messages, seeding, the output directory *)
  do 5 (erewrite exec_bind_inl by reflexivity). name_world w1.
  assert (T1 : tables (sys w1) = tables (sys w)) by reflexivity.
  assert (C1 : can_load (sys w1) = true) by exact Hcan. clearbody w1.
  (* products: written, then loaded *)
  destruct (gen_products_run n_products (header_written "data/products.csv" products_header w1))
    as (ys1 & w1' & G1 & S1).
  destruct (write_csv_run (Y := Empty_set) product_fields _ _ _ _ _ _ _ _
              D1 default_chunk_nonzero G1 S1) as (w2 & E2 & W2).
  erewrite exec_bind_inl by exact (exec_of_run _ _ _ _ _ E2).
  pose proof (wrote_can_load _ _ _ _ W2) as C2. cbn [with_sys sys] in C2.
  destruct W2 as (_ & _ & _ & F2 & _ & T2 & _). cbn [with_sys sys] in T2.
  erewrite exec_bind_inl by reflexivity. name_world w3.
  assert (F3 : files (sys w3) = files (sys w2)) by reflexivity.
  assert (T3 : tables (sys w3) = tables (sys w2)) by reflexivity.
  assert (C3 : can_load (sys w3) = true) by (rewrite <- C1, <- C2; reflexivity).
  clearbody w3.
  rewrite <- F3 in F2.
  destruct (load_csv_run (Y := Empty_set) "ecommerce_synth" "products" _ _ w3 F2 C3)
    as (w4 & E4 & L4 & _ & I4 & _).
  erewrite exec_bind_inl by exact (exec_of_run _ _ _ _ _ E4).
  destruct L4 as (_ & _ & _ & _ & _ & T4).
  specialize (T4 "ecommerce_synth" "customers" ltac:(discriminate)).
  erewrite exec_bind_inl by reflexivity. name_world w5.
  assert (T5 : tables (sys w5) = tables (sys w4)) by reflexivity.
  assert (I5 : local_infile (sys w5) = true) by exact I4. clearbody w5.
  (* customers: a header and no row, then nothing to load *)
  destruct (write_csv_run (Y := Empty_set) customer_fields "data/customers.csv"
              customers_header (gen_customers 0) _ w5 _ [] (inl tt)
              D2 default_chunk_nonzero eq_refl eq_refl) as (w6 & E6 & W6).
  erewrite exec_bind_inl by exact (exec_of_run _ _ _ _ _ E6).
  pose proof (wrote_can_load _ _ _ _ W6) as C6. cbn [with_sys sys] in C6.
  rewrite (can_load_on _ I5) in C6.
  destruct W6 as (_ & _ & _ & F6 & _ & T6 & _). cbn [with_sys sys] in T6.
  erewrite exec_bind_inl by reflexivity. name_world w7.
  assert (F7 : files (sys w7) = files (sys w6)) by reflexivity.
  assert (T7 : tables (sys w7) = tables (sys w6)) by reflexivity.
  assert (C7 : can_load (sys w7) = true) by exact C6. clearbody w7.
  rewrite <- F7 in F6.
  destruct (load_csv_run (Y := Empty_set) "ecommerce_synth" "customers" _ _ w7 F6 C7)
    as (w8 & E8 & L8 & _).
  erewrite exec_bind_inl by exact (exec_of_run _ _ _ _ _ E8).
  destruct L8 as (_ & _ & _ & F8 & T8 & _).
  erewrite exec_bind_inl by reflexivity. name_world w9.
  assert (F9 : files (sys w9) = files (sys w8)) by reflexivity.
  assert (T9 : tables (sys w9) = tables (sys w8)) by reflexivity. clearbody w9.
  (* orders: the iterator raises at its first row *)
  assert (G10 : exists order_iter w10,
             gen_orders (Y := Empty_set) (Z.pos n_orders) 0 w9 = ([], inl order_iter, w10) /\
             sys w10 = sys w9) by (eexists _, _; split; reflexivity).
  destruct G10 as (order_iter & w10 & G10 & S10).
  erewrite exec_bind_inl by exact (exec_of_run _ _ _ _ _ G10).
  pose proof (orders_without_customers _ _ _ _ G10
                (header_written "data/orders.csv" orders_header w10)) as R10.
  destruct (write_csv_run (Y := Empty_set) order_fields _ _ _ _ _ _ _ _
              D3 default_chunk_nonzero R10 eq_refl) as (w11 & E11 & W11).
  erewrite exec_bind_inr by exact (exec_of_run _ _ _ _ _ E11).
  destruct W11 as (_ & _ & _ & _ & F11 & T11 & _). cbn [with_sys sys] in F11, T11.
  exists w11. split; [reflexivity|]. split.
  - rewrite F11 by discriminate. rewrite S10, F9, F8. exact F6.
  - rewrite T11, S10, T9, T8, T7, T6, T5, T4, T3, T2, T1.
    change (data_lines _) with (@nil string). apply app_nil_r.
Qed.

(** When the import cannot go ahead the run stops at its first import. *)
Lemma zero_customers_run_refused (n_products : Z) (n_orders : positive) (w : World) :
  can_load (sys w) = false ->
  exists wf, run (zero_customers_args n_products n_orders) w = (inr DatabaseError, wf).
Proof.
  intros Hcan.
  assert (D1 : dirname "data/products.csv" <> EmptyString) by dir_ok.
  rewrite run_exec. unfold main, zero_customers_args.
  cbn [outdir database customers products orders items_avg].
  change (Py.path_join "data" "products.csv") with "data/products.csv".
  do 5 (erewrite exec_bind_inl by reflexivity). name_world w1.
  assert (C1 : can_load (sys w1) = false) by exact Hcan. clearbody w1.
  destruct (gen_products_run n_products (header_written "data/products.csv" products_header w1))
    as (ys1 & w1' & G1 & S1).
  destruct (write_csv_run (Y := Empty_set) product_fields _ _ _ _ _ _ _ _
              D1 default_chunk_nonzero G1 S1) as (w2 & E2 & W2).
  erewrite exec_bind_inl by exact (exec_of_run _ _ _ _ _ E2).
  pose proof (wrote_can_load _ _ _ _ W2) as C2. cbn [with_sys sys] in C2.
  erewrite exec_bind_inl by reflexivity. name_world w3.
  assert (C3 : can_load (sys w3) = false) by (rewrite <- C1, <- C2; reflexivity).
  clearbody w3.
  destruct (load_csv_refused (Y := Empty_set) "ecommerce_synth" "products"
              "data/products.csv" w3 C3) as (w4 & E4).
  erewrite exec_bind_inr by exact (exec_of_run _ _ _ _ _ E4).
  now exists w4.
Qed.

(** C2, at [--customers 0] with a positive order count.  The run raises in
    every world.  Where the import can go ahead, the customers file is
    written with its header row alone and no customer row is loaded, but the
    run does not survive: drawing the first order's customer with
    [random.randint(1, 0)] raises [ValueError]. *)
Theorem zero_customers_run_raises (n_products : Z) (n_orders : positive) (w : World) :
  (exists e, fst (run (zero_customers_args n_products n_orders) w) = inr e) /\
  (can_load (sys w) = true ->
   fst (run (zero_customers_args n_products n_orders) w) = inr ValueError /\
   file_after (zero_customers_args n_products n_orders) w "customers.csv" =
     Some (Csv.writerow (map Csv.Str customers_header)) /\
   loaded_after (zero_customers_args n_products n_orders) w "customers" =
     tables (sys w) "ecommerce_synth" "customers").
Proof.
  split.
  - destruct (can_load (sys w)) eqn:Hcan.
    + destruct (zero_customers_run n_products n_orders w Hcan) as (wf & Hrun & _).
      exists ValueError. now rewrite Hrun.
    + destruct (zero_customers_run_refused n_products n_orders w Hcan) as (wf & Hrun).
      exists DatabaseError. now rewrite Hrun.
  - intros Hcan.
    destruct (zero_customers_run n_products n_orders w Hcan) as (wf & Hrun & Hfile & Htable).
    unfold file_after, loaded_after. rewrite Hrun. cbn [fst snd]. auto.
Qed.

(** ** The theorems at work *)

(** Twenty orders over ten products, in the sample world. *)
Lemma gen_order_items_coverage_witness :
  (1 <= 20)%Z /\ (1 <= 10)%Z /\
  outcome (gen_order_items 20 10 3.0 (sample_world 0)) = inl tt /\
  covers 20 10 (rows (gen_order_items 20 10 3.0 (sample_world 0))).
Proof.
  split; [lia|]. split; [lia|].
  apply (gen_order_items_coverage 20 10 3.0 (sample_world 0)); lia.
Defined.


(** One order for one customer, generated at 2026-11-04 00:00:00 and a
    second later: the same draws, two different dates. *)
Example orders_follow_the_clock :
  map order_date (rows (generated_orders 1 1 (sample_world 1793750400))) =
    ["2024-11-04 00:00:00"] /\
  map order_date (rows (generated_orders 1 1 (sample_world 1793750401))) =
    ["2024-11-04 00:00:01"].
Proof. split; vm_compute; reflexivity. Qed.

(** One product, no customer, one order: the run stops in the orders stage,
    before any order-items file exists. *)
Example zero_customers_sample_run :
  fst (run (zero_customers_args 1 1) (sample_world 0)) = inr ValueError /\
  file_after (zero_customers_args 1 1) (sample_world 0) "order_items.csv" = None /\
  loaded_after (zero_customers_args 1 1) (sample_world 0) "customers" = [] /\
  stdout (sys (snd (run (zero_customers_args 1 1) (sample_world 0)))) =
    [Say "Connecting to MySQL"; Say "Generating products"; Done 1 "products.csv";
     Say "Loading products into MySQL"; Say "Enabled GLOBAL local_infile=1";
     Say "Generating customers"; Done 0 "customers.csv";
     Say "Loading customers into MySQL"; Say "Generating orders"].
Proof. repeat split; vm_compute; reflexivity. Qed.

(** Progress is reported every [chunk] rows, and once at the end. *)
Example write_csv_progress :
  stdout (sys (world_after
    (write_csv (Y := Empty_set) item_fields "data/order_items.csv" items_header
       (iter [(1, 1, 2, 1, 10.0%Q, 10.0%Q); (2, 1, 1, 3, 2.5%Q, 7.5%Q);
              (3, 2, 2, 1, 99.99%Q, 99.99%Q)]%Z) 2 (sample_world 0))))
  = [Wrote 2 "order_items.csv"; Done 3 "order_items.csv"].
Proof. vm_compute. reflexivity. Qed.

(** * Further properties of the code *)

(** ** Rounding to cents keeps the bounds that are whole cents *)

Lemma round2_ge (x : Q) (c : Z) : (c # 100 <= x)%Q -> (c # 100 <= Py.round x 2)%Q.
Proof.
  intros H. unfold Py.round.
  change (10 ^ 2)%Z with 100%Z. change (Z.to_pos 100) with 100%positive.
  pose proof (round_half_even_error (x * inject_Z 100)) as [Hlo _].
  set (k := Py.round_half_even (x * inject_Z 100)) in *.
  change (inject_Z 100) with 100%Q in Hlo.
  assert (Hc : (inject_Z c <= x * 100)%Q).
  { clear -H. destruct x as [n d]. unfold Qle in *. cbn [Qnum Qden Qmult inject_Z] in *.
    rewrite ?Pos.mul_1_r. lia. }
  assert (Hk : (inject_Z c < inject_Z (k + 1))%Q).
  { rewrite inject_Z_plus. change (inject_Z 1) with 1%Q. lra. }
  rewrite <- Zlt_Qlt in Hk.
  unfold Qle. cbn [Qnum Qden]. lia.
Qed.

Lemma round2_le (x : Q) (c : Z) : (x <= c # 100)%Q -> (Py.round x 2 <= c # 100)%Q.
Proof.
  intros H. unfold Py.round.
  change (10 ^ 2)%Z with 100%Z. change (Z.to_pos 100) with 100%positive.
  pose proof (round_half_even_error (x * inject_Z 100)) as [_ Hhi].
  set (k := Py.round_half_even (x * inject_Z 100)) in *.
  change (inject_Z 100) with 100%Q in Hhi.
  assert (Hc : (x * 100 <= inject_Z c)%Q).
  { clear -H. destruct x as [n d]. unfold Qle in *. cbn [Qnum Qden Qmult inject_Z] in *.
    rewrite ?Pos.mul_1_r. lia. }
  assert (Hk : (inject_Z k < inject_Z (c + 1))%Q).
  { rewrite inject_Z_plus. change (inject_Z 1) with 1%Q. lra. }
  rewrite <- Zlt_Qlt in Hk.
  unfold Qle. cbn [Qnum Qden]. lia.
Qed.

(** ** What the rows look like *)

Lemma lower_ascii_idempotent (c : ascii) :
  Py.lower_ascii (Py.lower_ascii c) = Py.lower_ascii c.
Proof. destruct c as [[] [] [] [] [] [] [] []]; reflexivity. Qed.

Lemma lower_idempotent (s : string) : Py.lower (Py.lower s) = Py.lower s.
Proof.
  induction s as [|c s IH]; cbn; [reflexivity|].
  now rewrite lower_ascii_idempotent, IH.
Qed.

(** Every product row has a subcategory and a brand of its own category, a
    price in [5, 900], a cost of at least 2.5 and a 0/1 activity flag. *)
Theorem gen_products_well_formed (n_products : Z) (w : World) :
  Forall well_formed_product (rows (gen_products n_products w)).
Proof.
  revert w.
  change (sat (gen_products n_products) (fun ys _ => Forall well_formed_product ys)).
  apply sat_then_ret_Forall, sat_for_each_Forall. intros _ pid.
  sat_step. sat_step. destruct x as [[cat subs] brands].
  destruct (categories_nonempty _ _ _ H) as [Hsubs Hbrands].
  sat_step. sat_step; [exact Hsubs|]. sat_step. sat_step; [exact Hbrands|].
  repeat sat_step; cbn [app]; (constructor; [|constructor]);
    unfold well_formed_product;
    cbn [product_category product_subcategory product_brand product_price
         product_cost product_active].
  all: assert (Hlo : (500 # 100 <= Py.round (5 + (900 - 5) * r) 2)%Q)
         by (apply round2_ge; nra).
  all: assert (Hhi : (Py.round (5 + (900 - 5) * r) 2 <= 90000 # 100)%Q)
         by (apply round2_le; nra).
  all: assert (Hcost : (250 # 100 <=
                        Py.round (Py.round (5 + (900 - 5) * r) 2 *
                                  (0.5 + (0.85 - 0.5) * r0)) 2)%Q)
         by (apply round2_ge; nra).
  all: (split; [exists subs, brands; auto|]); repeat split; try lra.
  all: destruct (Qlt_le_dec (Py.double 0.15) r1); auto.
Qed.

(** Every customer row carries the lower-cased address built from its own
    names and key, a country and a source from the fixed lists, and a 0/1
    opt-in flag. *)
Theorem gen_customers_well_formed (n_customers : Z) (w : World) :
  Forall well_formed_customer (rows (gen_customers n_customers w)).
Proof.
  revert w.
  change (sat (gen_customers n_customers) (fun ys _ => Forall well_formed_customer ys)).
  apply sat_then_ret_Forall, sat_for_each_Forall. intros _ cid.
  repeat sat_step; cbn [app]; (constructor; [|constructor]);
    unfold well_formed_customer, email_of;
    cbn [customer_email customer_first customer_last customer_id customer_country
         customer_source customer_opt_in];
    repeat split; auto using lower_idempotent.
  all: destruct (Qlt_le_dec r (Py.double 0.35)); auto.
Qed.

Lemma statuses_distinct (s : string) :
  In s statuses -> In s ["paid"; "shipped"; "cancelled"; "refunded"].
Proof. cbn. intuition. Qed.

Lemma pay_methods_distinct (s : string) :
  In s pay_methods -> In s ["card"; "paypal"; "cod"; "applepay"; "googlepay"].
Proof. cbn. intuition. Qed.

Lemma abs_nonneg (a : Q) : (0 <= Py.abs a)%Q.
Proof. unfold Py.abs. destruct (Qlt_le_dec a 0); lra. Qed.

Lemma max_ge_l (a b : Q) : (a <= Py.max a b)%Q.
Proof. unfold Py.max. destruct (Qlt_le_dec a b); lra. Qed.

Lemma discount_nonneg (g : Q) : (0 <= Py.round (Py.max 0.0 g) 2)%Q.
Proof.
  assert (H : (0 # 100 <= Py.round (Py.max 0.0 g) 2)%Q)
    by (apply round2_ge; pose proof (max_ge_l 0.0 g); lra).
  lra.
Qed.

Lemma total_bounds (g : Q) (status : string) :
  (0 <= Py.round (Py.abs g + (if shipped_or_paid status then 5 else 0)) 2)%Q /\
  (shipped_or_paid status = true ->
   (5 <= Py.round (Py.abs g + (if shipped_or_paid status then 5 else 0)) 2)%Q).
Proof.
  pose proof (abs_nonneg g) as Ha. split.
  - assert (H : (0 # 100 <=
                 Py.round (Py.abs g + (if shipped_or_paid status then 5 else 0)) 2)%Q)
      by (apply round2_ge; destruct (shipped_or_paid status); lra).
    lra.
  - intros ->.
    assert (H : (500 # 100 <= Py.round (Py.abs g + 5) 2)%Q) by (apply round2_ge; lra).
    lra.
Qed.

(** The rows of a computation run by a caller that re-packs its result. *)
Lemma rows_repacked {Y A} (m : Gen Y A) (w : World) :
  rows (let (p, w2) := m w in let (ys', r) := p in (ys', r, w2)) = rows (m w).
Proof. now destruct (m w) as [[ys r] w2]. Qed.

(** Every order row refers to a customer key in [1, n_customers], is dated
    within the 730 days that end when [gen_orders] was called, takes its
    status, currency, payment method and country from the fixed lists, and
    has a discount and a total that are not negative, the total being at
    least 5 when the order is paid or shipped. *)
Theorem generated_orders_well_formed (n_orders n_customers : Z) (w : World) :
  Forall (well_formed_order n_customers (next_reading w))
    (rows (generated_orders n_orders n_customers w)).
Proof.
  unfold generated_orders, gen_orders, daterange, next_reading.
  cbn [bind Datetime.utcnow ret app].
  set (now := readings (clock w) (reads (clock w))).
  rewrite rows_repacked.
  match goal with
  | |- Forall ?P (rows (?m ?w1)) =>
      generalize w1; change (sat m (fun ys _ => Forall P ys))
  end.
  apply sat_then_ret_Forall, sat_for_each_Forall. intros _ oid.
  unfold rand_datetime.
  repeat first [sat_step | sat_randint]; cbn [app]; try (now constructor);
    (constructor; [|constructor]).
  all: unfold well_formed_order;
    cbn [order_customer order_date order_status order_currency order_payment
         order_shipping order_discount order_total].
  all: split; [assumption|].
  all: split; [eexists; split; [|reflexivity]; unfold Datetime.seconds_per_day in *; lia|].
  all: split; [now apply statuses_distinct|]; split; [assumption|].
  all: split; [now apply pay_methods_distinct|]; split; [assumption|].
  all: split; [first [apply discount_nonneg | lra]|apply total_bounds].
Qed.

(** ** When the producers run to their end, and when they raise *)

Lemma outcome_repacked {Y A} (m : Gen Y A) (w : World) :
  outcome (let (p, w2) := m w in let (ys', r) := p in (ys', r, w2)) = outcome (m w).
Proof. now destruct (m w) as [[ys r] w2]. Qed.

Lemma range_nonempty (a b : Z) : (a < b)%Z -> range a b <> [].
Proof.
  intros H E. apply (f_equal (@List.length Z)) in E. rewrite length_range in E.
  cbn in E. lia.
Qed.

(** A loop over a non-empty sequence whose iterations raise before they
    yield raises at once. *)
Lemma sat_for_each_first_raises {Y B S} (body : B -> S -> Gen Y S) (e : exn) :
  (forall x s, sat (body x s) (fun ys r => ys = [] /\ r = inr e)) ->
  forall xs s, xs <> [] ->
    sat (for_each xs body s) (fun ys r => ys = [] /\ r = inr e).
Proof.
  intros Hbody [|x xs] s Hne; [congruence|].
  cbn [for_each]. apply sat_bind. eapply sat_weaken; [apply Hbody|].
  intros ys r [-> ->]. auto.
Qed.

(** With at least one customer, the iterator of [gen_orders] runs to its
    end and yields one row per requested order. *)
Theorem generated_orders_total (n_orders n_customers : Z) (w : World) :
  (1 <= n_customers)%Z ->
  outcome (generated_orders n_orders n_customers w) = inl tt /\
  List.length (rows (generated_orders n_orders n_customers w)) = Z.to_nat n_orders.
Proof.
  intros Hc. unfold generated_orders, gen_orders, daterange.
  cbn [bind Datetime.utcnow ret app].
  rewrite rows_repacked, outcome_repacked.
  match goal with
  | |- outcome (?m ?w1) = _ /\ _ =>
      generalize w1;
      change (sat m (fun ys r => r = inl tt /\ List.length ys = Z.to_nat n_orders))
  end.
  apply sat_bind. eapply sat_weaken.
  - apply (sat_for_each_exact (fun _ => True)). intros _ oid.
    unfold rand_datetime.
    repeat first [sat_step | sat_randint]; cbn [app];
      try (unfold Datetime.seconds_per_day in *; lia); eauto.
  - intros ys r (Hlen & _ & s' & ->). apply sat_ret.
    rewrite app_nil_r, Hlen. unfold range0. rewrite length_range, Z.sub_0_r. auto.
Qed.

(** Without a customer to refer to, and with at least one order requested,
    the iterator of [gen_orders] raises [ValueError] before its first row. *)
Theorem generated_orders_without_customers (n_orders n_customers : Z) (w : World) :
  (n_customers <= 0)%Z -> (1 <= n_orders)%Z ->
  rows (generated_orders n_orders n_customers w) = [] /\
  outcome (generated_orders n_orders n_customers w) = inr ValueError.
Proof.
  intros Hc Ho. unfold generated_orders, gen_orders, daterange.
  cbn [bind Datetime.utcnow ret app].
  rewrite rows_repacked, outcome_repacked.
  match goal with
  | |- rows (?m ?w1) = _ /\ _ =>
      generalize w1; change (sat m (fun ys r => ys = [] /\ r = inr ValueError))
  end.
  apply sat_bind. eapply sat_weaken.
  - apply (sat_for_each_first_raises _ ValueError).
    + intros _ oid. apply sat_bind, sat_randint; [auto|intros k Hk; lia].
    + apply range_nonempty. lia.
  - intros ys r [-> ->]. auto.
Qed.

(** Without a product to refer to, and with at least one order requested,
    the order-items producer raises [ValueError] before its first row. *)
Theorem gen_order_items_without_products (n_orders n_products : Z) (avg_items : Q)
    (w : World) :
  (n_products <= 0)%Z -> (1 <= n_orders)%Z ->
  rows (gen_order_items n_orders n_products avg_items w) = [] /\
  outcome (gen_order_items n_orders n_products avg_items w) = inr ValueError.
Proof.
  intros Hp Ho. revert w.
  change (sat (gen_order_items n_orders n_products avg_items)
            (fun ys r => ys = [] /\ r = inr ValueError)).
  unfold gen_order_items. apply sat_bind. eapply sat_weaken.
  - apply (sat_for_each_first_raises _ ValueError).
    + intros oid item_id0. apply sat_bind, sat_items_per_order. intros k Hk. cbn [app].
      apply sat_for_each_first_raises.
      * intros _ item_id1. apply sat_bind, sat_randint; [auto|intros j Hj; lia].
      * apply range_nonempty. lia.
    + apply range_nonempty. lia.
  - intros ys r [-> ->]. auto.
Qed.

Lemma generated_orders_total_witness :
  (1 <= 3)%Z /\
  outcome (generated_orders 5 3 (sample_world 0)) = inl tt /\
  List.length (rows (generated_orders 5 3 (sample_world 0))) = Z.to_nat 5.
Proof. split; [lia|]. apply (generated_orders_total 5 3 (sample_world 0)). lia. Defined.

Lemma generated_orders_without_customers_witness :
  (0 <= 0)%Z /\ (1 <= 5)%Z /\
  rows (generated_orders 5 0 (sample_world 0)) = [] /\
  outcome (generated_orders 5 0 (sample_world 0)) = inr ValueError.
Proof.
  split; [lia|]. split; [lia|].
  apply (generated_orders_without_customers 5 0 (sample_world 0)); lia.
Defined.

Lemma gen_order_items_without_products_witness :
  (0 <= 0)%Z /\ (1 <= 5)%Z /\
  rows (gen_order_items 5 0 3.0 (sample_world 0)) = [] /\
  outcome (gen_order_items 5 0 3.0 (sample_world 0)) = inr ValueError.
Proof.
  split; [lia|]. split; [lia|].
  apply (gen_order_items_without_products 5 0 3.0 (sample_world 0)); lia.
Defined.

(** ** What the sink writer prints, and what it leaves behind when it fails *)











(** [write_csv] replaces the file at [path] and touches nothing else: every
    other file, every table, the session flags, the random source, Faker
    and the clock are as they were. *)
Theorem write_csv_leaves_rest_alone {Row} (fields : Row -> list Csv.field) (path : string)
    (header : list string) (ys : list Row) (chunk : Z) (w : World) :
  chunk <> 0%Z ->
  exists w',
    world_after (write_csv (Y := Empty_set) fields path header (iter ys) chunk w) = w' /\
    (forall p, p <> path -> files (sys w') p = files (sys w) p) /\
    tables (sys w') = tables (sys w) /\
    local_infile (sys w') = local_infile (sys w) /\
    foreign_key_checks (sys w') = foreign_key_checks (sys w) /\
    rng w' = rng w /\ faker w' = faker w /\ clock w' = clock w.
Proof.
  intros Hchunk.
  destruct (string_dec (dirname path) EmptyString) as [Hdir|Hdir].
  - exists w. split; [|repeat split; auto].
    unfold write_csv, makedirs. rewrite Hdir. reflexivity.
  - destruct (write_csv_run (Y := Empty_set) fields path header (iter ys) chunk w _ ys
                (inl tt) Hdir Hchunk (iter_run ys _) eq_refl) as (w' & Erun & Hw).
    exists w'. rewrite Erun. split; [reflexivity|].
    destruct Hw as (Hr & Hf & Hc & _ & Ho & Ht & Hl & Hk & _).
    cbn [with_sys sys rng faker clock] in *.
    repeat split; auto.
Qed.




(** ** When the import fails *)

(** When the file to import does not exist, [load_csv] raises; the tables and
    the files are as they were, and foreign-key checking is left switched
    off: it is switched back on only after a successful import. *)
Theorem load_csv_missing_file (db table path : string) (w : World) :
  files (sys w) path = None ->
  exists w',
    load_csv (Y := Empty_set) db table path w = ([], inr DatabaseError, w') /\
    foreign_key_checks (sys w') = false /\
    tables (sys w') = tables (sys w) /\
    files (sys w') = files (sys w).
Proof.
  intros Hfile. destruct w as [r f c [fl tb li fk g out]].
  cbn [sys files] in Hfile.
  destruct li; [|destruct g];
    (eexists; split;
     [ unfold_load; rewrite ?Hfile; reflexivity
     | cbn [sys foreign_key_checks tables files]; auto ]).
Qed.

(** ** The helpers of the order producer *)

(** [rand_datetime] returns a time between its two ends when they are in
    order, and raises [ValueError] when the end precedes the start. *)
Theorem rand_datetime_bounds (start end_ : Z) (w : World) :
  ((start <= end_)%Z ->
   exists dt, outcome (rand_datetime (Y := Empty_set) start end_ w) = inl dt /\
              (start <= dt <= end_)%Z) /\
  ((end_ < start)%Z ->
   outcome (rand_datetime (Y := Empty_set) start end_ w) = inr ValueError).
Proof.
  revert w.
  change (sat (Y := Empty_set) (rand_datetime start end_)
            (fun _ r =>
               ((start <= end_)%Z -> exists dt, r = inl dt /\ (start <= dt <= end_)%Z) /\
               ((end_ < start)%Z -> r = inr ValueError))).
  unfold rand_datetime. apply sat_bind, sat_randint.
  - intros Hlt. split; [lia|reflexivity].
  - intros k Hk. apply sat_ret. split; [|lia].
    intros _. exists (start + k)%Z. split; [reflexivity|lia].
Qed.

(** ** The order of the item rows *)

Lemma map_constant {A B} (f : A -> B) (c : B) (l : list A) :
  Forall (fun x => f x = c) l -> map f l = repeat c (List.length l).
Proof. induction 1 as [|x l Hx _ IH]; cbn; [reflexivity|]. now rewrite Hx, IH. Qed.

Lemma combine_snoc {A B} (l : list A) (l' : list B) (a : A) (b : B) :
  List.length l = List.length l' ->
  combine (l ++ [a]) (l' ++ [b]) = (combine l l' ++ [(a, b)])%list.
Proof.
  revert l'. induction l as [|x l IH]; intros [|y l'] H; cbn in *; try discriminate;
    [reflexivity|]. now rewrite IH by congruence.
Qed.

Lemma grouped_snoc (oids counts : list Z) (oid k : Z) :
  List.length oids = List.length counts ->
  grouped (oids ++ [oid]) (counts ++ [k]) =
    (grouped oids counts ++ repeat oid (Z.to_nat k))%list.
Proof.
  intros H. unfold grouped. rewrite combine_snoc by exact H.
  rewrite flat_map_app. cbn. now rewrite app_nil_r.
Qed.

(** With a product to refer to, the producer runs to its end and its rows
    come in groups, one group of one to six rows per order. *)
Lemma gen_order_items_groups (n_orders n_products : Z) (avg_items : Q) :
  (1 <= n_products)%Z ->
  sat (gen_order_items n_orders n_products avg_items)
    (fun ys r =>
       r = inl tt /\
       exists counts : list Z,
         List.length counts = Z.to_nat n_orders /\
         Forall (fun k => 1 <= k <= 6)%Z counts /\
         map item_order ys = grouped (range 1 (n_orders + 1)) counts).
Proof.
  intros Hp.
  unfold gen_order_items. apply sat_bind. eapply sat_weaken.
  - apply (sat_for_each
             (fun done ys _ =>
                exists counts : list Z,
                  List.length done = List.length counts /\
                  Forall (fun k => 1 <= k <= 6)%Z counts /\
                  map item_order ys = grouped done counts)
             (fun _ _ => False)) with (done := []) (ys := []).
    + intros done oid ys s (counts & Hlen & Hk & Hys).
      apply sat_bind, sat_items_per_order. intros k Hk'. cbn [app].
      eapply sat_weaken.
      * apply (sat_for_each_exact (fun r => item_order r = oid)).
        intros _ s'.
        repeat first [sat_step | sat_randint]; cbn [app]; try lia;
          (split; [eexists; split; reflexivity|eauto]).
      * intros ys' r (Hlen' & HP & s' & ->).
        unfold range0 in Hlen'. rewrite length_range, Z.sub_0_r in Hlen'.
        exists (counts ++ [k])%list. split; [|split].
        -- rewrite !length_app. cbn. lia.
        -- apply Forall_app. split; [exact Hk|]. constructor; [exact Hk'|constructor].
        -- rewrite map_app, Hys, (map_constant _ oid ys' HP), Hlen'.
           symmetry. apply grouped_snoc. exact Hlen.
    + exists []. split; [reflexivity|]. split; [constructor|reflexivity].
  - intros ys [s|e] H; cbn [app] in H; [|contradiction].
    destruct H as (counts & Hlen & Hk & Hys).
    apply sat_ret. rewrite app_nil_r. split; [reflexivity|]. exists counts.
    split; [|split; [exact Hk|exact Hys]].
    rewrite <- Hlen, length_range. f_equal. lia.
Qed.

(** With a product to refer to, the item rows come grouped by order and in
    the order of the order ids: between one and six rows for order 1, then
    between one and six for order 2, and so on to the last order. *)
Theorem gen_order_items_grouped (n_orders n_products : Z) (avg_items : Q) (w : World) :
  (1 <= n_products)%Z ->
  exists counts : list Z,
    List.length counts = Z.to_nat n_orders /\
    Forall (fun k => 1 <= k <= 6)%Z counts /\
    map item_order (rows (gen_order_items n_orders n_products avg_items w)) =
      grouped (range 1 (n_orders + 1)) counts.
Proof.
  intros Hp. exact (proj2 (gen_order_items_groups n_orders n_products avg_items Hp w)).
Qed.

(** ** Runs that reach the order items *)

Lemma gen_products_run_len (n : Z) (w : World) :
  exists ys w', gen_products n w = (ys, inl tt, w') /\ sys w' = sys w /\
                List.length ys = Z.to_nat n.
Proof.
  pose proof (gen_products_total n w) as [Hl Hr]. pose proof (frame_gen_products n w) as Hs.
  destruct (gen_products n w) as [[ys r] w']. cbn in Hl, Hr, Hs. subst r. eauto.
Qed.

Lemma gen_customers_run_len (n : Z) (w : World) :
  exists ys w', gen_customers n w = (ys, inl tt, w') /\ sys w' = sys w /\
                List.length ys = Z.to_nat n.
Proof.
  pose proof (gen_customers_total n w) as [Hl Hr]. pose proof (frame_gen_customers n w) as Hs.
  destruct (gen_customers n w) as [[ys r] w']. cbn in Hl, Hr, Hs. subst r. eauto.
Qed.

Lemma range0_nonpos (n : Z) : (n <= 0)%Z -> range0 n = [].
Proof.
  intros H. unfold range0, range. now replace (Z.to_nat (n - 0)) with 0%nat by lia.
Qed.

(** With a customer to refer to, or with no order to make, [gen_orders]
    returns an iterator that runs to its end in any world, yields one row
    per order and leaves the system alone. *)
Lemma gen_orders_run (n_orders n_customers : Z) (w : World) :
  (1 <= n_customers \/ n_orders <= 0)%Z ->
  exists (order_iter : Gen order_row unit) (w' : World),
    gen_orders (Y := Empty_set) n_orders n_customers w = ([], inl order_iter, w') /\
    sys w' = sys w /\
    forall w1, exists ys w2,
      order_iter w1 = (ys, inl tt, w2) /\ sys w2 = sys w1 /\
      List.length ys = Z.to_nat n_orders.
Proof.
  intros Hc. unfold gen_orders, daterange. cbn [bind Datetime.utcnow ret app].
  eexists _, _. split; [reflexivity|]. split; [reflexivity|]. intros w1.
  match goal with
  | |- exists ys w2, ?m w1 = _ /\ _ =>
      assert (Hsat : sat m (fun ys r => r = inl tt /\ List.length ys = Z.to_nat n_orders));
      [|assert (Hframe : frame m)]
  end.
  - destruct Hc as [Hc|Ho].
    + apply sat_bind. eapply sat_weaken.
      * apply (sat_for_each_exact (fun _ => True)). intros _ oid.
        unfold rand_datetime.
        repeat first [sat_step | sat_randint]; cbn [app];
          try (unfold Datetime.seconds_per_day in *; lia); eauto.
      * intros ys r (Hlen & _ & s' & ->). apply sat_ret.
        rewrite app_nil_r, Hlen. unfold range0. rewrite length_range, Z.sub_0_r. auto.
    + rewrite (range0_nonpos n_orders Ho). intros w0. cbn. split; [reflexivity|lia].
  - frame_solve.
  - specialize (Hsat w1). specialize (Hframe w1).
    match goal with
    | |- exists ys w2, ?m w1 = _ /\ _ => destruct (m w1) as [[ys r] w2]
    end.
    cbn in Hsat, Hframe. destruct Hsat as [-> Hlen]. eauto.
Qed.

Lemma gen_order_items_run (n_orders n_products : Z) (avg : Q) (w : World) :
  (1 <= n_products)%Z ->
  exists ys w',
    gen_order_items n_orders n_products avg w = (ys, inl tt, w') /\ sys w' = sys w /\
    exists counts : list Z,
      List.length counts = Z.to_nat n_orders /\
      Forall (fun k => 1 <= k <= 6)%Z counts /\
      map item_order ys = grouped (range 1 (n_orders + 1)) counts.
Proof.
  intros Hp.
  pose proof (gen_order_items_groups n_orders n_products avg Hp w) as Hsat.
  pose proof (frame_gen_order_items n_orders n_products avg w) as Hs.
  destruct (gen_order_items n_orders n_products avg w) as [[ys r] w'].
  cbn in Hsat, Hs. destruct Hsat as [-> Hgroups]. eauto.
Qed.

Lemma gen_order_items_raises_run (n_orders n_products : Z) (avg : Q) (w : World) :
  (n_products <= 0)%Z -> (1 <= n_orders)%Z ->
  exists w', gen_order_items n_orders n_products avg w = ([], inr ValueError, w') /\
             sys w' = sys w.
Proof.
  intros Hp Ho.
  assert (Hsat : sat (gen_order_items n_orders n_products avg)
            (fun ys r => ys = [] /\ r = inr ValueError)).
  { unfold gen_order_items. apply sat_bind. eapply sat_weaken.
    - apply (sat_for_each_first_raises _ ValueError).
      + intros oid item_id0. apply sat_bind, sat_items_per_order. intros k Hk. cbn [app].
        apply sat_for_each_first_raises.
        * intros _ item_id1. apply sat_bind, sat_randint; [auto|intros j Hj; lia].
        * apply range_nonempty. lia.
      + apply range_nonempty. lia.
    - intros ys r [-> ->]. auto. }
  specialize (Hsat w). pose proof (frame_gen_order_items n_orders n_products avg w) as Hs.
  destruct (gen_order_items n_orders n_products avg w) as [[ys r] w'].
  cbn in Hsat, Hs. destruct Hsat as [-> ->]. eauto.
Qed.

Lemma append_inv_head (a b c : string) : a ++ b = a ++ c -> b = c.
Proof. induction a as [|x a IH]; cbn; [auto|]. intros [= H]. auto. Qed.

Lemma path_join_relative (a : string) (c : ascii) (s : string) :
  Ascii.eqb c "/" = false ->
  Py.path_join a (String c s) =
  if String.eqb a EmptyString || Py.ends_with_slash a
  then a ++ String c s else a ++ "/" ++ String c s.
Proof.
  intros Hc. unfold Py.path_join.
  destruct c as [[] [] [] [] [] [] [] []]; try reflexivity; cbn in Hc; discriminate Hc.
Qed.

(** Two different file names give two different paths in one directory. *)
Lemma path_join_inj (a : string) (c c' : ascii) (s s' : string) :
  Ascii.eqb c "/" = false -> Ascii.eqb c' "/" = false ->
  Py.path_join a (String c s) = Py.path_join a (String c' s') ->
  String c s = String c' s'.
Proof.
  intros Hc Hc'. rewrite !path_join_relative by assumption.
  destruct (String.eqb a EmptyString || Py.ends_with_slash a); intros H.
  - now apply append_inv_head in H.
  - apply append_inv_head in H. cbn in H. congruence.
Qed.

Ltac paths_apart :=
  let E := fresh in
  intros E; apply path_join_inj in E; [discriminate E|reflexivity|reflexivity].

Lemma has_slash_app (a b : string) : has_slash (a ++ b) = has_slash a || has_slash b.
Proof. induction a as [|c a IH]; cbn; [reflexivity|]. now rewrite IH, orb_assoc. Qed.

Lemma ends_with_slash_has_slash (a : string) :
  Py.ends_with_slash a = true -> has_slash a = true.
Proof.
  induction a as [|c a IH]; [discriminate|].
  destruct a as [|c' a']; cbn [Py.ends_with_slash has_slash] in *.
  - intros ->. reflexivity.
  - intros H. rewrite (IH H). apply orb_true_r.
Qed.

(** A path with a slash has a directory part. *)
Lemma dirname_nonempty (p : string) : has_slash p = true -> dirname p <> EmptyString.
Proof.
  intros H. unfold dirname.
  assert (Hhead : exists c s, up_to_last_slash p = String c s).
  { destruct p as [|c p]; [discriminate|]. cbn [up_to_last_slash has_slash] in *.
    rewrite orb_comm, H. eauto. }
  destruct Hhead as (c & s & ->).
  destruct (all_slashes (String c s)) eqn:E; [discriminate|].
  cbn [all_slashes rstrip_slashes] in *. rewrite E. discriminate.
Qed.

(** A file of a directory with a name has a directory part. *)
Lemma dirname_path_join (a : string) (c : ascii) (s : string) :
  a <> EmptyString -> Ascii.eqb c "/" = false ->
  dirname (Py.path_join a (String c s)) <> EmptyString.
Proof.
  intros Ha Hc. apply dirname_nonempty. rewrite path_join_relative by exact Hc.
  apply String.eqb_neq in Ha. rewrite Ha. cbn [orb].
  destruct (Py.ends_with_slash a) eqn:E; rewrite !has_slash_app.
  - now rewrite (ends_with_slash_has_slash a E).
  - cbn. apply orb_true_r.
Qed.

Lemma header_written_libs (path : string) (header : list string) (w : World) :
  same_libs (header_written path header w) w.
Proof. repeat split. Qed.

(** One stage of [main] whose iterator runs to its end: the file is written
    and loaded, and the next stage starts with the count of its rows, the
    random source, Faker and the clock being as the iterator left them. *)
Lemma stage_exec {Row} (fields : Row -> list Csv.field) (path : string)
    (header : list string) (g : Gen Row unit) (db table : string) (m : message)
    (k : Z -> Gen Empty_set unit) (w w1 : World) (ys : list Row) :
  dirname path <> EmptyString ->
  can_load (sys w) = true ->
  g (header_written path header w) = (ys, inl tt, w1) ->
  sys w1 = sys (header_written path header w) ->
  exists w',
    exec (x <- write_csv fields path header g default_chunk ;;
          print m ;;; load_csv db table path ;;; k x) w
      = exec (k (Z.of_nat (List.length ys))) w' /\
    files (sys w') path = Some (csv_text header (map fields ys)) /\
    (forall p, p <> path -> files (sys w') p = files (sys w) p) /\
    foreign_key_checks (sys w') = true /\ local_infile (sys w') = true /\
    same_libs w' w1.
Proof.
  intros D C G S.
  destruct (write_csv_run (Y := Empty_set) fields _ _ _ _ _ _ _ _
              D default_chunk_nonzero G S) as (w2 & E2 & W2).
  pose proof (wrote_can_load _ _ _ _ W2) as C2. cbn [with_sys sys] in C2.
  destruct W2 as (R2 & K2 & T2 & F2 & O2 & _). cbn [with_sys sys rng faker clock] in *.
  set (w3 := world_after (print (Y := Empty_set) m w2)).
  assert (F3 : files (sys w3) = files (sys w2)) by reflexivity.
  assert (L3 : same_libs w3 w2) by (repeat split).
  assert (C3 : can_load (sys w3) = true) by (rewrite <- C, <- C2; reflexivity).
  assert (E3 : exec (print (Y := Empty_set) m) w2 = (inl tt, w3)) by reflexivity.
  clearbody w3. rewrite <- F3 in F2.
  destruct (load_csv_run (Y := Empty_set) db table path _ w3 F2 C3)
    as (w4 & E4 & L4 & K4 & I4 & _).
  destruct L4 as (R4 & Fk4 & T4 & F4 & _). destruct L3 as (R3 & Fk3 & T3).
  exists w4. split; [|split; [|split; [|split; [exact K4|split; [exact I4|]]]]].
  - erewrite exec_bind_inl by exact (exec_of_run _ _ _ _ _ E2).
    erewrite exec_bind_inl by exact E3.
    erewrite exec_bind_inl by exact (exec_of_run _ _ _ _ _ E4). reflexivity.
  - now rewrite F4.
  - intros p Hp. rewrite F4, F3. now apply O2.
  - repeat split; congruence.
Qed.

(** With a customer to refer to (or no order to make), a directory to write
    to and an import that can go ahead, the first three stages of a run
    succeed: the products, customers and orders files are written with one
    record per requested row and loaded, and the run goes on to the order
    items.  The worlds are those the three producers start from and end
    in. *)
Lemma run_trace (args : Args) (w : World) :
  (1 <= customers args \/ orders args <= 0)%Z ->
  outdir args <> EmptyString ->
  can_load (sys w) = true ->
  exists (w1 w1' w3 w3' w5 w6 w6' w8 : World)
         (ps : list product_row) (cs : list customer_row) (os : list order_row)
         (order_iter : Gen order_row unit),
    (rng w1 = mkRandom (stream (rng w)) 42 0 /\
     faker w1 = mkFaker (words (faker w)) (numbers (faker w)) 42 0 /\
     clock w1 = clock w) /\
    gen_products (products args)
      (header_written (Py.path_join (outdir args) "products.csv") products_header w1)
      = (ps, inl tt, w1') /\
    same_libs w3 w1' /\
    gen_customers (customers args)
      (header_written (Py.path_join (outdir args) "customers.csv") customers_header w3)
      = (cs, inl tt, w3') /\
    same_libs w5 w3' /\
    gen_orders (Y := Empty_set) (orders args) (customers args) w5 = ([], inl order_iter, w6) /\
    order_iter (header_written (Py.path_join (outdir args) "orders.csv") orders_header w6)
      = (os, inl tt, w6') /\
    same_libs w8 w6' /\
    exec (main (Y := Empty_set) args) w =
    exec (items_stage (Y := Empty_set) args (Z.of_nat (List.length ps))
            (Z.of_nat (List.length cs)) (Z.of_nat (List.length os))) w8 /\
    (List.length ps = Z.to_nat (products args) /\
     List.length cs = Z.to_nat (customers args) /\
     List.length os = Z.to_nat (orders args)) /\
    (files (sys w8) (Py.path_join (outdir args) "products.csv") =
       Some (csv_text products_header (map product_fields ps)) /\
     files (sys w8) (Py.path_join (outdir args) "customers.csv") =
       Some (csv_text customers_header (map customer_fields cs)) /\
     files (sys w8) (Py.path_join (outdir args) "orders.csv") =
       Some (csv_text orders_header (map order_fields os))) /\
    foreign_key_checks (sys w8) = true /\ local_infile (sys w8) = true.
Proof.
  intros Hc Hdir Hcan. unfold main.
  do 3 (erewrite exec_bind_inl by reflexivity).
  erewrite exec_bind_inl by exact (exec_of_run _ _ _ _ _ (makedirs_run _ _ Hdir)).
  erewrite exec_bind_inl by reflexivity. name_world w1.
  assert (R1 : rng w1 = mkRandom (stream (rng w)) 42 0 /\
               faker w1 = mkFaker (words (faker w)) (numbers (faker w)) 42 0 /\
               clock w1 = clock w) by (repeat split).
  assert (C1 : can_load (sys w1) = true) by exact Hcan. clearbody w1.
  destruct (gen_products_run_len (products args)
              (header_written (Py.path_join (outdir args) "products.csv") products_header w1))
    as (ps & w1' & G1 & S1 & L1).
  match goal with
  | |- context [exec (bind (write_csv ?f ?p ?h ?g ?c)
                  (fun x => bind (print ?m) (fun _ => bind (load_csv ?db ?t ?p') (fun _ => @?k x))))
                  ?w0] =>
      destruct (stage_exec f p h g db t m k w0 _ _
                  ltac:(apply dirname_path_join; [exact Hdir|reflexivity]) C1 G1 S1)
        as (w2 & E2 & F2 & O2 & _ & I2 & B2)
  end.
  rewrite E2. clear E2.
  erewrite exec_bind_inl by reflexivity. name_world w3.
  assert (F3 : files (sys w3) = files (sys w2)) by reflexivity.
  assert (B3 : same_libs w3 w2) by (repeat split).
  assert (C3 : can_load (sys w3) = true) by exact (can_load_on _ I2). clearbody w3.
  destruct (gen_customers_run_len (customers args)
              (header_written (Py.path_join (outdir args) "customers.csv") customers_header w3))
    as (cs & w3' & G3 & S3 & L3).
  match goal with
  | |- context [exec (bind (write_csv ?f ?p ?h ?g ?c)
                  (fun x => bind (print ?m) (fun _ => bind (load_csv ?db ?t ?p') (fun _ => @?k x))))
                  ?w0] =>
      destruct (stage_exec f p h g db t m k w0 _ _
                  ltac:(apply dirname_path_join; [exact Hdir|reflexivity]) C3 G3 S3)
        as (w4 & E4 & F4 & O4 & _ & I4 & B4)
  end.
  rewrite E4. clear E4.
  erewrite exec_bind_inl by reflexivity. name_world w5.
  assert (F5 : files (sys w5) = files (sys w4)) by reflexivity.
  assert (B5 : same_libs w5 w4) by (repeat split).
  assert (C5 : can_load (sys w5) = true) by exact (can_load_on _ I4). clearbody w5.
  destruct (gen_orders_run (orders args) (customers args) w5 Hc)
    as (order_iter & w6 & G6 & S6 & Hiter).
  erewrite exec_bind_inl by exact (exec_of_run _ _ _ _ _ G6).
  destruct (Hiter (header_written (Py.path_join (outdir args) "orders.csv") orders_header w6))
    as (os & w6' & G7 & S7 & L7).
  assert (C6 : can_load (sys w6) = true) by (now rewrite S6).
  match goal with
  | |- context [exec (bind (write_csv ?f ?p ?h ?g ?c)
                  (fun x => bind (print ?m) (fun _ => bind (load_csv ?db ?t ?p') (fun _ => @?k x))))
                  ?w0] =>
      destruct (stage_exec f p h g db t m k w0 _ _
                  ltac:(apply dirname_path_join; [exact Hdir|reflexivity]) C6 G7 S7)
        as (w8 & E8 & F8 & O8 & K8 & I8 & B8)
  end.
  rewrite E8. clear E8.
  destruct B2 as (B2r & B2f & B2c), B3 as (B3r & B3f & B3c),
           B4 as (B4r & B4f & B4c), B5 as (B5r & B5f & B5c).
  exists w1, w1', w3, w3', w5, w6, w6', w8, ps, cs, os, order_iter.
  split; [exact R1|]. split; [exact G1|].
  split; [repeat split; congruence|]. split; [exact G3|].
  split; [repeat split; congruence|]. split; [exact G6|]. split; [exact G7|].
  split; [exact B8|]. split; [reflexivity|]. split; [auto|].
  split; [|split; assumption].
  split; [|split; [|exact F8]].
  - rewrite O8 by paths_apart. rewrite S6, F5. rewrite O4 by paths_apart.
    rewrite F3. exact F2.
  - rewrite O8 by paths_apart. rewrite S6, F5. exact F4.
Qed.

(** With at least one customer and one product, an output directory with a
    name and an import that can go ahead, a run completes.  The four files
    hold a header and one record per row: as many products, customers and
    orders as requested, and for every order, in the order of the order
    ids, between one and six items.  The last two messages are "All done!"
    and the summary of these counts, and foreign-key checking is on at the
    end. *)
Theorem run_completes (args : Args) (w : World) :
  (1 <= customers args)%Z -> (1 <= products args)%Z ->
  outdir args <> EmptyString -> can_load (sys w) = true ->
  exists (wf : World) (ps : list product_row) (cs : list customer_row)
         (os : list order_row) (items : list item_row) (counts : list Z)
         (before : list message),
    run args w = (inl tt, wf) /\
    List.length ps = Z.to_nat (products args) /\
    List.length cs = Z.to_nat (customers args) /\
    List.length os = Z.to_nat (orders args) /\
    (List.length counts = Z.to_nat (orders args) /\
     Forall (fun k => 1 <= k <= 6)%Z counts /\
     map item_order items = grouped (range 1 (orders args + 1)) counts) /\
    files (sys wf) (Py.path_join (outdir args) "products.csv") =
      Some (csv_text products_header (map product_fields ps)) /\
    files (sys wf) (Py.path_join (outdir args) "customers.csv") =
      Some (csv_text customers_header (map customer_fields cs)) /\
    files (sys wf) (Py.path_join (outdir args) "orders.csv") =
      Some (csv_text orders_header (map order_fields os)) /\
    files (sys wf) (Py.path_join (outdir args) "order_items.csv") =
      Some (csv_text items_header (map item_fields items)) /\
    stdout (sys wf) =
      (before ++ [Say "All done!";
                  Summary (Z.of_nat (List.length ps)) (Z.of_nat (List.length cs))
                    (Z.of_nat (List.length os)) (Z.of_nat (List.length items))])%list /\
    foreign_key_checks (sys wf) = true.
Proof.
  intros Hc Hp Hdir Hcan. rewrite run_exec.
  destruct (run_trace args w (or_introl Hc) Hdir Hcan)
    as (w0 & w0' & w3 & w3' & w5 & w6 & w6' & w1 & ps & cs & os & it &
        _ & _ & _ & _ & _ & _ & _ & _ & E1 & (Lp & Lc & Lo) & (Fp & Fc & Fo) & _ & I1).
  rewrite E1. clear E1. unfold items_stage.
  erewrite exec_bind_inl by reflexivity. name_world w2.
  assert (F2 : files (sys w2) = files (sys w1)) by reflexivity.
  assert (C2 : can_load (sys w2) = true) by exact (can_load_on _ I1). clearbody w2.
  destruct (gen_order_items_run (orders args) (products args) (items_avg args)
              (header_written (Py.path_join (outdir args) "order_items.csv") items_header w2)
              Hp) as (items & w2' & G & S & counts & Hcounts).
  match goal with
  | |- context [exec (bind (write_csv ?f ?p ?h ?g ?c)
                  (fun x => bind (print ?m) (fun _ => bind (load_csv ?db ?t ?p') (fun _ => @?k x))))
                  ?w0] =>
      destruct (stage_exec f p h g db t m k w0 _ _
                  ltac:(apply dirname_path_join; [exact Hdir|reflexivity]) C2 G S)
        as (w4 & E3 & F3 & O3 & K3 & I3 & _)
  end.
  rewrite E3. clear E3. cbv beta.
  erewrite exec_bind_inl by reflexivity.
  eexists _, ps, cs, os, items, counts, (stdout (sys w4)).
  split; [reflexivity|]. cbn [world_after snd print update_sys sys files stdout
                               foreign_key_checks local_infile].
  split; [exact Lp|]. split; [exact Lc|]. split; [exact Lo|]. split; [exact Hcounts|].
  split; [rewrite O3 by paths_apart; now rewrite F2|].
  split; [rewrite O3 by paths_apart; now rewrite F2|].
  split; [rewrite O3 by paths_apart; now rewrite F2|].
  split; [exact F3|]. split; [now rewrite <- app_assoc|]. auto.
Qed.

(** With customers but no product, and at least one order, an output
    directory with a name and an import that can go ahead, a run raises
    [ValueError] in its last stage: the products, customers and orders files
    are written, the order-items file is left with its header alone, and
    foreign-key checking is on, as the third import left it. *)
Theorem run_without_products (args : Args) (w : World) :
  (1 <= customers args)%Z -> (products args <= 0)%Z -> (1 <= orders args)%Z ->
  outdir args <> EmptyString -> can_load (sys w) = true ->
  exists (wf : World) (cs : list customer_row) (os : list order_row),
    run args w = (inr ValueError, wf) /\
    List.length cs = Z.to_nat (customers args) /\
    List.length os = Z.to_nat (orders args) /\
    files (sys wf) (Py.path_join (outdir args) "products.csv") =
      Some (csv_text products_header []) /\
    files (sys wf) (Py.path_join (outdir args) "customers.csv") =
      Some (csv_text customers_header (map customer_fields cs)) /\
    files (sys wf) (Py.path_join (outdir args) "orders.csv") =
      Some (csv_text orders_header (map order_fields os)) /\
    files (sys wf) (Py.path_join (outdir args) "order_items.csv") =
      Some (csv_text items_header []) /\
    foreign_key_checks (sys wf) = true.
Proof.
  intros Hc Hp Ho Hdir Hcan. rewrite run_exec.
  destruct (run_trace args w (or_introl Hc) Hdir Hcan)
    as (w0 & w0' & w3 & w3' & w5 & w6 & w6' & w1 & ps & cs & os & it &
        _ & _ & _ & _ & _ & _ & _ & _ & E1 & (Lp & Lc & Lo) & (Fp & Fc & Fo) & K1 & _).
  assert (ps = []) as -> by (destruct ps; [reflexivity|cbn in Lp; lia]).
  rewrite E1. clear E1. unfold items_stage.
  erewrite exec_bind_inl by reflexivity. name_world w2.
  assert (F2 : files (sys w2) = files (sys w1)) by reflexivity.
  assert (K2 : foreign_key_checks (sys w2) = foreign_key_checks (sys w1)) by reflexivity.
  clearbody w2.
  destruct (gen_order_items_raises_run (orders args) (products args) (items_avg args)
              (header_written (Py.path_join (outdir args) "order_items.csv") items_header w2)
              Hp Ho) as (w2' & G & S).
  destruct (write_csv_run (Y := Empty_set) item_fields
              (Py.path_join (outdir args) "order_items.csv") _ _ _ _ _ _ _
              ltac:(apply dirname_path_join; [exact Hdir|reflexivity]) default_chunk_nonzero G S)
    as (w4 & E3 & W3).
  erewrite exec_bind_inr by exact (exec_of_run _ _ _ _ _ E3).
  destruct W3 as (_ & _ & _ & F3 & O3 & _ & _ & K3 & _). cbn [with_sys sys] in O3, K3.
  exists w4, cs, os.
  split; [reflexivity|]. split; [exact Lc|]. split; [exact Lo|].
  split; [rewrite O3 by paths_apart; now rewrite F2|].
  split; [rewrite O3 by paths_apart; now rewrite F2|].
  split; [rewrite O3 by paths_apart; now rewrite F2|].
  split; [exact F3|]. now rewrite K3, K2.
Qed.

(** ** What depends on the random source alone *)

Section RngOnly.

Context {Y : Type}.

Lemma rng_only_ret {A} (a : A) : rng_only (Y := Y) (ret a).
Proof. intros w1 w2 H. cbn. auto. Qed.

Lemma rng_only_raise {A} (e : exn) : rng_only (Y := Y) (A := A) (raise e).
Proof. intros w1 w2 H. cbn. auto. Qed.

Lemma rng_only_yield (y : Y) : rng_only (yield y).
Proof. intros w1 w2 H. cbn. auto. Qed.

Lemma rng_only_draw : rng_only (Y := Y) Random.draw.
Proof. intros w1 w2 H. cbn. rewrite H. auto. Qed.

Lemma rng_only_bind {A B} (m : Gen Y A) (k : A -> Gen Y B) :
  rng_only m -> (forall a, rng_only (k a)) -> rng_only (bind m k).
Proof.
  intros Hm Hk w1 w2 H. unfold bind. specialize (Hm w1 w2 H).
  destruct (m w1) as [[ys1 r1] w1'], (m w2) as [[ys2 r2] w2'].
  cbn in Hm. destruct Hm as (-> & -> & Hr).
  destruct r2 as [a|e]; [|cbn; auto].
  specialize (Hk a w1' w2' Hr).
  destruct (k a w1') as [[zs1 s1] w1''], (k a w2') as [[zs2 s2] w2''].
  cbn in Hk |- *. destruct Hk as (-> & -> & Hr'). auto.
Qed.

Lemma rng_only_for_each {B S} (body : B -> S -> Gen Y S) :
  (forall x s, rng_only (body x s)) -> forall xs s, rng_only (for_each xs body s).
Proof.
  intros Hbody xs. induction xs as [|x xs IH]; intros s; cbn [for_each].
  - apply rng_only_ret.
  - apply rng_only_bind; auto.
Qed.

End RngOnly.

Ltac rng_only_step :=
  lazymatch goal with
  | |- rng_only (bind _ _) => apply rng_only_bind; [|intros ?]
  | |- rng_only (for_each _ _ _) => apply rng_only_for_each; intros ? ?
  | |- rng_only (ret _) => apply rng_only_ret
  | |- rng_only (raise _) => apply rng_only_raise
  | |- rng_only (yield _) => apply rng_only_yield
  | |- rng_only Random.draw => apply rng_only_draw
  | |- rng_only (if ?c then _ else _) => destruct c
  | |- rng_only (match ?x with (_, _) => _ end) => destruct x
  | |- rng_only (match ?x with [] => _ | _ :: _ => _ end) => destruct x
  end; cbn beta iota zeta.

Ltac rng_only_solve :=
  repeat first
    [ rng_only_step
    | progress unfold Random.random, Random.uniform, Random.gauss, Random.randint,
        Random.randbelow, Random.choice, items_per_order ].

Lemma rng_only_gen_order_items (n m : Z) (avg : Q) : rng_only (gen_order_items n m avg).
Proof. unfold gen_order_items. rng_only_solve. Qed.

(** The item rows, and whether the producer raises, depend on the random
    source alone: not on the clock, on Faker, on the files or the tables. *)
Theorem gen_order_items_random_only (n_orders n_products : Z) (avg_items : Q)
    (w1 w2 : World) :
  rng w1 = rng w2 ->
  rows (gen_order_items n_orders n_products avg_items w1) =
    rows (gen_order_items n_orders n_products avg_items w2) /\
  outcome (gen_order_items n_orders n_products avg_items w1) =
    outcome (gen_order_items n_orders n_products avg_items w2).
Proof.
  intros H. destruct (rng_only_gen_order_items n_orders n_products avg_items w1 w2 H)
    as (Hr & Ho & _). auto.
Qed.

(** ** How the random source moves, whatever the clock and Faker say *)

Section Sim.

Context {Y : Type}.

Lemma sim_of_rng_only {A} (m : Gen Y A) : rng_only m -> sim eq m m.
Proof.
  intros Hm w1 w2 H. destruct (Hm w1 w2 H) as (_ & Ho & Hr).
  split; [exact Hr|]. rewrite Ho. now destruct (outcome (m w2)).
Qed.

Lemma sim_ret {A} (R : A -> A -> Prop) (a1 a2 : A) :
  R a1 a2 -> sim (Y := Y) R (ret a1) (ret a2).
Proof. intros HR w1 w2 H. cbn. auto. Qed.

Lemma sim_yield (y1 y2 : Y) : sim any (yield y1) (yield y2).
Proof. intros w1 w2 H. cbn. unfold any. auto. Qed.

Lemma sim_utcnow : sim (Y := Y) any Datetime.utcnow Datetime.utcnow.
Proof. intros w1 w2 H. cbn. unfold any. auto. Qed.

Lemma sim_word : sim (Y := Y) any Fake.word Fake.word.
Proof. intros w1 w2 H. cbn. unfold any. auto. Qed.

Lemma sim_date_between (years : Z) :
  sim (Y := Y) any (Fake.date_between years) (Fake.date_between years).
Proof. intros w1 w2 H. cbn. unfold any. auto. Qed.

Lemma sim_bind {A B} (R : A -> A -> Prop) (R' : B -> B -> Prop)
    (m1 m2 : Gen Y A) (k1 k2 : A -> Gen Y B) :
  sim R m1 m2 -> (forall a1 a2, R a1 a2 -> sim R' (k1 a1) (k2 a2)) ->
  sim R' (bind m1 k1) (bind m2 k2).
Proof.
  intros Hm Hk w1 w2 H. unfold bind. specialize (Hm w1 w2 H).
  destruct (m1 w1) as [[ys1 r1] w1'], (m2 w2) as [[ys2 r2] w2'].
  cbn in Hm. destruct Hm as [Hr HR].
  destruct r1 as [a1|e1], r2 as [a2|e2]; try contradiction; [|cbn; auto].
  specialize (Hk a1 a2 HR w1' w2' Hr).
  destruct (k1 a1 w1') as [[zs1 s1] w1''], (k2 a2 w2') as [[zs2 s2] w2''].
  exact Hk.
Qed.

Lemma sim_for_each {B S} (R : S -> S -> Prop) (body1 body2 : B -> S -> Gen Y S) :
  (forall x s1 s2, R s1 s2 -> sim R (body1 x s1) (body2 x s2)) ->
  forall xs s1 s2, R s1 s2 -> sim R (for_each xs body1 s1) (for_each xs body2 s2).
Proof.
  intros Hbody xs. induction xs as [|x xs IH]; intros s1 s2 HR; cbn [for_each].
  - now apply sim_ret.
  - eapply sim_bind; [now apply Hbody|]. intros a1 a2 Ha. now apply IH.
Qed.

(** Only the length of the window matters to the random source. *)
Lemma sim_rand_datetime (start1 end1 start2 end2 : Z) :
  (end1 - start1 = end2 - start2)%Z ->
  sim (Y := Y) any (rand_datetime start1 end1) (rand_datetime start2 end2).
Proof.
  intros Hlen. unfold rand_datetime. rewrite Hlen.
  eapply sim_bind.
  - apply sim_of_rng_only. rng_only_solve.
  - intros k1 k2 _. now apply sim_ret.
Qed.

End Sim.

(** One step of a simulation proof: an operation of the random source gives
    the same result on both sides; the clock and Faker may give any. *)
Ltac sim_step :=
  lazymatch goal with
  | |- sim _ (bind (yield _) _) (bind (yield _) _) =>
      eapply sim_bind; [apply sim_yield|intros ? ? _]
  | |- sim _ (bind Fake.first_name _) (bind Fake.first_name _) =>
      eapply sim_bind; [apply sim_word|intros ? ? _]
  | |- sim _ (bind Fake.last_name _) (bind Fake.last_name _) =>
      eapply sim_bind; [apply sim_word|intros ? ? _]
  | |- sim _ (bind Fake.city _) (bind Fake.city _) =>
      eapply sim_bind; [apply sim_word|intros ? ? _]
  | |- sim _ (bind (Fake.date_between _) _) (bind (Fake.date_between _) _) =>
      eapply sim_bind; [apply sim_date_between|intros ? ? _]
  | |- sim _ (bind (rand_datetime _ _) _) (bind (rand_datetime _ _) _) =>
      eapply sim_bind; [apply sim_rand_datetime|intros ? ? _]
  | |- sim _ (bind ?m _) (bind ?m _) =>
      eapply sim_bind; [apply sim_of_rng_only; rng_only_solve|intros ? ? <-]
  | |- sim _ (ret _) (ret _) => apply sim_ret; try reflexivity
  | |- sim _ (if ?c then _ else _) (if ?c then _ else _) => destruct c
  | |- sim _ (match ?x with (_, _) => _ end) (match ?x with (_, _) => _ end) => destruct x
  end; cbn beta iota zeta.

Lemma sim_gen_products (n : Z) : sim eq (gen_products n) (gen_products n).
Proof.
  unfold gen_products. eapply sim_bind with (R := eq); [|intros; now apply sim_ret].
  apply sim_for_each; [|reflexivity]. intros _ s1 s2 <-.
  repeat sim_step.
Qed.

Lemma sim_gen_customers (n : Z) : sim eq (gen_customers n) (gen_customers n).
Proof.
  unfold gen_customers. eapply sim_bind with (R := eq); [|intros; now apply sim_ret].
  apply sim_for_each; [|reflexivity]. intros _ s1 s2 <-.
  repeat sim_step.
Qed.

(** In two worlds, [gen_orders] returns two iterators that differ by their
    window only: they move the random source alike. *)
Lemma gen_orders_sim (n_orders n_customers : Z) (wa wb : World) :
  exists (ita itb : Gen order_row unit) (wa' wb' : World),
    gen_orders (Y := Empty_set) n_orders n_customers wa = ([], inl ita, wa') /\
    gen_orders (Y := Empty_set) n_orders n_customers wb = ([], inl itb, wb') /\
    rng wa' = rng wa /\ rng wb' = rng wb /\ sim eq ita itb.
Proof.
  unfold gen_orders, daterange. cbn [bind Datetime.utcnow ret app].
  eexists _, _, _, _. split; [reflexivity|]. split; [reflexivity|].
  split; [reflexivity|]. split; [reflexivity|].
  eapply sim_bind with (R := eq); [|intros; now apply sim_ret].
  apply sim_for_each; [|reflexivity]. intros _ s1 s2 <-.
  sim_step. sim_step; [unfold Datetime.seconds_per_day; lia|].
  repeat sim_step.
Qed.

Lemma header_written_rng (path : string) (header : list string) (w : World) :
  rng (header_written path header w) = rng w.
Proof. reflexivity. Qed.

(** The state of the random source after what two producers do once the
    header is written, in [w1] and in [w2]. *)
Lemma sim_rng_after {Y A} (m1 m2 : Gen Y A) (path1 path2 : string) (header : list string)
    (w1 w2 w1' w2' : World) (ys1 ys2 : list Y) (r1 r2 : A + exn) :
  sim eq m1 m2 -> rng w1 = rng w2 ->
  m1 (header_written path1 header w1) = (ys1, r1, w1') ->
  m2 (header_written path2 header w2) = (ys2, r2, w2') -> rng w1' = rng w2'.
Proof.
  intros Hsim H E1 E2.
  destruct (Hsim (header_written path1 header w1) (header_written path2 header w2))
    as [Hr _]; [now rewrite !header_written_rng|].
  now rewrite E1, E2 in Hr.
Qed.

(** The orders stage of two runs that enter it with the random source in
    the same state leaves it in the same state. *)
Lemma orders_stage_rng (n_orders n_customers : Z) (a5 b5 a6 b6 a6' b6' : World)
    (ita itb : Gen order_row unit) (patha pathb : string) (header : list string)
    (osa osb : list order_row) (ra rb : unit + exn) :
  rng a5 = rng b5 ->
  gen_orders (Y := Empty_set) n_orders n_customers a5 = ([], inl ita, a6) ->
  gen_orders (Y := Empty_set) n_orders n_customers b5 = ([], inl itb, b6) ->
  ita (header_written patha header a6) = (osa, ra, a6') ->
  itb (header_written pathb header b6) = (osb, rb, b6') ->
  rng a6' = rng b6'.
Proof.
  intros H Ga Gb Ea Eb.
  destruct (gen_orders_sim n_orders n_customers a5 b5)
    as (ita0 & itb0 & a60 & b60 & Ea6 & Eb6 & Ra6 & Rb6 & Hsim).
  rewrite Ga in Ea6. rewrite Gb in Eb6.
  assert (ita0 = ita /\ a60 = a6) as [-> ->] by (split; congruence).
  assert (itb0 = itb /\ b60 = b6) as [-> ->] by (split; congruence).
  assert (H6 : rng a6 = rng b6) by congruence.
  exact (sim_rng_after _ _ _ _ _ _ _ _ _ _ _ _ _ Hsim H6 Ea Eb).
Qed.

(** Two runs with the same arguments, whose random sources produce the same
    streams, reach the order items with the random source in the same
    state, whatever their clocks, Faker instances, files and tables. *)
Lemma run_to_items_rng (args : Args) (wa wb : World) :
  stream (rng wa) = stream (rng wb) ->
  (1 <= customers args \/ orders args <= 0)%Z ->
  outdir args <> EmptyString ->
  can_load (sys wa) = true -> can_load (sys wb) = true ->
  exists (wa' wb' : World) (pa ca oa pb cb ob : Z),
    exec (main (Y := Empty_set) args) wa =
      exec (items_stage (Y := Empty_set) args pa ca oa) wa' /\
    exec (main (Y := Empty_set) args) wb =
      exec (items_stage (Y := Empty_set) args pb cb ob) wb' /\
    rng wa' = rng wb' /\
    local_infile (sys wa') = true /\ local_infile (sys wb') = true.
Proof.
  intros Hstream Hc Hdir Hcana Hcanb.
  destruct (run_trace args wa Hc Hdir Hcana)
    as (a1 & a1' & a3 & a3' & a5 & a6 & a6' & a8 & psa & csa & osa & ita &
        (Ra1 & _) & Ga1 & (Ra3 & _) & Ga3 & (Ra5 & _) & Ga6 & Ga7 & (Ra8 & _) & Ea &
        _ & _ & _ & Ia).
  destruct (run_trace args wb Hc Hdir Hcanb)
    as (b1 & b1' & b3 & b3' & b5 & b6 & b6' & b8 & psb & csb & osb & itb &
        (Rb1 & _) & Gb1 & (Rb3 & _) & Gb3 & (Rb5 & _) & Gb6 & Gb7 & (Rb8 & _) & Eb &
        _ & _ & _ & Ib).
  eexists a8, b8, _, _, _, _, _, _. split; [exact Ea|]. split; [exact Eb|].
  split; [|split; assumption].
  assert (H1 : rng a1 = rng b1) by (rewrite Ra1, Rb1; now rewrite Hstream).
  assert (H1' : rng a1' = rng b1')
    by (exact (sim_rng_after _ _ _ _ _ _ _ _ _ _ _ _ _ (sim_gen_products _) H1 Ga1 Gb1)).
  assert (H3 : rng a3 = rng b3) by congruence.
  assert (H3' : rng a3' = rng b3')
    by (exact (sim_rng_after _ _ _ _ _ _ _ _ _ _ _ _ _ (sim_gen_customers _) H3 Ga3 Gb3)).
  assert (H5 : rng a5 = rng b5) by congruence.
  pose proof (orders_stage_rng _ _ _ _ _ _ _ _ _ _ _ _ _ _ _ _ _ H5 Ga6 Gb6 Ga7 Gb7) as H6'.
  congruence.
Qed.

(** What the last stage leaves in the files: in the order-items file, the
    header and the records of the rows that the state of the random source
    determines; the other files as they were. *)
Lemma items_stage_file (args : Args) (p_rows c_rows o_rows : Z) (w : World) :
  outdir args <> EmptyString -> local_infile (sys w) = true ->
  exists ys : list item_row,
    (forall w0, rng w0 = rng w ->
       rows (gen_order_items (orders args) (products args) (items_avg args) w0) = ys) /\
    files (sys (snd (exec (items_stage (Y := Empty_set) args p_rows c_rows o_rows) w)))
      (Py.path_join (outdir args) "order_items.csv") =
    Some (csv_text items_header (map item_fields ys)) /\
    forall q, q <> Py.path_join (outdir args) "order_items.csv" ->
      files (sys (snd (exec (items_stage (Y := Empty_set) args p_rows c_rows o_rows) w))) q =
      files (sys w) q.
Proof.
  intros Hdir Hli. unfold items_stage.
  erewrite exec_bind_inl by reflexivity. name_world w2.
  assert (R2 : rng w2 = rng w) by reflexivity.
  assert (F2 : files (sys w2) = files (sys w)) by reflexivity.
  assert (C2 : can_load (sys w2) = true) by exact (can_load_on _ Hli). clearbody w2.
  set (hw := header_written (Py.path_join (outdir args) "order_items.csv") items_header w2).
  destruct (gen_order_items (orders args) (products args) (items_avg args) hw)
    as [[ys r] w2'] eqn:G.
  pose proof (frame_gen_order_items (orders args) (products args) (items_avg args) hw) as S.
  rewrite G in S. cbn [world_after snd] in S.
  exists ys. split.
  - intros w0 H0.
    destruct (rng_only_gen_order_items (orders args) (products args) (items_avg args) w0 hw)
      as (Hrows & _); [now rewrite H0, <- R2|].
    rewrite Hrows, G. reflexivity.
  - destruct r as [[]|e].
    + match goal with
      | |- context [exec (bind (write_csv ?f ?p ?h ?g ?c)
                      (fun x => bind (print ?m) (fun _ => bind (load_csv ?db ?t ?p') (fun _ => @?k x))))
                      ?w0] =>
          destruct (stage_exec f p h g db t m k w0 _ _
                      ltac:(apply dirname_path_join; [exact Hdir|reflexivity]) C2 G S)
            as (w3 & E3 & F3 & O3 & _)
      end.
      rewrite E3. cbv beta. erewrite exec_bind_inl by reflexivity.
      split; [exact F3|]. intros q Hq.
      cbn [exec world_after snd print update_sys sys files].
      rewrite (O3 q Hq). now rewrite F2.
    + destruct (write_csv_run (Y := Empty_set) item_fields
                  (Py.path_join (outdir args) "order_items.csv") _ _ _ _ _ _ _
                  ltac:(apply dirname_path_join; [exact Hdir|reflexivity]) default_chunk_nonzero G S)
        as (w3 & E3 & W3).
      erewrite exec_bind_inr by exact (exec_of_run _ _ _ _ _ E3).
      destruct W3 as (_ & _ & _ & F3 & O3 & _). cbn [with_sys sys] in O3.
      split; [exact F3|]. intros q Hq. cbn [snd]. rewrite (O3 q Hq). now rewrite F2.
Qed.

(** With a customer to refer to, an output directory with a name and an
    import that can go ahead, the order-items file a run leaves is
    determined by the arguments and the stream of the random source: two
    runs agree on it byte for byte whatever their clocks, their Faker
    instances, the state their random sources were in, and the files and
    tables they found. *)
Theorem order_items_file_reproducible (args : Args) (wa wb : World) :
  stream (rng wa) = stream (rng wb) -> (1 <= customers args)%Z ->
  outdir args <> EmptyString ->
  can_load (sys wa) = true -> can_load (sys wb) = true ->
  file_after args wa "order_items.csv" = file_after args wb "order_items.csv".
Proof.
  intros Hstream Hc Hdir Hcana Hcanb. unfold file_after. rewrite !run_exec.
  destruct (run_to_items_rng args wa wb Hstream (or_introl Hc) Hdir Hcana Hcanb)
    as (wa' & wb' & pa & ca & oa & pb & cb & ob & Ea & Eb & R & Ia & Ib).
  rewrite Ea, Eb.
  destruct (items_stage_file args pa ca oa wa' Hdir Ia) as (ysa & Ha & Fa & _).
  destruct (items_stage_file args pb cb ob wb' Hdir Ib) as (ysb & Hb & Fb & _).
  rewrite Fa, Fb.
  rewrite <- (Ha wa' eq_refl), <- (Hb wa' R). reflexivity.
Qed.

(** ** Runs in step *)

Section Lockstep.

Context {Y : Type}.
Variables wa0 wb0 : World.

Lemma lockstep_weaken {A} (R : A -> A -> Prop) (S S' : Prop) (k : nat) (m1 m2 : Gen Y A) :
  (S' -> S) -> lockstep wa0 wb0 R S k m1 m2 -> lockstep wa0 wb0 R S' k m1 m2.
Proof.
  intros HS H j wa wb Hin. destruct (H j wa wb Hin) as [H1 H2]. split; [exact H1|].
  intros HS'. apply H2. auto.
Qed.

Lemma lockstep_count {A} (R : A -> A -> Prop) (S : Prop) (k k' : nat) (m1 m2 : Gen Y A) :
  k = k' -> lockstep wa0 wb0 R S k m1 m2 -> lockstep wa0 wb0 R S k' m1 m2.
Proof. now intros ->. Qed.

Lemma lockstep_ret {A} (R : A -> A -> Prop) (S : Prop) (a1 a2 : A) :
  (S -> a1 = a2) -> R a1 a2 -> lockstep (Y := Y) wa0 wb0 R S 0 (ret a1) (ret a2).
Proof.
  intros HS HR j wa wb Hin. cbn. rewrite Nat.add_0_r. split; [auto|].
  intros H _. now rewrite (HS H).
Qed.

Lemma lockstep_yield (S : Prop) (y1 y2 : Y) :
  (S -> y1 = y2) -> lockstep wa0 wb0 eq S 0 (yield y1) (yield y2).
Proof.
  intros HS j wa wb Hin. cbn. rewrite Nat.add_0_r. split; [auto|].
  intros H _. now rewrite (HS H).
Qed.

(** An operation of the random source. *)
Lemma lockstep_rng {A} (S : Prop) (m : Gen Y A) :
  rng_only m ->
  (forall w, rows (m w) = [] /\ faker (world_after (m w)) = faker w /\
             clock (world_after (m w)) = clock w) ->
  lockstep wa0 wb0 eq S 0 m m.
Proof.
  intros Hm Hop j wa wb (Hr & Hf & Hra & Hrb & Hja & Hjb).
  destruct (Hm wa wb Hr) as (Hrows & Hout & Hrng).
  destruct (Hop wa) as (Ha1 & Ha2 & Ha3), (Hop wb) as (Hb1 & Hb2 & Hb3).
  split.
  - rewrite Hout. destruct (outcome (m wb)); [|reflexivity]. split; [reflexivity|].
    unfold in_step. rewrite Ha2, Ha3, Hb2, Hb3, Nat.add_0_r. auto 10.
  - intros _ _. split; [congruence|exact Hout].
Qed.

Lemma lockstep_word (S : Prop) : lockstep (Y := Y) wa0 wb0 eq S 0 Fake.word Fake.word.
Proof.
  intros j wa wb (Hr & Hf & Hra & Hrb & Hja & Hjb). cbn. rewrite Hf, Nat.add_0_r.
  split; [|auto]. split; [reflexivity|]. unfold in_step. cbn. auto 10.
Qed.

Lemma lockstep_date_between (S : Prop) (years : Z) :
  lockstep (Y := Y) wa0 wb0 any S 1 (Fake.date_between years) (Fake.date_between years).
Proof.
  intros j wa wb (Hr & Hf & Hra & Hrb & Hja & Hjb). cbn. split.
  - split; [exact I|]. unfold in_step. cbn. rewrite Hf, Hja, Hjb.
    repeat split; auto; lia.
  - intros _ Hdates. split; [reflexivity|].
    specialize (Hdates j ltac:(lia)). unfold reading in Hdates.
    rewrite Hra, Hrb, Hja, Hjb, Hf. unfold Datetime.seconds_per_day in *.
    now rewrite Hdates.
Qed.

Lemma lockstep_bind {A B} (R : A -> A -> Prop) (R' : B -> B -> Prop) (S : Prop)
    (k1 k2 : nat) (m1 m2 : Gen Y A) (f1 f2 : A -> Gen Y B) :
  lockstep wa0 wb0 R S k1 m1 m2 ->
  (forall a1 a2, R a1 a2 -> lockstep wa0 wb0 R' (S /\ a1 = a2) k2 (f1 a1) (f2 a2)) ->
  lockstep wa0 wb0 R' S (k1 + k2) (bind m1 f1) (bind m2 f2).
Proof.
  intros Hm Hf j wa wb Hin. unfold bind. specialize (Hm j wa wb Hin).
  destruct (m1 wa) as [[ys1 r1] wa'], (m2 wb) as [[ys2 r2] wb'].
  cbn [outcome rows world_after fst snd] in Hm. destruct Hm as [Hend Hsame].
  destruct r1 as [a1|e1], r2 as [a2|e2]; try contradiction.
  - destruct Hend as [HR Hin']. specialize (Hf a1 a2 HR (j + k1)%nat wa' wb' Hin').
    destruct (f1 a1 wa') as [[zs1 s1] wa''], (f2 a2 wb') as [[zs2 s2] wb''].
    cbn [outcome rows world_after fst snd] in Hf |- *. destruct Hf as [Hend' Hsame'].
    rewrite Nat.add_assoc. split; [exact Hend'|].
    intros HS Hdates.
    destruct Hsame as [-> Ha]; [exact HS|intros i Hi; apply Hdates; lia|].
    injection Ha as Ha.
    destruct Hsame' as [-> ->]; [now split|intros i Hi; apply Hdates; lia|].
    now split.
  - cbn [outcome rows world_after fst snd]. split; [exact Hend|].
    intros HS Hdates.
    destruct Hsame as [-> _]; [exact HS|intros i Hi; apply Hdates; lia|].
    now rewrite Hend.
Qed.

Lemma lockstep_for_each {B St} (S : Prop) (kb : nat) (body1 body2 : B -> St -> Gen Y St) :
  (forall x s, lockstep wa0 wb0 eq S kb (body1 x s) (body2 x s)) ->
  forall xs s,
    lockstep wa0 wb0 eq S (List.length xs * kb) (for_each xs body1 s) (for_each xs body2 s).
Proof.
  intros Hbody xs. induction xs as [|x xs IH]; intros s; cbn [for_each List.length Nat.mul].
  - now apply lockstep_ret.
  - eapply lockstep_bind; [apply Hbody|]. intros a1 a2 <-.
    eapply lockstep_weaken; [|apply IH]. now intros [HS _].
Qed.

End Lockstep.

(** One step of a proof that two runs go in step: an operation of the
    random source or of Faker gives the same result on both sides, a date
    the same result when the clocks show the same day. *)
Ltac rng_op_solve :=
  let w := fresh "w" in
  intros w;
  unfold Random.choice, Random.uniform, Random.random, Random.randbelow, Random.draw,
    bind, ret, raise;
  repeat match goal with
         | |- context [match ?l with [] => _ | _ :: _ => _ end] => destruct l
         end;
  cbn; auto.

Ltac lockstep_step :=
  lazymatch goal with
  | |- lockstep _ _ _ _ _ (bind (yield _) _) (bind (yield _) _) =>
      eapply lockstep_bind with (R := eq);
      [apply lockstep_yield; intuition congruence|intros ? ? _]
  | |- lockstep _ _ _ _ _ (bind Fake.first_name _) (bind Fake.first_name _) =>
      eapply lockstep_bind with (R := eq); [apply lockstep_word|intros ? ? <-]
  | |- lockstep _ _ _ _ _ (bind Fake.last_name _) (bind Fake.last_name _) =>
      eapply lockstep_bind with (R := eq); [apply lockstep_word|intros ? ? <-]
  | |- lockstep _ _ _ _ _ (bind Fake.city _) (bind Fake.city _) =>
      eapply lockstep_bind with (R := eq); [apply lockstep_word|intros ? ? <-]
  | |- lockstep _ _ _ _ _ (bind (Fake.date_between _) _) (bind (Fake.date_between _) _) =>
      eapply lockstep_bind with (R := any); [apply lockstep_date_between|intros ? ? _]
  | |- lockstep _ _ _ _ _ (bind ?m _) (bind ?m _) =>
      eapply lockstep_bind with (R := eq);
      [apply lockstep_rng; [rng_only_solve|rng_op_solve]|intros ? ? <-]
  | |- lockstep _ _ _ _ _ (ret _) (ret _) =>
      apply lockstep_ret; [intuition congruence|reflexivity]
  | |- lockstep _ _ _ _ _ (match ?x with (_, _) => _ end) (match ?x with (_, _) => _ end) =>
      destruct x
  end; cbn beta iota zeta.

(** The product rows of two runs in step are the same when the clocks show
    the same days, and the runs are in step afterwards, one reading of the
    clock per product later. *)
Lemma lockstep_gen_products (wa0 wb0 : World) (n : Z) :
  lockstep wa0 wb0 eq True (Z.to_nat n) (gen_products n) (gen_products n).
Proof.
  unfold gen_products.
  eapply lockstep_count; [|eapply lockstep_bind with (R := eq)].
  2:{ apply lockstep_for_each. intros _ pid. repeat lockstep_step. }
  2:{ intros a1 a2 _. now apply lockstep_ret. }
  unfold range0. rewrite length_range. cbn. lia.
Qed.

Lemma lockstep_gen_customers (wa0 wb0 : World) (n : Z) :
  lockstep wa0 wb0 eq True (Z.to_nat n) (gen_customers n) (gen_customers n).
Proof.
  unfold gen_customers.
  eapply lockstep_count; [|eapply lockstep_bind with (R := eq)].
  2:{ apply lockstep_for_each. intros _ cid. repeat lockstep_step. }
  2:{ intros a1 a2 _. now apply lockstep_ret. }
  unfold range0. rewrite length_range. cbn. lia.
Qed.


Lemma in_step_libs (wa0 wb0 : World) (j : nat) (wa wb wa' wb' : World) :
  in_step wa0 wb0 j wa wb -> same_libs wa' wa -> same_libs wb' wb ->
  in_step wa0 wb0 j wa' wb'.
Proof.
  intros (Hr & Hf & Hra & Hrb & Hja & Hjb) (Ra & Fa & Ca) (Rb & Fb & Cb).
  unfold in_step. rewrite Ra, Rb, Fa, Fb, Ca, Cb. auto 10.
Qed.

Lemma in_step_header (wa0 wb0 : World) (j : nat) (wa wb wa' wb' : World)
    (patha pathb : string) (header : list string) :
  in_step wa0 wb0 j wa wb -> same_libs wa' wa -> same_libs wb' wb ->
  in_step wa0 wb0 j (header_written patha header wa') (header_written pathb header wb').
Proof.
  intros H La Lb. apply (in_step_libs _ _ _ wa' wb').
  - exact (in_step_libs _ _ _ _ _ _ _ H La Lb).
  - apply header_written_libs.
  - apply header_written_libs.
Qed.

(** Two producers that go in step, run to their end from worlds in step. *)
Lemma lockstep_run {Y A} (wa0 wb0 : World) (k : nat) (m1 m2 : Gen Y A) (j : nat)
    (wa wb wa' wb' : World) (ysa ysb : list Y) (a1 a2 : A) :
  lockstep wa0 wb0 eq True k m1 m2 -> in_step wa0 wb0 j wa wb ->
  m1 wa = (ysa, inl a1, wa') -> m2 wb = (ysb, inl a2, wb') ->
  in_step wa0 wb0 (j + k) wa' wb' /\
  ((forall i, (j <= i < j + k)%nat ->
      (reading wa0 i / Datetime.seconds_per_day =
       reading wb0 i / Datetime.seconds_per_day)%Z) -> ysa = ysb).
Proof.
  intros H Hin Ea Eb. destruct (H j wa wb Hin) as [Hend Hsame].
  rewrite Ea, Eb in Hend, Hsame. cbn [outcome rows world_after fst snd] in Hend, Hsame.
  split; [apply Hend|]. intros Hdates. now apply Hsame.
Qed.

(** The iterator [gen_orders] returns is a function of the time it read, and
    reads nothing but the random source. *)
Lemma gen_orders_shape (n_orders n_customers : Z) :
  exists it : Z -> Gen order_row unit,
    (forall now, rng_only (it now)) /\
    forall w now, now = next_reading w ->
      exists w', gen_orders (Y := Empty_set) n_orders n_customers w =
                   ([], inl (it now), w') /\ rng w' = rng w.
Proof.
  eexists. split.
  2:{ intros w now Hnow. unfold gen_orders, daterange, next_reading in *.
      cbn [bind Datetime.utcnow ret app]. rewrite <- Hnow.
      eexists. split; [reflexivity|reflexivity]. }
  intros now. cbn beta. unfold rand_datetime. rng_only_solve.
Qed.

(** C1, as the code has it.  Two runs with the same row counts that get to
    the order items (a customer to refer to unless no order is asked for,
    an output directory with a name, an import that can go ahead), on the
    same random and Faker libraries, whatever their other arguments, the
    files and tables they found and the state the generators were in:
    their order-items files are the same; their products and customers
    files are the same when their clocks show the same day at every date
    drawn for a product or a customer; their orders files are the same when
    their clocks give the same time to [gen_orders]. *)
Theorem run_reproducible (a b : Args) (wa wb : World) :
  products a = products b -> customers a = customers b -> orders a = orders b ->
  (1 <= customers a \/ orders a <= 0)%Z ->
  outdir a <> EmptyString -> outdir b <> EmptyString ->
  can_load (sys wa) = true -> can_load (sys wb) = true ->
  stream (rng wa) = stream (rng wb) ->
  words (faker wa) = words (faker wb) -> numbers (faker wa) = numbers (faker wb) ->
  let n := (Z.to_nat (products a) + Z.to_nat (customers a))%nat in
  file_after a wa "order_items.csv" = file_after b wb "order_items.csv" /\
  (same_dates n wa wb ->
   file_after a wa "products.csv" = file_after b wb "products.csv" /\
   file_after a wa "customers.csv" = file_after b wb "customers.csv") /\
  (same_time n wa wb ->
   file_after a wa "orders.csv" = file_after b wb "orders.csv").
Proof.
  intros Hp Hc Ho Hcust Hda Hdb Hca Hcb Hs Hw Hn n.
  assert (Hcustb : (1 <= customers b \/ orders b <= 0)%Z) by (now rewrite <- Hc, <- Ho).
  destruct (run_trace a wa Hcust Hda Hca)
    as (a1 & a1' & a3 & a3' & a5 & a6 & a6' & a8 & psa & csa & osa & ita &
        (Ra1 & Fa1 & Ca1) & Ga1 & La3 & Ga3 & La5 & Ga6 & Ga7 & La8 & Ea &
        _ & (Fpa & Fca & Foa) & _ & Ia).
  destruct (run_trace b wb Hcustb Hdb Hcb)
    as (b1 & b1' & b3 & b3' & b5 & b6 & b6' & b8 & psb & csb & osb & itb &
        (Rb1 & Fb1 & Cb1) & Gb1 & Lb3 & Gb3 & Lb5 & Gb6 & Gb7 & Lb8 & Eb &
        _ & (Fpb & Fcb & Fob) & _ & Ib).
  rewrite <- Hp in Gb1. rewrite <- Hc in Gb3. rewrite <- Ho, <- Hc in Gb6.
  (* the products and the customers, in step *)
  assert (S0 : in_step wa wb 0
                 (header_written (Py.path_join (outdir a) "products.csv") products_header a1)
                 (header_written (Py.path_join (outdir b) "products.csv") products_header b1)).
  { unfold in_step.
    change (rng a1 = rng b1 /\ faker a1 = faker b1 /\
            readings (clock a1) = readings (clock wa) /\
            readings (clock b1) = readings (clock wb) /\
            reads (clock a1) = (reads (clock wa) + 0)%nat /\
            reads (clock b1) = (reads (clock wb) + 0)%nat).
    rewrite Ra1, Rb1, Fa1, Fb1, Ca1, Cb1, Hs, Hw, Hn, !Nat.add_0_r. auto 10. }
  destruct (lockstep_run _ _ _ _ _ _ _ _ _ _ _ _ _ _
              (lockstep_gen_products wa wb (products a)) S0 Ga1 Gb1) as [S1 P1].
  pose proof (in_step_header _ _ _ _ _ _ _
                (Py.path_join (outdir a) "customers.csv")
                (Py.path_join (outdir b) "customers.csv") customers_header S1 La3 Lb3) as S3.
  destruct (lockstep_run _ _ _ _ _ _ _ _ _ _ _ _ _ _
              (lockstep_gen_customers wa wb (customers a)) S3 Ga3 Gb3) as [S4 P3].
  pose proof (in_step_libs _ _ _ _ _ _ _ S4 La5 Lb5) as S5.
  cbn [Nat.add] in P1, S3, P3, S4, S5. fold n in P3, S4, S5.
  (* the orders and the order items: the random source *)
  assert (R5 : rng a5 = rng b5) by apply S5.
  pose proof (orders_stage_rng _ _ _ _ _ _ _ _ _ _ _ _ _ _ _ _ _ R5 Ga6 Gb6 Ga7 Gb7) as R6.
  assert (R8 : rng a8 = rng b8)
    by (destruct La8 as [-> _], Lb8 as [-> _]; exact R6).
  destruct (items_stage_file a (Z.of_nat (List.length psa)) (Z.of_nat (List.length csa))
              (Z.of_nat (List.length osa)) a8 Hda Ia) as (ysa & Ha & Fia & Oa).
  destruct (items_stage_file b (Z.of_nat (List.length psb)) (Z.of_nat (List.length csb))
              (Z.of_nat (List.length osb)) b8 Hdb Ib) as (ysb & Hb & Fib & Ob).
  unfold file_after. rewrite !run_exec, Ea, Eb.
  split; [|split].
  - rewrite Fia, Fib. rewrite <- (Ha a8 eq_refl), <- (Hb a8 R8).
    rewrite <- Hp, <- Ho. reflexivity.
  - intros Hdates.
    rewrite (Oa (Py.path_join (outdir a) "products.csv") ltac:(paths_apart)).
    rewrite (Ob (Py.path_join (outdir b) "products.csv") ltac:(paths_apart)).
    rewrite (Oa (Py.path_join (outdir a) "customers.csv") ltac:(paths_apart)).
    rewrite (Ob (Py.path_join (outdir b) "customers.csv") ltac:(paths_apart)).
    rewrite Fpa, Fpb, Fca, Fcb.
    rewrite (P1 ltac:(intros i Hi; apply Hdates; lia)).
    rewrite (P3 ltac:(intros i Hi; apply Hdates; lia)). auto.
  - intros Htime.
    rewrite (Oa (Py.path_join (outdir a) "orders.csv") ltac:(paths_apart)).
    rewrite (Ob (Py.path_join (outdir b) "orders.csv") ltac:(paths_apart)).
    rewrite Foa, Fob.
    destruct (gen_orders_shape (orders a) (customers a)) as (it & Hit & Hshape).
    destruct (Hshape a5 _ eq_refl) as (a6x & Ea6 & Ra6).
    destruct (Hshape b5 _ eq_refl) as (b6x & Eb6 & Rb6).
    rewrite Ga6 in Ea6. rewrite Gb6 in Eb6.
    assert (ita = it (next_reading a5) /\ a6 = a6x) as [-> ->] by (split; congruence).
    assert (itb = it (next_reading b5) /\ b6 = b6x) as [-> ->] by (split; congruence).
    assert (Hnow : next_reading a5 = next_reading b5).
    { destruct S5 as (_ & _ & Hra & Hrb & Hja & Hjb). unfold next_reading.
      rewrite Hra, Hrb, Hja, Hjb. exact Htime. }
    rewrite Hnow in Ga7.
    destruct (Hit (next_reading b5)
                (header_written (Py.path_join (outdir a) "orders.csv") orders_header a6x)
                (header_written (Py.path_join (outdir b) "orders.csv") orders_header b6x))
      as (Hrows & _); [rewrite !header_written_rng; congruence|].
    rewrite Ga7, Gb7 in Hrows. cbn [rows fst] in Hrows. now rewrite Hrows.
Qed.

(** ** The further theorems at work *)

(** Two runs with the same counts, on two servers and into two directories,
    started a second apart. *)
Lemma run_reproducible_witness :
  products sample_args = products other_args /\
  customers sample_args = customers other_args /\
  orders sample_args = orders other_args /\
  (1 <= customers sample_args \/ orders sample_args <= 0)%Z /\
  outdir sample_args <> EmptyString /\ outdir other_args <> EmptyString /\
  can_load (sys (sample_world 1793750400)) = true /\
  can_load (sys (sample_world 1793750401)) = true /\
  stream (rng (sample_world 1793750400)) = stream (rng (sample_world 1793750401)) /\
  words (faker (sample_world 1793750400)) = words (faker (sample_world 1793750401)) /\
  numbers (faker (sample_world 1793750400)) = numbers (faker (sample_world 1793750401)) /\
  let n := (Z.to_nat (products sample_args) + Z.to_nat (customers sample_args))%nat in
  file_after sample_args (sample_world 1793750400) "order_items.csv" =
    file_after other_args (sample_world 1793750401) "order_items.csv" /\
  (same_dates n (sample_world 1793750400) (sample_world 1793750401) ->
   file_after sample_args (sample_world 1793750400) "products.csv" =
     file_after other_args (sample_world 1793750401) "products.csv" /\
   file_after sample_args (sample_world 1793750400) "customers.csv" =
     file_after other_args (sample_world 1793750401) "customers.csv") /\
  (same_time n (sample_world 1793750400) (sample_world 1793750401) ->
   file_after sample_args (sample_world 1793750400) "orders.csv" =
     file_after other_args (sample_world 1793750401) "orders.csv").
Proof.
  assert (Hp : products sample_args = products other_args) by reflexivity.
  assert (Hc : customers sample_args = customers other_args) by reflexivity.
  assert (Ho : orders sample_args = orders other_args) by reflexivity.
  assert (Hcust : (1 <= customers sample_args \/ orders sample_args <= 0)%Z)
    by (left; cbn; lia).
  assert (Hda : outdir sample_args <> EmptyString) by (cbn; discriminate).
  assert (Hdb : outdir other_args <> EmptyString) by (cbn; discriminate).
  assert (Hca : can_load (sys (sample_world 1793750400)) = true) by reflexivity.
  assert (Hcb : can_load (sys (sample_world 1793750401)) = true) by reflexivity.
  assert (Hs : stream (rng (sample_world 1793750400)) =
               stream (rng (sample_world 1793750401))) by reflexivity.
  assert (Hw : words (faker (sample_world 1793750400)) =
               words (faker (sample_world 1793750401))) by reflexivity.
  assert (Hn : numbers (faker (sample_world 1793750400)) =
               numbers (faker (sample_world 1793750401))) by reflexivity.
  repeat (split; [assumption|]).
  exact (run_reproducible sample_args other_args (sample_world 1793750400)
           (sample_world 1793750401) Hp Hc Ho Hcust Hda Hdb Hca Hcb Hs Hw Hn).
Defined.

Lemma order_items_file_reproducible_witness :
  stream (rng (sample_world 1793750400)) = stream (rng (sample_world 0)) /\
  (1 <= customers sample_args)%Z /\
  outdir sample_args <> EmptyString /\
  can_load (sys (sample_world 1793750400)) = true /\
  can_load (sys (sample_world 0)) = true /\
  file_after sample_args (sample_world 1793750400) "order_items.csv" =
  file_after sample_args (sample_world 0) "order_items.csv".
Proof.
  assert (Hs : stream (rng (sample_world 1793750400)) = stream (rng (sample_world 0)))
    by reflexivity.
  assert (Hc : (1 <= customers sample_args)%Z) by (cbn; lia).
  assert (Hd : outdir sample_args <> EmptyString) by (cbn; discriminate).
  assert (Ha : can_load (sys (sample_world 1793750400)) = true) by reflexivity.
  assert (Hb : can_load (sys (sample_world 0)) = true) by reflexivity.
  split; [exact Hs|]. split; [exact Hc|]. split; [exact Hd|]. split; [exact Ha|].
  split; [exact Hb|].
  exact (order_items_file_reproducible sample_args (sample_world 1793750400) (sample_world 0)
           Hs Hc Hd Ha Hb).
Defined.

Lemma gen_order_items_grouped_witness :
  (1 <= 5)%Z /\
  exists counts : list Z,
    List.length counts = Z.to_nat 3 /\
    Forall (fun k => 1 <= k <= 6)%Z counts /\
    map item_order (rows (gen_order_items 3 5 3.0 (sample_world 0))) =
      grouped (range 1 (3 + 1)) counts.
Proof.
  assert (H : (1 <= 5)%Z) by lia.
  split; [exact H|].
  exact (gen_order_items_grouped 3 5 3.0 (sample_world 0) H).
Defined.

Lemma gen_order_items_random_only_witness :
  rng (sample_world 0) = rng (sample_world 1793750400) /\
  rows (gen_order_items 3 5 3.0 (sample_world 0)) =
    rows (gen_order_items 3 5 3.0 (sample_world 1793750400)) /\
  outcome (gen_order_items 3 5 3.0 (sample_world 0)) =
    outcome (gen_order_items 3 5 3.0 (sample_world 1793750400)).
Proof.
  assert (H : rng (sample_world 0) = rng (sample_world 1793750400)) by reflexivity.
  split; [exact H|].
  exact (gen_order_items_random_only 3 5 3.0 (sample_world 0) (sample_world 1793750400) H).
Defined.

Lemma write_csv_leaves_rest_alone_witness :
  default_chunk <> 0%Z /\
  exists w',
    world_after (write_csv (Y := Empty_set) item_fields "data/order_items.csv" items_header
                   (iter sample_items) default_chunk (sample_world 0)) = w' /\
    (forall p, p <> "data/order_items.csv" ->
       files (sys w') p = files (sys (sample_world 0)) p) /\
    tables (sys w') = tables (sys (sample_world 0)) /\
    local_infile (sys w') = local_infile (sys (sample_world 0)) /\
    foreign_key_checks (sys w') = foreign_key_checks (sys (sample_world 0)) /\
    rng w' = rng (sample_world 0) /\ faker w' = faker (sample_world 0) /\
    clock w' = clock (sample_world 0).
Proof.
  assert (Hchunk : default_chunk <> 0%Z) by (unfold default_chunk; lia).
  split; [exact Hchunk|].
  exact (write_csv_leaves_rest_alone item_fields "data/order_items.csv" items_header
           sample_items default_chunk (sample_world 0) Hchunk).
Defined.



Lemma load_csv_missing_file_witness :
  files (sys (sample_world 0)) "data/orders.csv" = None /\
  exists w',
    load_csv (Y := Empty_set) "ecommerce_synth" "orders" "data/orders.csv" (sample_world 0) =
      ([], inr DatabaseError, w') /\
    foreign_key_checks (sys w') = false /\
    tables (sys w') = tables (sys (sample_world 0)) /\
    files (sys w') = files (sys (sample_world 0)).
Proof.
  assert (H : files (sys (sample_world 0)) "data/orders.csv" = None) by reflexivity.
  split; [exact H|].
  exact (load_csv_missing_file "ecommerce_synth" "orders" "data/orders.csv" (sample_world 0) H).
Defined.

Lemma run_completes_witness :
  (1 <= customers sample_args)%Z /\ (1 <= products sample_args)%Z /\
  outdir sample_args <> EmptyString /\ can_load (sys (sample_world 0)) = true /\
  exists (wf : World) (ps : list product_row) (cs : list customer_row)
         (os : list order_row) (items : list item_row) (counts : list Z)
         (before : list message),
    run sample_args (sample_world 0) = (inl tt, wf) /\
    List.length ps = Z.to_nat (products sample_args) /\
    List.length cs = Z.to_nat (customers sample_args) /\
    List.length os = Z.to_nat (orders sample_args) /\
    (List.length counts = Z.to_nat (orders sample_args) /\
     Forall (fun k => 1 <= k <= 6)%Z counts /\
     map item_order items = grouped (range 1 (orders sample_args + 1)) counts) /\
    files (sys wf) (Py.path_join (outdir sample_args) "products.csv") =
      Some (csv_text products_header (map product_fields ps)) /\
    files (sys wf) (Py.path_join (outdir sample_args) "customers.csv") =
      Some (csv_text customers_header (map customer_fields cs)) /\
    files (sys wf) (Py.path_join (outdir sample_args) "orders.csv") =
      Some (csv_text orders_header (map order_fields os)) /\
    files (sys wf) (Py.path_join (outdir sample_args) "order_items.csv") =
      Some (csv_text items_header (map item_fields items)) /\
    stdout (sys wf) =
      (before ++ [Say "All done!";
                  Summary (Z.of_nat (List.length ps)) (Z.of_nat (List.length cs))
                    (Z.of_nat (List.length os)) (Z.of_nat (List.length items))])%list /\
    foreign_key_checks (sys wf) = true.
Proof.
  assert (Hc : (1 <= customers sample_args)%Z) by (cbn; lia).
  assert (Hp : (1 <= products sample_args)%Z) by (cbn; lia).
  assert (Hd : outdir sample_args <> EmptyString) by (cbn; discriminate).
  assert (Hl : can_load (sys (sample_world 0)) = true) by reflexivity.
  split; [exact Hc|]. split; [exact Hp|]. split; [exact Hd|]. split; [exact Hl|].
  exact (run_completes sample_args (sample_world 0) Hc Hp Hd Hl).
Defined.

Lemma run_without_products_witness :
  (1 <= customers no_product_args)%Z /\ (products no_product_args <= 0)%Z /\
  (1 <= orders no_product_args)%Z /\
  outdir no_product_args <> EmptyString /\ can_load (sys (sample_world 0)) = true /\
  exists (wf : World) (cs : list customer_row) (os : list order_row),
    run no_product_args (sample_world 0) = (inr ValueError, wf) /\
    List.length cs = Z.to_nat (customers no_product_args) /\
    List.length os = Z.to_nat (orders no_product_args) /\
    files (sys wf) (Py.path_join (outdir no_product_args) "products.csv") =
      Some (csv_text products_header []) /\
    files (sys wf) (Py.path_join (outdir no_product_args) "customers.csv") =
      Some (csv_text customers_header (map customer_fields cs)) /\
    files (sys wf) (Py.path_join (outdir no_product_args) "orders.csv") =
      Some (csv_text orders_header (map order_fields os)) /\
    files (sys wf) (Py.path_join (outdir no_product_args) "order_items.csv") =
      Some (csv_text items_header []) /\
    foreign_key_checks (sys wf) = true.
Proof.
  assert (Hc : (1 <= customers no_product_args)%Z) by (cbn; lia).
  assert (Hp : (products no_product_args <= 0)%Z) by (cbn; lia).
  assert (Ho : (1 <= orders no_product_args)%Z) by (cbn; lia).
  assert (Hd : outdir no_product_args <> EmptyString) by (cbn; discriminate).
  assert (Hl : can_load (sys (sample_world 0)) = true) by reflexivity.
  split; [exact Hc|]. split; [exact Hp|]. split; [exact Ho|]. split; [exact Hd|].
  split; [exact Hl|].
  exact (run_without_products no_product_args (sample_world 0) Hc Hp Ho Hd Hl).
Defined.
